(** * Turbulence-Info-Bot: the shear and turbulence pipeline

    A shallow embedding of [main.py] and of the pipeline drivers and
    command handlers of [bot.py].  Python floats are IEEE 754 binary64 values and are modelled by
    Rocq's primitive [float]; array entries are taken to be binary64 as
    well.  The properties of the float operations come from the Standard
    Library's [FloatAxioms], which relate every primitive operation to its
    executable specification over [spec_float]. *)

From Stdlib Require Import ZArith Floats Lia Bool.
From stdpp Require Import base option list gmap strings.

Set Warnings "-inexact-float".

#[local] Open Scope Z_scope.
#[local] Open Scope float_scope.

(** ** Python exceptions and fallible computations *)

Inductive exn : Set :=
  | KeyError
  | ValueError
  | IndexError.

Inductive result (A : Type) : Type :=
  | Ok (a : A)
  | Raise (e : exn).

Arguments Ok {A} a.
Arguments Raise {A} e.

#[global] Instance result_ret : MRet result := fun A a => Ok a.

#[global] Instance result_bind : MBind result := fun A B k m =>
  match m with
  | Ok a => k a
  | Raise e => Raise e
  end.

Definition is_ok {A : Type} (m : result A) : bool :=
  match m with Ok _ => true | Raise _ => false end.

(** ** Binary64 values *)

(** Kinds of binary64 values, on the specification side. *)
Definition sf_finite (x : spec_float) : bool :=
  match x with S754_zero _ | S754_finite _ _ _ => true | _ => false end.

Definition sf_number (x : spec_float) : bool :=
  match x with S754_nan => false | _ => true end.

(** Not NaN and sign bit clear: [+0], a positive number or [+infinity]. *)
Definition sf_nonneg (x : spec_float) : bool :=
  match x with
  | S754_zero false | S754_infinity false | S754_finite false _ _ => true
  | _ => false
  end.

Definition mantissa_nonneg (mrs : shr_record) : Prop := (0 <= shr_m mrs)%Z.

(** ** Turbulence classifier ([main.py], [classify_turbulence]) *)

Module Classifier.

(** The integer thresholds [5], [10], [15] are converted to floats by the
    comparison; all three are exact in binary64. *)
Definition classify_turbulence (shear_value : float) : Z :=
  if shear_value <? 5 then 0%Z
  else if shear_value <? 10 then 1%Z
  else if shear_value <? 15 then 2%Z
  else 3%Z.

(** The four category codes of the docstring. *)
Definition is_level (c : Z) : Prop := c = 0%Z \/ c = 1%Z \/ c = 2%Z \/ c = 3%Z.

End Classifier.

(** ** Region boxes ([main.py], [convert_api_to_plot_format]; the
    continent table of [bot.py]) *)

Module Region.

(** A box is a Python list of floats.  The API (query) order is
    [North, West, South, East]; the plot (display) order is
    [West, East, South, North]. *)
Abbreviation box := (list float).

(** [north, west, south, east = api_coords] unpacks exactly four items and
    raises [ValueError] on any other length. *)
Definition convert_api_to_plot_format (api_coords : box) : result box :=
  match api_coords with
  | [north; west; south; east] => Ok [west; east; south; north]
  | _ => Raise ValueError
  end.

(** Modelled from the spec: the repository has no conversion from display
    form back to query form; section 3 fixes the two orders, query form
    (north, west, south, east) and display form (west, east, south, north),
    and section 8 names the map from the second to the first [toQueryForm]. *)
Definition toQueryForm (display : box) : result box :=
  match display with
  | [west; east; south; north] => Ok [north; west; south; east]
  | _ => Raise ValueError
  end.

(** The dict literal [continent_boundaries]; [get_windshear_data] and
    [get_turbulence_data] each build the same one. *)
Definition continent_boundaries : gmap string box :=
  list_to_map
    [ ("Africa"%string, [37.38; -18.03; -34.83; 51.48]);
      ("Antarctica"%string, [-60.00; -180.00; -90.00; 180.00]);
      ("Asia"%string, [77.71; 25.98; -11.02; 179.69]);
      ("Australia"%string, [-10.07; 112.92; -43.63; 159.11]);
      ("Europe"%string, [71.00; -31.00; 36.00; 40.00]);
      ("North America"%string, [83.17; -168.69; 14.53; -52.62]);
      ("South America"%string, [13.40; -81.30; -55.96; -34.76]) ].

(** [continent_boundaries.get(continent, [71.0, -31.0, 36.0, 40.0])]. *)
Definition get_boundaries (continent : string) : box :=
  default [71.0; -31.0; 36.0; 40.0] (continent_boundaries !! continent).

Definition continent_names : list string :=
  [ "Africa"; "Antarctica"; "Asia"; "Australia"; "Europe";
    "North America"; "South America" ]%string.

End Region.

(** ** The array layer (xarray and NumPy, as far as the pipeline uses it) *)

Module Xarray.

(** A two-dimensional block of values, [latitude] rows of [longitude]
    entries.  NumPy arrays are rectangular; [rectangular] below says so. *)
Abbreviation grid := (list (list float)).

Definition grid_map (f : float -> float) (g : grid) : grid :=
  (fun row : list float => f <$> row) <$> g.

Definition rectangular {A : Type} (nrows ncols : nat) (g : list (list A)) : Prop :=
  length g = nrows /\ Forall (fun row => length row = ncols) g.

(** *** Index labels and alignment

    A pandas float index looks labels up by value: equal floats are the
    same label (so are [0.0] and [-0.0]), and NaN labels match each other. *)
Definition label_eqb (x y : float) : bool :=
  (x =? y) || (is_nan x && is_nan y).

Fixpoint labels_eqb (l r : list float) : bool :=
  match l, r with
  | [], [] => true
  | x :: l, y :: r => label_eqb x y && labels_eqb l r
  | _, _ => false
  end.

Definition has_label (x : float) (l : list float) : bool :=
  existsb (label_eqb x) l.

Fixpoint has_duplicates (l : list float) : bool :=
  match l with
  | [] => false
  | x :: l => has_label x l || has_duplicates l
  end.

Fixpoint index_of (x : float) (l : list float) : option nat :=
  match l with
  | [] => None
  | y :: l => if label_eqb x y then Some 0%nat else S <$> index_of x l
  end.

(** Position [p] of [l] carries the label [y]. *)
Definition labelled (l : list float) (y : float) (p : nat) : Prop :=
  exists y', l !! p = Some y' /\ label_eqb y y' = true.

(** [numpy.take]: the entries at the given positions. *)
Definition take_at {A : Type} (pos : list nat) (l : list A) : list A :=
  omap (fun i => l !! i) pos.

Record alignment : Type := {
  joined : list float;
  left_pos : list nat;
  right_pos : list nat
}.

(** Arithmetic between two labelled arrays aligns each shared dimension
    with an inner join: equal indexes are left alone; otherwise the labels
    of the left operand that also occur in the right one are kept, in the
    order of the left operand; an index with repeated labels cannot be
    reindexed. *)
Definition align (l r : list float) : result alignment :=
  if labels_eqb l r then
    Ok {| joined := l; left_pos := seq 0 (length l); right_pos := seq 0 (length r) |}
  else if has_duplicates l || has_duplicates r then Raise ValueError
  else
    let common := List.filter (fun x => has_label x r) l in
    Ok {| joined := common;
          left_pos := omap (fun x => index_of x l) common;
          right_pos := omap (fun x => index_of x r) common |}.

(** *** Labelled arrays *)

(** A [DataArray] with dimensions (latitude, longitude). *)
Record Field : Type := {
  latitude : list float;
  longitude : list float;
  values : grid
}.

(** The value array has the shape its coordinates give. *)
Definition wf_field (f : Field) : Prop :=
  rectangular (length (latitude f)) (length (longitude f)) (values f).

Definition at_point {A : Type} (g : list (list A)) (i j : nat) : option A :=
  g !! i ≫= fun row => row !! j.

(** A [DataArray] with dimensions (valid_time, latitude, longitude). *)
Record DataArray : Type := {
  da_valid_time : list float;
  da_latitude : list float;
  da_longitude : list float;
  da_values : list grid
}.

(** The downloaded [Dataset]: every variable has dimensions
    (valid_time, pressure_level, latitude, longitude). *)
Record Dataset : Type := {
  ds_valid_time : list float;
  ds_pressure_level : list Z;
  ds_latitude : list float;
  ds_longitude : list float;
  ds_vars : gmap string (list (list grid))
}.

(** The shapes of rectangular arrays of three and four dimensions. *)
Definition cube (nt nlat nlon : nat) (v : list grid) : Prop :=
  length v = nt /\ Forall (rectangular nlat nlon) v.

Definition hypercube (nt nl nlat nlon : nat) (var : list (list grid)) : Prop :=
  length var = nt /\
  Forall (fun levels => length levels = nl /\ Forall (rectangular nlat nlon) levels) var.

Definition wf_array (a : DataArray) : Prop :=
  cube (length (da_valid_time a)) (length (da_latitude a))
       (length (da_longitude a)) (da_values a).

(** An array over the coordinates of [data]. *)
Definition over (data : Dataset) (a : DataArray) : Prop :=
  da_valid_time a = ds_valid_time data /\
  da_latitude a = ds_latitude data /\
  da_longitude a = ds_longitude data /\
  cube (length (ds_valid_time data)) (length (ds_latitude data))
       (length (ds_longitude data)) (da_values a).

(** A multi-level observation: at least one time step, both pressure
    levels among the distinct labels of the level index, and [u], [v], [z]
    present with the shape the four coordinates give. *)
Record valid_observation (data : Dataset) : Prop := {
  vo_time : ds_valid_time data <> [];
  vo_lower : 500%Z ∈ ds_pressure_level data;
  vo_upper : 300%Z ∈ ds_pressure_level data;
  vo_levels : NoDup (ds_pressure_level data);
  vo_vars : forall name : string, name ∈ ["u"; "v"; "z"]%string ->
      exists var, ds_vars data !! name = Some var /\
        hypercube (length (ds_valid_time data)) (length (ds_pressure_level data))
                  (length (ds_latitude data)) (length (ds_longitude data)) var
}.

(** Every value of [u], [v] and [z] is finite. *)
Definition finite_values (data : Dataset) : Prop :=
  Forall (fun name : string =>
            from_option
              (Forall (Forall (Forall (Forall (fun x => is_finite x = true)))))
              True (ds_vars data !! name))
         ["u"; "v"; "z"]%string.

Definition at_cube (v : list grid) (t i j : nat) : option float :=
  v !! t ≫= fun g => at_point g i j.

(** The position of a label in the pressure-level index. *)
Definition level_index (data : Dataset) (level : Z) : option nat :=
  fst <$> list_find (fun l => l = level) (ds_pressure_level data).

(** A variable at a pressure level, first time step: the whole grid, one
    column of it, and the value at one grid point. *)
Definition observed_grid (data : Dataset) (name : string) (level : Z)
  : option grid :=
  var ← ds_vars data !! name;
  k ← level_index data level;
  levels ← var !! 0%nat;
  levels !! k.

Definition column (g : grid) (j : nat) : list float :=
  omap (fun row => row !! j) g.

Definition observed (data : Dataset) (name : string) (level : Z) (i j : nat)
  : option float :=
  observed_grid data name level ≫= fun g => at_point g i j.

Definition or_raise {A : Type} (e : exn) (o : option A) : result A :=
  match o with
  | Some a => Ok a
  | None => Raise e
  end.

(** [data[name].sel(pressure_level=level)]: a missing variable or a level
    that is not a label of the index is a [KeyError]. *)
Definition sel_pressure_level (data : Dataset) (name : string) (level : Z)
  : result DataArray :=
  var ← or_raise KeyError (ds_vars data !! name);
  k ← or_raise KeyError (level_index data level);
  Ok {| da_valid_time := ds_valid_time data;
        da_latitude := ds_latitude data;
        da_longitude := ds_longitude data;
        da_values := (fun levels => default [] (levels !! k)) <$> var |}.

(** Elementwise unary functions ([np.sqrt], [** 2]). *)
Definition da_map (f : float -> float) (a : DataArray) : DataArray :=
  {| da_valid_time := da_valid_time a;
     da_latitude := da_latitude a;
     da_longitude := da_longitude a;
     da_values := grid_map f <$> da_values a |}.

Definition reindex (rows cols : list nat) (g : grid) : grid :=
  take_at rows (take_at cols <$> g).

Definition zip3 (op : float -> float -> float) (a b : list grid) : list grid :=
  zip_with (zip_with (zip_with op)) a b.

(** Binary arithmetic on arrays of dimensions (valid_time, latitude,
    longitude): align every dimension, then combine position by position. *)
Definition da_binop (op : float -> float -> float) (a b : DataArray)
  : result DataArray :=
  t ← align (da_valid_time a) (da_valid_time b);
  la ← align (da_latitude a) (da_latitude b);
  lo ← align (da_longitude a) (da_longitude b);
  Ok {| da_valid_time := joined t;
        da_latitude := joined la;
        da_longitude := joined lo;
        da_values :=
          zip3 op
            (take_at (left_pos t) (reindex (left_pos la) (left_pos lo) <$> da_values a))
            (take_at (right_pos t) (reindex (right_pos la) (right_pos lo) <$> da_values b)) |}.

Definition field_map (f : float -> float) (a : Field) : Field :=
  {| latitude := latitude a;
     longitude := longitude a;
     values := grid_map f (values a) |}.

(** The same on arrays of dimensions (latitude, longitude). *)
Definition field_binop (op : float -> float -> float) (a b : Field)
  : result Field :=
  la ← align (latitude a) (latitude b);
  lo ← align (longitude a) (longitude b);
  Ok {| latitude := joined la;
        longitude := joined lo;
        values :=
          zip_with (zip_with op)
            (reindex (left_pos la) (left_pos lo) (values a))
            (reindex (right_pos la) (right_pos lo) (values b)) |}.

(** [.isel(valid_time=0)]: the first time step, without the time
    dimension; an empty time axis is an [IndexError]. *)
Definition isel_valid_time_0 (a : DataArray) : result Field :=
  match da_values a with
  | g :: _ =>
      Ok {| latitude := da_latitude a; longitude := da_longitude a; values := g |}
  | [] => Raise IndexError
  end.

(** What [.squeeze()] leaves of a (latitude, longitude) array: every
    dimension of length one is dropped and its label kept as a scalar
    coordinate; the values stay in row-major order. *)
Inductive Squeezed : Type :=
  | Grid (f : Field)
  | AlongLongitude (lat0 : float) (lon : list float) (xs : list float)
  | AlongLatitude (lat : list float) (lon0 : float) (xs : list float)
  | Point (lat0 lon0 : float) (xs : list float).

Definition squeeze (f : Field) : Squeezed :=
  match latitude f, longitude f with
  | [lat0], [lon0] => Point lat0 lon0 (concat (values f))
  | [lat0], lon => AlongLongitude lat0 lon (concat (values f))
  | lat, [lon0] => AlongLatitude lat lon0 (concat (values f))
  | _, _ => Grid f
  end.

(** The dimension sizes of an array, outermost first. *)
Definition shape (s : Squeezed) : list nat :=
  match s with
  | Grid f => [length (latitude f); length (longitude f)]
  | AlongLongitude _ lon _ => [length lon]
  | AlongLatitude lat _ _ => [length lat]
  | Point _ _ _ => []
  end.

(** *** Numerical differentiation ([DataArray.differentiate], that is
    [numpy.gradient] with the coordinate as spacing and [edge_order=1]) *)

(** [np.diff]. *)
Definition diff (x : list float) : list float :=
  zip_with (fun b a => b - a) (drop 1 x) x.

(** The spacing of an axis: a scalar when all coordinate steps are equal. *)
Inductive spacing : Type :=
  | Uniform (dx : float)
  | Varying (dx : list float).

(** A spacing that belongs to an axis of [n] points. *)
Definition fits (sp : spacing) (n : nat) : Prop :=
  match sp with
  | Uniform _ => True
  | Varying dx => S (length dx) = n
  end.

(** An axis of fewer than two points has no first step: NumPy raises. *)
Definition axis_spacing (x : list float) : result spacing :=
  match diff x with
  | [] => Raise IndexError
  | (dx0 :: _) as dx =>
      Ok (if forallb (fun d => d =? dx0) dx then Uniform dx0 else Varying dx)
  end.

(** The steps used at the two edges: [dx[0]] and [dx[-1]]. *)
Definition first_step (sp : spacing) : float :=
  match sp with
  | Uniform dx => dx
  | Varying dx => default nan (head dx)
  end.

Definition last_step (sp : spacing) : float :=
  match sp with
  | Uniform dx => dx
  | Varying dx => default nan (last dx)
  end.

Section Gradient.
(** The slices NumPy combines are numbers along the last axis and whole
    rows along the first one. *)
Context {A : Type}.
Variable sub add : A -> A -> A.
Variable scale : float -> A -> A.
Variable divide : A -> float -> A.

(** Interior points, second order: [out[1:-1]]. *)
Definition interior (sp : spacing) (f : list A) : list A :=
  match sp with
  | Uniform dx =>
      zip_with (fun f4 f2 => divide (sub f4 f2) (2 * dx)) (drop 2 f) f
  | Varying dx =>
      let coef :=
        zip_with (fun dx1 dx2 =>
                    ((- dx2) / (dx1 * (dx1 + dx2)),
                     (dx2 - dx1) / (dx1 * dx2),
                     dx1 / (dx2 * (dx1 + dx2))))
                 dx (drop 1 dx) in
      zip_with (fun abc f234 =>
                  let '(a, b, c) := abc in
                  let '(f2, f3, f4) := f234 in
                  add (add (scale a f2) (scale b f3)) (scale c f4))
               coef (zip (zip f (drop 1 f)) (drop 2 f))
  end.

(** Edges, first order: [out[0]] and [out[-1]]. *)
Definition first_edge (sp : spacing) (f : list A) : list A :=
  match f with
  | f0 :: f1 :: _ =>
      let dx_0 := first_step sp in
      [divide (sub f1 f0) dx_0]
  | _ => []
  end.

Definition last_edge (sp : spacing) (f : list A) : list A :=
  match reverse f with
  | fn :: fm :: _ =>
      let dx_n := last_step sp in
      [divide (sub fn fm) dx_n]
  | _ => []
  end.

Definition gradient (sp : spacing) (f : list A) : list A :=
  first_edge sp f ++ interior sp f ++ last_edge sp f.
End Gradient.

Definition gradient_floats : spacing -> list float -> list float :=
  gradient PrimFloat.sub PrimFloat.add PrimFloat.mul PrimFloat.div.

Definition gradient_rows : spacing -> grid -> grid :=
  gradient (zip_with PrimFloat.sub) (zip_with PrimFloat.add)
           (fun a row => PrimFloat.mul a <$> row)
           (fun row d => (fun x => x / d) <$> row).

(** [a.differentiate('longitude')]. *)
Definition differentiate_longitude (a : DataArray) : result DataArray :=
  sp ← axis_spacing (da_longitude a);
  Ok {| da_valid_time := da_valid_time a;
        da_latitude := da_latitude a;
        da_longitude := da_longitude a;
        da_values := (fun g : grid => gradient_floats sp <$> g) <$> da_values a |}.

(** [a.differentiate('latitude')]. *)
Definition differentiate_latitude (a : DataArray) : result DataArray :=
  sp ← axis_spacing (da_latitude a);
  Ok {| da_valid_time := da_valid_time a;
        da_latitude := da_latitude a;
        da_longitude := da_longitude a;
        da_values := gradient_rows sp <$> da_values a |}.

End Xarray.

(** ** Shear calculator ([main.py]) *)

Module Shear.
Import Xarray.

(** [x ** 2] on a float array is the square [x * x]. *)
Definition pow2 (x : float) : float := x * x.

(** The value the vertical shear has at one grid point, and the sum of
    squares under its root. *)
Definition radicand (u1 u2 v1 v2 z1 z2 : float) : float :=
  pow2 ((u1 - u2) / (z1 - z2)) + pow2 ((v1 - v2) / (z1 - z2)).

Definition shear_formula (u1 u2 v1 v2 z1 z2 : float) : float :=
  sqrt (radicand u1 u2 v1 v2 z1 z2).

Definition calculate_wind_shear (data : Dataset) : result Squeezed :=
  u2 ← sel_pressure_level data "u" 300;
  v2 ← sel_pressure_level data "v" 300;
  z2 ← sel_pressure_level data "z" 300;
  u1 ← sel_pressure_level data "u" 500;
  v1 ← sel_pressure_level data "v" 500;
  z1 ← sel_pressure_level data "z" 500;
  delta_u ← da_binop PrimFloat.sub u1 u2;
  delta_v ← da_binop PrimFloat.sub v1 v2;
  delta_z ← da_binop PrimFloat.sub z1 z2;
  qu ← da_binop PrimFloat.div delta_u delta_z;
  qv ← da_binop PrimFloat.div delta_v delta_z;
  total ← da_binop PrimFloat.add (da_map pow2 qu) (da_map pow2 qv);
  let vertical_shear := da_map PrimFloat.sqrt total in
  vertical_shear_0 ← isel_valid_time_0 vertical_shear;
  Ok (squeeze vertical_shear_0).

Definition calculate_horizontal_shear (data : Dataset) : result Squeezed :=
  u_wind ← sel_pressure_level data "u" 500;
  v_wind ← sel_pressure_level data "v" 500;
  u_lat_gradient ← differentiate_latitude u_wind;
  u_lon_gradient ← differentiate_longitude u_wind;
  v_lat_gradient ← differentiate_latitude v_wind;
  v_lon_gradient ← differentiate_longitude v_wind;
  total ← da_binop PrimFloat.add (da_map pow2 u_lon_gradient) (da_map pow2 v_lat_gradient);
  let horizontal_shear := da_map PrimFloat.sqrt total in
  horizontal_shear_0 ← isel_valid_time_0 horizontal_shear;
  Ok (squeeze horizontal_shear_0).

(** Follows the specification: only the longitude gradient of [u] and the
    latitude gradient of [v], both at the lower level, enter. *)
Definition horizontalShear (data : Dataset) : result Squeezed :=
  u_wind ← sel_pressure_level data "u" 500;
  v_wind ← sel_pressure_level data "v" 500;
  du_dlon ← differentiate_longitude u_wind;
  dv_dlat ← differentiate_latitude v_wind;
  total ← da_binop PrimFloat.add (da_map pow2 du_dlon) (da_map pow2 dv_dlat);
  horizontal_shear_0 ← isel_valid_time_0 (da_map PrimFloat.sqrt total);
  Ok (squeeze horizontal_shear_0).

(** [np.sqrt(horizontal_shear**2 + vertical_shear**2)] on two
    (latitude, longitude) fields. *)
Definition calculate_general_wind_shear (vertical_shear horizontal_shear : Field)
  : result Field :=
  total ← field_binop PrimFloat.add (field_map pow2 horizontal_shear)
                                    (field_map pow2 vertical_shear);
  Ok (field_map PrimFloat.sqrt total).

End Shear.

(** ** Renderer ([main.py], [plot_wind_shear] and [plot_turbulence_level])

    The drawing library and the data service are outside the repository.
    A run is recorded as the list of calls made on them, in order. *)

Module Plot.
Import Region Xarray.

Record date : Type := { year : Z; month : Z; day : Z }.
Record time : Type := { hour : Z; minute : Z }.

(** The request dictionary of [download_era5_data]. *)
Record request : Type := {
  req_product_type : list string;
  req_variable : list string;
  req_date : date;
  req_time : time;
  req_pressure_level : list Z;
  req_format : string;
  req_area : box
}.

(** An array of category codes with dimensions (latitude, longitude). *)
Record TurbulenceField : Type := {
  t_latitude : list float;
  t_longitude : list float;
  t_values : list (list Z)
}.

Inductive event : Type :=
  | Retrieve (r : request)
  | Subplots
  | SetExtent (extent : box)
  | PColorMesh (lon lat : list float) (c : grid)
  | PColorMeshLevels (lon lat : list float) (c : list (list Z)) (colors : list string)
  | Coastlines
  | Gridlines
  | SetTitle (title : string)
  | Colorbar (label : string) (ticklabels : list string)
  | SaveFig (filename : string)
  | Show.

(** A computation that calls out and may raise: the calls made so far and
    the outcome. *)
Record M (A : Type) : Type := { trace : list event; outcome : result A }.
Arguments trace {A} m.
Arguments outcome {A} m.

#[global] Instance M_ret : MRet M := fun A a => {| trace := []; outcome := Ok a |}.

#[global] Instance M_bind : MBind M := fun A B k m =>
  match outcome m with
  | Ok a => {| trace := trace m ++ trace (k a); outcome := outcome (k a) |}
  | Raise e => {| trace := trace m; outcome := Raise e |}
  end.

Definition emit (e : event) : M unit := {| trace := [e]; outcome := Ok tt |}.

Definition lift {A : Type} (r : result A) : M A := {| trace := []; outcome := r |}.

(** The map extents set and the areas requested during a run. *)
Definition extent_of (e : event) : option box :=
  match e with
  | SetExtent extent => Some extent
  | _ => None
  end.

Definition area_of (e : event) : option box :=
  match e with
  | Retrieve r => Some (req_area r)
  | _ => None
  end.

(** A run reports [b] under [proj] at most [n] times and nothing else,
    and exactly [n] times when it completes. *)
Definition emits {A B : Type} (proj : event -> option B) (b : B) (n : nat)
    (m : M A) : Prop :=
  exists k, (k <= n)%nat /\ omap proj (trace m) = replicate k b /\
            (is_ok (outcome m) = true -> k = n).

(** [pcolormesh] unpacks the two dimensions of its colour array; an array
    that lost a dimension to [squeeze] is rejected. *)
Definition as_field (data : Squeezed) : result Field :=
  match data with
  | Grid f => Ok f
  | _ => Raise ValueError
  end.

(** The default of the [continent] parameter of both plot functions. *)
Definition default_continent : box := [71.0; -31.0; 36.0; 40.0].

Definition plot_wind_shear (data : Squeezed) (title filename : string)
    (continent : box) : M unit :=
  emit Subplots;;
  extent ← lift (convert_api_to_plot_format continent);
  emit (SetExtent extent);;
  f ← lift (as_field data);
  let lat := latitude f in
  let lon := longitude f in
  emit (PColorMesh lon lat (values f));;
  emit Coastlines;;
  emit Gridlines;;
  emit (SetTitle title);;
  emit (Colorbar "Wind Shear (m/s)" []);;
  emit (SaveFig filename);;
  emit Show.

Definition plot_turbulence_level (data : TurbulenceField) (filename : string)
    (continent : box) : M unit :=
  let cmap := ["blue"; "green"; "orange"; "red"]%string in
  emit Subplots;;
  extent ← lift (convert_api_to_plot_format continent);
  emit (SetExtent extent);;
  emit (PColorMeshLevels (t_longitude data) (t_latitude data) (t_values data) cmap);;
  emit Coastlines;;
  emit Gridlines;;
  emit (SetTitle "Turbulence Level Based on General Wind Shear");;
  emit (Colorbar "Turbulence Level" ["Light"; "Moderate"; "Severe"; "Extreme"]%string);;
  emit (SaveFig filename);;
  emit Show.

(** [download_era5_data]: the minutes are set to zero, the request is sent,
    and the file the service wrote is opened.  [cds] stands for the service
    and the file reader together. *)
Definition download_era5_data (cds : request -> result Dataset)
    (d : date) (t : time) (area : box) : M Dataset :=
  let t := {| hour := hour t; minute := 0 |} in
  let r := {| req_product_type := ["reanalysis"]%string;
              req_variable :=
                ["u_component_of_wind"; "v_component_of_wind"; "geopotential"]%string;
              req_date := d;
              req_time := t;
              req_pressure_level := [500; 300]%Z;
              req_format := "nc";
              req_area := area |} in
  emit (Retrieve r);;
  lift (cds r).

End Plot.

(** ** Elementwise classification (the two lines after the general shear
    in [get_turbulence_data] and in [main]) *)

Module Vectorize.
Import Classifier Xarray Plot.

(** [np.vectorize(classify_turbulence)(general_wind_shear)]: the classifier
    is applied to every entry; without [otypes] NumPy finds the output type
    by calling the function on the first entry and refuses an input of
    size zero. *)
Definition vectorize_classify_turbulence (general_wind_shear : Field)
  : result (list (list Z)) :=
  match concat (values general_wind_shear) with
  | [] => Raise ValueError
  | _ :: _ =>
      Ok ((fun row : list float => classify_turbulence <$> row)
            <$> values general_wind_shear)
  end.

(** [xr.DataArray(turbulence, coords=[latitude, longitude], dims=...)]
    checks the array against the sizes of the two coordinates. *)
Definition DataArray_latitude_longitude (data : list (list Z))
    (lat lon : list float) : result TurbulenceField :=
  if bool_decide (length data = length lat /\
                  Forall (fun row => length row = length lon) data)
  then Ok {| t_latitude := lat; t_longitude := lon; t_values := data |}
  else Raise ValueError.

Definition classify_field (general_wind_shear : Field) : result TurbulenceField :=
  turbulence ← vectorize_classify_turbulence general_wind_shear;
  DataArray_latitude_longitude turbulence
    (latitude general_wind_shear) (longitude general_wind_shear).

End Vectorize.

(** ** The two pipelines of [bot.py] and [main] of [main.py]

    Each shear field has been drawn by [plot_wind_shear] before the two are
    combined, so both are grids at that point. *)

Module Bot.
Import Classifier Region Xarray Shear Plot Vectorize.

Definition get_windshear_data (cds : request -> result Dataset)
    (d : date) (t : time) (continent : string) : M string :=
  let continent := get_boundaries continent in
  data ← download_era5_data cds d t continent;
  vertical_shear ← lift (calculate_wind_shear data);
  plot_wind_shear vertical_shear "Vertical Wind Shear"
                  "vertical_wind_shear.png" continent;;
  horizontal_shear ← lift (calculate_horizontal_shear data);
  plot_wind_shear horizontal_shear "Horizontal Wind Shear"
                  "horizontal_wind_shear.png" continent;;
  general_wind_shear ←
    lift (v ← as_field vertical_shear;
          h ← as_field horizontal_shear;
          calculate_general_wind_shear v h);
  plot_wind_shear (Grid general_wind_shear)
                  "General Wind Shear (Vertical + Horizontal)"
                  "general_wind_shear.png" continent;;
  mret "general_wind_shear.png"%string.

Definition get_turbulence_data (cds : request -> result Dataset)
    (d : date) (t : time) (continent : string) : M string :=
  let continent := get_boundaries continent in
  data ← download_era5_data cds d t continent;
  vertical_shear ← lift (calculate_wind_shear data);
  plot_wind_shear vertical_shear "Vertical Wind Shear"
                  "vertical_wind_shear.png" continent;;
  horizontal_shear ← lift (calculate_horizontal_shear data);
  plot_wind_shear horizontal_shear "Horizontal Wind Shear"
                  "horizontal_wind_shear.png" continent;;
  general_wind_shear ←
    lift (v ← as_field vertical_shear;
          h ← as_field horizontal_shear;
          calculate_general_wind_shear v h);
  plot_wind_shear (Grid general_wind_shear)
                  "General Wind Shear (Vertical + Horizontal)"
                  "general_wind_shear.png" continent;;
  turbulence_data ← lift (classify_field general_wind_shear);
  plot_turbulence_level turbulence_data "turbulence_level.png" continent;;
  mret "turbulence_level.png"%string.

(** [main]: the same steps for Europe on a fixed date, with the plot
    functions left to their default region. *)
Definition main (cds : request -> result Dataset) : M unit :=
  let d := {| year := 2024; month := 11; day := 15 |} in
  let t := {| hour := 10; minute := 0 |} in
  let area := [71.0; -31.0; 36.0; 40.0] in
  data ← download_era5_data cds d t area;
  vertical_shear ← lift (calculate_wind_shear data);
  plot_wind_shear vertical_shear "Vertical Wind Shear"
                  "vertical_wind_shear.png" default_continent;;
  horizontal_shear ← lift (calculate_horizontal_shear data);
  plot_wind_shear horizontal_shear "Horizontal Wind Shear"
                  "horizontal_wind_shear.png" default_continent;;
  general_wind_shear ←
    lift (v ← as_field vertical_shear;
          h ← as_field horizontal_shear;
          calculate_general_wind_shear v h);
  plot_wind_shear (Grid general_wind_shear)
                  "General Wind Shear (Vertical + Horizontal)"
                  "general_wind_shear.png" default_continent;;
  turbulence_data ← lift (classify_field general_wind_shear);
  plot_turbulence_level turbulence_data "turbulence_level.png" default_continent.

End Bot.

(** ** Sample observations *)

Module Samples.
Import Xarray.

Definition constant_grid (nlat nlon : nat) (x : float) : grid :=
  replicate nlat (replicate nlon x).

(** An observation at one time step, levels 500 and 300 in that order,
    every variable constant on each level. *)
Definition constant_observation (lat lon : list float)
    (u500 u300 v500 v300 z500 z300 : float) : Dataset :=
  let g := constant_grid (length lat) (length lon) in
  {| ds_valid_time := [0];
     ds_pressure_level := [500; 300]%Z;
     ds_latitude := lat;
     ds_longitude := lon;
     ds_vars := list_to_map [ ("u"%string, [[g u500; g u300]]);
                              ("v"%string, [[g v500; g v300]]);
                              ("z"%string, [[g z500; g z300]]) ] |}.

(** The end-to-end scenario of the specification, section 8. *)
Definition scenario : Dataset :=
  constant_observation [50.0; 49.75] [10.0; 10.25] 10 20 0 0 5000 9000.

(** The same values on a grid of one latitude. *)
Definition single_row : Dataset :=
  constant_observation [50.0] [10.0; 10.25] 10 20 0 0 5000 9000.

(** Finite values whose quotient squared leaves the binary64 range. *)
Definition huge_wind : Dataset :=
  constant_observation [50.0; 49.75] [10.0; 10.25] 1e200 0 0 0 5000 9000.

(** Two fields that share the latitude 49.75 only. *)
Definition vertical_sample : Field :=
  {| latitude := [50.0; 49.75]; longitude := [10.0; 10.25];
     values := [[3; 3]; [3; 3]] |}.

Definition horizontal_sample : Field :=
  {| latitude := [49.75; 49.5]; longitude := [10.0; 10.25];
     values := [[4; 4]; [4; 4]] |}.

End Samples.

(** ** A sample observation with wind that changes over the grid *)

Module Sheared.
Import Xarray.

(** Three latitudes a quarter of a degree apart and three longitudes with
    steps of one and two degrees; at level 500 [u] grows along each row
    and [v] down each column. *)
Definition observation : Dataset :=
  {| ds_valid_time := [0];
     ds_pressure_level := [500; 300]%Z;
     ds_latitude := [50.0; 49.75; 49.5];
     ds_longitude := [0; 1; 3];
     ds_vars :=
       list_to_map
         [ ("u"%string, [[ [[0; 1; 9]; [0; 1; 9]; [0; 1; 9]];
                           Samples.constant_grid 3 3 20 ]]);
           ("v"%string, [[ [[1; 1; 1]; [2; 2; 2]; [4; 4; 4]];
                           Samples.constant_grid 3 3 0 ]]);
           ("z"%string, [[ Samples.constant_grid 3 3 5000;
                           Samples.constant_grid 3 3 9000 ]]) ] |}.

End Sheared.

(** ** What a run leaves behind *)

Module Observe.
Import Xarray Plot.

(** The files written by [savefig], the grids drawn by [plot_wind_shear]
    and the category arrays drawn by [plot_turbulence_level]. *)
Definition saved_of (e : event) : option string :=
  match e with
  | SaveFig filename => Some filename
  | _ => None
  end.

Definition drawn_of (e : event) : option Field :=
  match e with
  | PColorMesh lon lat c => Some {| latitude := lat; longitude := lon; values := c |}
  | _ => None
  end.

Definition levels_of (e : event) : option TurbulenceField :=
  match e with
  | PColorMeshLevels lon lat c _ =>
      Some {| t_latitude := lat; t_longitude := lon; t_values := c |}
  | _ => None
  end.

Definition request_of (e : event) : option request :=
  match e with
  | Retrieve r => Some r
  | _ => None
  end.

(** The figures created by [plt.subplots]. *)
Definition figure_of (e : event) : option unit :=
  match e with
  | Subplots => Some tt
  | _ => None
  end.

End Observe.

(** ** Command handlers ([bot.py])

    A handler is run by the Telegram library with the words that follow the
    command ([context.args]).  What it does is recorded as the calls of the
    pipelines it runs and the messages it sends back, in order.  Sending a
    message is taken to succeed.  The clock, the date parser and the text
    of an exception belong to the Python runtime and are left open. *)

Module Handlers.
Import Region Xarray Plot Bot.

Inductive action : Type :=
  | Call (e : event)
  | ReplyText (text : string)
  | ReplyPhoto (path : string).

Record Handler (A : Type) : Type := { actions : list action; finished : result A }.
Arguments actions {A} h.
Arguments finished {A} h.

#[global] Instance Handler_ret : MRet Handler := fun A a =>
  {| actions := []; finished := Ok a |}.

#[global] Instance Handler_bind : MBind Handler := fun A B k h =>
  match finished h with
  | Ok a => {| actions := actions h ++ actions (k a); finished := finished (k a) |}
  | Raise e => {| actions := actions h; finished := Raise e |}
  end.

Definition reply_text (text : string) : Handler unit :=
  {| actions := [ReplyText text]; finished := Ok tt |}.

(** [reply_photo(open(path, 'rb'))]. *)
Definition reply_photo (path : string) : Handler unit :=
  {| actions := [ReplyPhoto path]; finished := Ok tt |}.

(** A computation without calls of its own. *)
Definition eval {A : Type} (r : result A) : Handler A :=
  {| actions := []; finished := r |}.

(** A pipeline run from a handler. *)
Definition call {A : Type} (m : M A) : Handler A :=
  {| actions := Call <$> trace m; finished := outcome m |}.

(** [args[i]]. *)
Definition item (args : list string) (i : nat) : Handler string :=
  eval (or_raise IndexError (args !! i)).

(** [try: body / except Exception as e: handler]. *)
Definition try_except {A : Type} (body : Handler A) (handler : exn -> Handler A)
  : Handler A :=
  match finished body with
  | Ok _ => body
  | Raise e =>
      {| actions := actions body ++ actions (handler e);
         finished := finished (handler e) |}
  end.

(** [try: body / except ValueError: handler; return], followed by the rest
    of the function: the rest runs when [body] completes; a [ValueError]
    runs [handler] and ends the function; any other exception goes on. *)
Definition try_except_ValueError_return {A B : Type} (body : Handler A)
    (handler : Handler B) (rest : A -> Handler B) : Handler B :=
  match finished body with
  | Ok a => {| actions := actions body ++ actions (rest a); finished := finished (rest a) |}
  | Raise ValueError =>
      {| actions := actions body ++ actions handler; finished := finished handler |}
  | Raise e => {| actions := actions body; finished := Raise e |}
  end.

(** The messages sent, the pictures sent and the pipeline calls made. *)
Definition text_of (a : action) : option string :=
  match a with
  | ReplyText text => Some text
  | _ => None
  end.

Definition photo_of (a : action) : option string :=
  match a with
  | ReplyPhoto path => Some path
  | _ => None
  end.

Definition call_of (a : action) : option event :=
  match a with
  | Call e => Some e
  | _ => None
  end.

Section Runtime.
(** [datetime.datetime.strptime(s, '%Y-%m-%d')],
    [datetime.datetime.strptime(s, '%H:%M').time()] and [str(e)]. *)
Variable strptime_date : string -> result date.
Variable strptime_time : string -> result time.
Variable str : exn -> string.

Section Requests.
(** The data service as the single pipeline run of the handler finds it. *)
Variable cds : request -> result Dataset.

Definition turbulence_request (args : list string) : Handler unit :=
  try_except
    (if (length args <? 3)%nat then
       reply_text "Please provide the date, time, and continent in the format: /turbulence_request YYYY-MM-DD HH:MM Continent"
     else
       reply_text "Retrieving ERA5 meteorological data...";;
       date_str ← item args 0;
       time_str ← item args 1;
       let continent := String.concat " " (drop 2 args) in
       try_except_ValueError_return
         (d ← eval (strptime_date date_str);
          t ← eval (strptime_time time_str);
          mret (d, t))
         (reply_text "Invalid date or time format. Please use YYYY-MM-DD for date and HH:MM for time.")
         (fun '(d, t) =>
            turbulence_image ← call (get_turbulence_data cds d t continent);
            reply_photo turbulence_image))
    (fun e => reply_text ("An error occurred: " +:+ str e)).

Definition windshear_request (args : list string) : Handler unit :=
  try_except
    (if (length args <? 3)%nat then
       reply_text "Please provide the date, time, and continent in the format: /windshear_request YYYY-MM-DD HH:MM Continent"
     else
       reply_text "Retrieving ERA5 meteorological data...";;
       date_str ← item args 0;
       time_str ← item args 1;
       let continent := String.concat " " (drop 2 args) in
       try_except_ValueError_return
         (d ← eval (strptime_date date_str);
          t ← eval (strptime_time time_str);
          mret (d, t))
         (reply_text "Invalid date or time format. Please use YYYY-MM-DD for date and HH:MM for time.")
         (fun '(d, t) =>
            windshear_image ← call (get_windshear_data cds d t continent);
            reply_photo windshear_image))
    (fun e => reply_text ("An error occurred: " +:+ str e)).

(** The two readings of [datetime.datetime.now()]: the first gives the
    date, the second the time of day. *)
Variable today : date.
Variable clock : time.

(** The handler of [/continent]; it has no [try]. *)
Definition continent (args : list string) : Handler unit :=
  if (length args <? 1)%nat then
    reply_text "Retrieving ERA5 meteorological data...";;
    reply_text "Please provide the continent name."
  else
    let continent_name := String.concat " " args in
    turbulence_image ← call (get_turbulence_data cds today clock continent_name);
    reply_photo turbulence_image.

End Requests.

Section Latest.
(** [latest] runs up to four pipelines; [cds_at k] is the data service as
    the [k]-th of the four call sites finds it. *)
Variable cds_at : nat -> request -> result Dataset.
Variable today : date.
Variable clock : time.
(** [re.search(r'The latest date available for this dataset is:
    (\d{4}-\d{2}-\d{2} \d{2}:\d{2})', s)] and its group 1, and
    [datetime.datetime.strptime(s, '%Y-%m-%d %H:%M')] split by [.date()]
    and [.time()]. *)
Variable search_latest_date : string -> option string.
Variable strptime_datetime : string -> result (date * time).

Definition latest : Handler unit :=
  reply_text "Retrieving ERA5 meteorological data...";;
  let continent := "Europe"%string in
  images ←
    try_except
      (turbulence_image ← call (get_turbulence_data (cds_at 0) today clock continent);
       windshear_image ← call (get_windshear_data (cds_at 1) today clock continent);
       mret (Some (turbulence_image, windshear_image)))
      (fun e =>
         let error_message := str e in
         match search_latest_date error_message with
         | Some latest_date_str =>
             reply_text ("The requested date is not available yet. because ERA5 data is updated daily with a latency of about 5 days. Retrieving the latest available data for " +:+ latest_date_str +:+ "...");;
             latest_date ← eval (strptime_datetime latest_date_str);
             let d := fst latest_date in
             let t := snd latest_date in
             turbulence_image ← call (get_turbulence_data (cds_at 2) d t continent);
             windshear_image ← call (get_windshear_data (cds_at 3) d t continent);
             mret (Some (turbulence_image, windshear_image))
         | None =>
             reply_text ("An error occurred: " +:+ error_message);;
             mret None
         end);
  match images with
  | Some (turbulence_image, windshear_image) =>
      reply_photo turbulence_image;;
      reply_photo windshear_image
  | None => mret tt
  end.

(** The first attempt of [latest] fails with [e]: in the turbulence
    pipeline, or in the wind-shear pipeline after the turbulence pipeline
    has completed. *)
Definition first_attempt_fails (e : exn) : Prop :=
  outcome (get_turbulence_data (cds_at 0) today clock "Europe") = Raise e \/
  (is_ok (outcome (get_turbulence_data (cds_at 0) today clock "Europe")) = true /\
   outcome (get_windshear_data (cds_at 1) today clock "Europe") = Raise e).

End Latest.
End Runtime.

End Handlers.

Module Runs.
Import Plot.

(** A run reports under [proj] an initial part of [l] and nothing else,
    and all of [l] when it completes. *)
Definition yields {A B : Type} (proj : event -> option B) (l : list B)
    (m : M A) : Prop :=
  omap proj (trace m) `prefix_of` l /\
  (is_ok (outcome m) = true -> omap proj (trace m) = l).

(** [m'] does what [m] does and may go on where [m] completes. *)
Definition extends {A B : Type} (m : M A) (m' : M B) : Prop :=
  trace m `prefix_of` trace m' /\
  (forall e, outcome m = Raise e -> outcome m' = Raise e /\ trace m' = trace m).

(** Two runs make the same calls and end the same way, up to the value
    returned. *)
Definition agrees {A B : Type} (m : M A) (m' : M B) : Prop :=
  trace m = trace m' /\
  match outcome m, outcome m' with
  | Ok _, Ok _ => True
  | Raise e, Raise e' => e = e'
  | _, _ => False
  end.

(** Every figure created during the run had its extent set to [extent],
    and no other extent was set. *)
Definition framed {A : Type} (extent : Region.box) (m : M A) : Prop :=
  omap extent_of (trace m)
  = replicate (length (omap Observe.figure_of (trace m))) extent.

End Runs.

(** ** More kinds of binary64 values *)

(** NaN or [+infinity]: the two values a sum of squares takes when it is
    not finite. *)
Definition sf_extreme (x : spec_float) : bool :=
  match x with
  | S754_nan | S754_infinity false => true
  | _ => false
  end.

(** A zero of either sign, and a value that is neither NaN nor a zero. *)
Definition sf_zero (x : spec_float) : bool :=
  match x with
  | S754_zero _ => true
  | _ => false
  end.

Definition sf_divisor (x : spec_float) : bool :=
  match x with
  | S754_infinity _ | S754_finite _ _ _ => true
  | _ => false
  end.

(** ** More sample observations and stand-ins for the runtime *)

Module Cases.
Import Xarray Plot.

(** The scenario with the same geopotential at both levels. *)
Definition level_heights : Dataset :=
  Samples.constant_observation [50.0; 49.75] [10.0; 10.25] 10 20 0 0 5000 5000.

(** The same wind at both levels and all over the grid. *)
Definition calm : Dataset :=
  Samples.constant_observation [50.0; 49.75; 49.5] [10.0; 10.25; 10.5]
                               10 10 3 3 5000 9000.

(** A parser that knows one date and one time, and the text of each
    exception. *)
Definition strptime_date (s : string) : result date :=
  if String.eqb s "2024-11-15" then Ok {| year := 2024; month := 11; day := 15 |}
  else Raise ValueError.

Definition strptime_time (s : string) : result time :=
  if String.eqb s "10:30" then Ok {| hour := 10; minute := 30 |}
  else Raise ValueError.

Definition str (e : exn) : string :=
  match e with
  | KeyError => "'u'"
  | ValueError => "not enough values to unpack (expected 2, got 1)"
  | IndexError => "index 0 is out of bounds for axis 0 with size 0"
  end.

End Cases.

(** ** Facts about binary64 comparison *)

Section FloatOrder.

Lemma SFcompare_antisym (x y : spec_float) :
  SFcompare y x = option_map CompOpp (SFcompare x y).
Proof.
  destruct x as [sx|sx| |sx mx ex], y as [sy|sy| |sy my ey]; simpl;
    try reflexivity;
    try (destruct sx; reflexivity); try (destruct sy; reflexivity);
    try (destruct sx, sy; reflexivity).
  change (Pos.compare_cont Eq) with Pos.compare.
  rewrite (Z.compare_antisym ex ey), (Pos.compare_antisym mx my).
  destruct sx, sy; simpl; try reflexivity;
    destruct (ex ?= ey)%Z; simpl; try reflexivity;
    destruct (mx ?= my)%positive; reflexivity.
Qed.

Lemma SFcompare_refl (x : spec_float) :
  x <> S754_nan -> SFcompare x x = Some Eq.
Proof.
  destruct x as [s|s| |s m e]; simpl; intros H; try reflexivity.
  - destruct s; reflexivity.
  - congruence.
  - destruct s; rewrite Z.compare_refl, Pos.compare_cont_refl; reflexivity.
Qed.

Lemma SFcompare_None (x y : spec_float) :
  SFcompare x y = None <-> x = S754_nan \/ y = S754_nan.
Proof.
  destruct x as [sx|sx| |sx mx ex], y as [sy|sy| |sy my ey]; simpl;
    split; intros H; try discriminate; try tauto;
    try (destruct H; discriminate);
    try (destruct sx; discriminate); try (destruct sy; discriminate).
Qed.

Lemma is_nan_spec (x : float) : is_nan x = true <-> Prim2SF x = S754_nan.
Proof.
  unfold is_nan. rewrite FloatAxioms.eqb_spec. unfold SFeqb. split.
  - intros H. destruct (Prim2SF x) eqn:E; try reflexivity;
      rewrite SFcompare_refl in H by discriminate; discriminate.
  - intros ->. reflexivity.
Qed.

(** [a <= x] excludes [x < a]. *)
Lemma leb_ltb_false (a x : float) : (a <=? x) = true -> (x <? a) = false.
Proof.
  rewrite FloatAxioms.leb_spec, FloatAxioms.ltb_spec. unfold SFleb, SFltb.
  rewrite (SFcompare_antisym (Prim2SF a) (Prim2SF x)).
  destruct (SFcompare (Prim2SF a) (Prim2SF x)) as [[]|]; simpl; congruence.
Qed.

(** On values that are not NaN the order is total. *)
Lemma ltb_false_leb (a x : float) :
  is_nan x = false -> is_nan a = false -> (x <? a) = false -> (a <=? x) = true.
Proof.
  intros Hx Ha. rewrite FloatAxioms.leb_spec, FloatAxioms.ltb_spec. unfold SFleb, SFltb.
  rewrite (SFcompare_antisym (Prim2SF a) (Prim2SF x)).
  destruct (SFcompare (Prim2SF a) (Prim2SF x)) as [[]|] eqn:E; simpl;
    try congruence.
  apply SFcompare_None in E. rewrite <- !is_nan_spec in E.
  destruct E; congruence.
Qed.

Lemma SFcompare_lt_le_trans (x y z : spec_float) :
  SFcompare x y = Some Lt ->
  SFcompare y z = Some Lt \/ SFcompare y z = Some Eq ->
  SFcompare x z = Some Lt.
Proof.
  destruct x as [sx|sx| |sx mx ex], y as [sy|sy| |sy my ey],
    z as [sz|sz| |sz mz ez]; simpl;
    try destruct sx; try destruct sy; try destruct sz; simpl;
    intros H1 [H2|H2]; try discriminate; try reflexivity.
  all: revert H1 H2; change (Pos.compare_cont Eq) with Pos.compare.
  all: destruct (Z.compare_spec ex ey), (Z.compare_spec ey ez),
    (Z.compare_spec ex ez); try discriminate; try reflexivity; try lia.
  all: destruct (Pos.compare_spec mx my), (Pos.compare_spec my mz),
    (Pos.compare_spec mx mz); simpl; try discriminate; try reflexivity; try lia.
Qed.

(** [x < a] and [a <= b] give [x < b]. *)
Lemma ltb_leb_trans (x a b : float) :
  (x <? a) = true -> (a <=? b) = true -> (x <? b) = true.
Proof.
  rewrite !FloatAxioms.ltb_spec, FloatAxioms.leb_spec. unfold SFltb, SFleb. intros H1 H2.
  rewrite (SFcompare_lt_le_trans (Prim2SF x) (Prim2SF a) (Prim2SF b)).
  - reflexivity.
  - destruct (SFcompare (Prim2SF x) (Prim2SF a)) as [[]|]; congruence.
  - destruct (SFcompare (Prim2SF a) (Prim2SF b)) as [[]|]; auto; discriminate.
Qed.

(** A NaN compares below nothing. *)
Lemma nan_ltb_false (x a : float) : is_nan x = true -> (x <? a) = false.
Proof.
  rewrite is_nan_spec, FloatAxioms.ltb_spec. intros ->. reflexivity.
Qed.

End FloatOrder.

(** ** Signs and NaN through rounding *)

Section Rounding.
Variables prec emax : Z.

Lemma shr_1_nonneg (mrs : shr_record) :
  mantissa_nonneg mrs -> mantissa_nonneg (shr_1 mrs).
Proof.
  destruct mrs as [m r s]. unfold mantissa_nonneg. simpl.
  destruct m as [|[p|p|]|p]; simpl; lia.
Qed.

Lemma iter_pos_shr_1_nonneg (p : positive) (mrs : shr_record) :
  mantissa_nonneg mrs -> mantissa_nonneg (SpecFloat.iter_pos shr_1 p mrs).
Proof.
  revert mrs. induction p as [p IH|p IH|]; intros mrs H; simpl.
  - apply IH, IH, shr_1_nonneg, H.
  - apply IH, IH, H.
  - apply shr_1_nonneg, H.
Qed.

Lemma shr_fexp_nonneg (m e : Z) (l : location) :
  (0 <= m)%Z -> mantissa_nonneg (fst (shr_fexp prec emax m e l)).
Proof.
  intros Hm. unfold shr_fexp, shr.
  assert (H0 : mantissa_nonneg (shr_record_of_loc m l)).
  { unfold mantissa_nonneg. destruct l as [|[]]; exact Hm. }
  destruct (fexp prec emax (Zdigits2 m + e) - e)%Z; simpl; try exact H0.
  apply iter_pos_shr_1_nonneg, H0.
Qed.

Lemma round_nearest_even_nonneg (m : Z) (l : location) :
  (0 <= m)%Z -> (0 <= round_nearest_even m l)%Z.
Proof.
  intros Hm. unfold round_nearest_even.
  destruct l as [|[]]; try destruct (Z.even m); lia.
Qed.

(** Rounding a non-negative mantissa gives zero, a finite number or an
    infinity, with the sign asked for. *)
Lemma binary_round_aux_sign (sx : bool) (mx ex : Z) (lx : location) :
  (0 <= mx)%Z ->
  match binary_round_aux prec emax sx mx ex lx with
  | S754_zero s | S754_infinity s | S754_finite s _ _ => s = sx
  | S754_nan => False
  end.
Proof.
  intros Hm. unfold binary_round_aux.
  pose proof (shr_fexp_nonneg mx ex lx Hm) as H1.
  destruct (shr_fexp prec emax mx ex lx) as [mrs' e']. simpl in H1.
  pose proof (shr_fexp_nonneg
                (round_nearest_even (shr_m mrs') (loc_of_shr_record mrs'))
                e' loc_Exact (round_nearest_even_nonneg _ _ H1)) as H2.
  destruct (shr_fexp prec emax _ e' loc_Exact) as [mrs'' e'']. simpl in H2.
  unfold mantissa_nonneg in H2.
  destruct (shr_m mrs''); [reflexivity| |lia].
  destruct (e'' <=? emax - prec)%Z; reflexivity.
Qed.

Lemma binary_round_sign (sx : bool) (mx : positive) (ex : Z) :
  match binary_round prec emax sx mx ex with
  | S754_zero s | S754_infinity s | S754_finite s _ _ => s = sx
  | S754_nan => False
  end.
Proof.
  unfold binary_round.
  destruct (shl_align mx ex _) as [mz ez].
  apply binary_round_aux_sign. lia.
Qed.

Lemma binary_normalize_number (m e : Z) (szero : bool) :
  sf_number (binary_normalize prec emax m e szero) = true.
Proof.
  destruct m as [|p|p]; simpl; [reflexivity| |].
  - pose proof (binary_round_sign false p e) as H.
    destruct (binary_round prec emax false p e); simpl; tauto.
  - pose proof (binary_round_sign true p e) as H.
    destruct (binary_round prec emax true p e); simpl; tauto.
Qed.

(** The difference of two finite values is a number (it may overflow). *)
Lemma SFsub_number (x y : spec_float) :
  sf_finite x = true -> sf_finite y = true ->
  sf_number (SFsub prec emax x y) = true.
Proof.
  destruct x as [sx|sx| |sx mx ex], y as [sy|sy| |sy my ey]; simpl;
    try discriminate; intros _ _; try reflexivity.
  - destruct sx, sy; reflexivity.
  - apply binary_normalize_number.
Qed.

(** A number over a finite nonzero value is a number. *)
Lemma SFdiv_number (x y : spec_float) (sy : bool) (my : positive) (ey : Z) :
  sf_number x = true -> y = S754_finite sy my ey ->
  sf_number (SFdiv prec emax x y) = true.
Proof.
  intros Hx ->. destruct x as [sx|sx| |sx mx ex]; simpl; try reflexivity;
    try discriminate.
  unfold SFdiv_core_binary.
  set (m' := match (ex - ey - _)%Z with Z0 => Z.pos mx | Z.pos _ => _ | Z.neg _ => 0%Z end).
  assert (Hm' : (0 <= m')%Z).
  { unfold m'. destruct (ex - ey - _)%Z; try lia. apply Z.shiftl_nonneg. lia. }
  pose proof (Z_div_mod m' (Z.pos my) ltac:(lia)) as Hdiv.
  destruct (Z.div_eucl m' (Z.pos my)) as [q r].
  assert (Hq : (0 <= q)%Z) by nia.
  pose proof (binary_round_aux_sign (xorb sx sy) q
                (Z.min (fexp prec emax (Zdigits2 (Z.pos mx) + ex - (Zdigits2 (Z.pos my) + ey))) (ex - ey))
                (new_location (Z.pos my) r) Hq) as H.
  destruct (binary_round_aux _ _ _ _ _ _); simpl; tauto.
Qed.

(** The square of a number has its sign bit clear. *)
Lemma SFmul_square_nonneg (x : spec_float) :
  sf_number x = true -> sf_nonneg (SFmul prec emax x x) = true.
Proof.
  destruct x as [s|s| |s m e]; simpl; try discriminate; intros _;
    try (destruct s; reflexivity).
  pose proof (binary_round_aux_sign (xorb s s) (Z.pos (m * m)) (e + e) loc_Exact
                ltac:(lia)) as H.
  rewrite xorb_nilpotent in *.
  destruct (binary_round_aux _ _ _ _ _ _); simpl; try tauto; subst; reflexivity.
Qed.

Lemma SFadd_nonneg (x y : spec_float) :
  sf_nonneg x = true -> sf_nonneg y = true ->
  sf_nonneg (SFadd prec emax x y) = true.
Proof.
  destruct x as [[]|[]| |[] mx ex], y as [[]|[]| |[] my ey]; simpl;
    try discriminate; intros _ _; try reflexivity.
  pose proof (binary_round_sign false
                (fst (shl_align mx ex (Z.min ex ey)) + fst (shl_align my ey (Z.min ex ey)))
                (Z.min ex ey)) as H.
  destruct (binary_round _ _ _ _ _); simpl; try tauto; subst; reflexivity.
Qed.

Lemma SFsqrt_nonneg (x : spec_float) :
  sf_nonneg x = true -> sf_nonneg (SFsqrt prec emax x) = true.
Proof.
  destruct x as [[]|[]| |[] mx ex]; simpl; try discriminate; intros _;
    try reflexivity.
  unfold SFsqrt_core_binary.
  set (e' := Z.min _ _).
  set (m' := match (ex - 2 * e')%Z with Z0 => Z.pos mx | Z.pos _ => _ | Z.neg _ => 0%Z end).
  assert (Hm' : (0 <= m')%Z).
  { unfold m'. destruct (ex - 2 * e')%Z; try lia. apply Z.shiftl_nonneg. lia. }
  pose proof (Z.sqrtrem_spec m' Hm') as Hs.
  destruct (Z.sqrtrem m') as [q r].
  assert (Hq : (0 <= q)%Z) by lia.
  pose proof (binary_round_aux_sign false q e'
                (if (r =? 0)%Z then loc_Exact
                 else loc_Inexact (if (r <=? q)%Z then Lt else Gt)) Hq) as H.
  destruct (binary_round_aux _ _ _ _ _ _); simpl; try tauto; subst; reflexivity.
Qed.

End Rounding.

(** ** Square roots do not overflow *)

Section Digits.
#[local] Open Scope Z_scope.

Lemma digits2_pos_size (p : positive) : digits2_pos p = Pos.size p.
Proof. induction p as [p IH|p IH|]; simpl; congruence. Qed.

Lemma digits2_pos_gt (p : positive) : Z.pos p < 2 ^ Z.pos (digits2_pos p).
Proof.
  rewrite digits2_pos_size.
  pose proof (Pos.size_gt p) as H.
  rewrite <- Pos2Z.inj_pow. apply Pos2Z.pos_lt_pos. exact H.
Qed.

Lemma digits2_pos_le (p : positive) : 2 ^ (Z.pos (digits2_pos p) - 1) <= Z.pos p.
Proof.
  rewrite digits2_pos_size.
  pose proof (Pos.size_le p) as H.
  apply Pos2Z.pos_le_pos in H. rewrite Pos2Z.inj_pow in H.
  replace (Z.pos (Pos.size p)) with (Z.succ (Z.pos (Pos.size p) - 1)) in H by lia.
  rewrite Z.pow_succ_r in H by lia. lia.
Qed.

(** A number below [2^k] has at most [k] binary digits. *)
Lemma Zdigits2_le (m k : Z) : 0 <= m < 2 ^ k -> 0 <= k -> Zdigits2 m <= k.
Proof.
  intros [Hm Hlt] Hk. destruct m as [|p|p]; simpl; [exact Hk| |lia].
  pose proof (digits2_pos_le p) as Hle.
  destruct (Z_lt_le_dec k (Z.pos (digits2_pos p))) as [Hgt|]; [|assumption].
  exfalso. assert (2 ^ k <= 2 ^ (Z.pos (digits2_pos p) - 1)).
  { apply Z.pow_le_mono_r; lia. }
  lia.
Qed.

End Digits.

Section Shift.
#[local] Open Scope Z_scope.
Variables prec emax : Z.

Lemma shr_1_div2 (mrs : shr_record) :
  0 <= shr_m mrs -> shr_m (shr_1 mrs) = shr_m mrs / 2.
Proof.
  destruct mrs as [m r s]. cbn [shr_m]. intros Hm.
  destruct m as [|[p|p|]|p]; cbn [shr_1 shr_m]; try lia.
  - reflexivity.
  - apply Z.div_unique with (r := 1); lia.
  - apply Z.div_unique with (r := 0); lia.
  - reflexivity.
Qed.

Lemma shr_1_bounds (mrs : shr_record) :
  0 <= shr_m mrs -> 0 <= shr_m (shr_1 mrs) /\ 2 * shr_m (shr_1 mrs) <= shr_m mrs.
Proof.
  intros Hm. rewrite shr_1_div2 by assumption.
  pose proof (Z.div_pos (shr_m mrs) 2 Hm ltac:(lia)).
  pose proof (Z.mul_div_le (shr_m mrs) 2 ltac:(lia)). lia.
Qed.

Lemma iter_pos_shr_1_bounds (p : positive) (mrs : shr_record) :
  0 <= shr_m mrs ->
  0 <= shr_m (SpecFloat.iter_pos shr_1 p mrs) /\
  2 ^ Z.pos p * shr_m (SpecFloat.iter_pos shr_1 p mrs) <= shr_m mrs.
Proof.
  revert mrs. induction p as [p IH|p IH|]; intros mrs Hm; simpl SpecFloat.iter_pos.
  - destruct (shr_1_bounds mrs Hm) as [H0 H1].
    destruct (IH _ H0) as [H2 H3]. destruct (IH _ H2) as [H4 H5].
    split; [exact H4|].
    replace (Z.pos p~1) with (Z.pos p + Z.pos p + 1) by lia.
    rewrite !Z.pow_add_r, Z.pow_1_r by lia.
    assert (0 < 2 ^ Z.pos p) by (apply Z.pow_pos_nonneg; lia).
    set (P := 2 ^ Z.pos p) in *.
    assert (P * (P * shr_m (SpecFloat.iter_pos shr_1 p
                    (SpecFloat.iter_pos shr_1 p (shr_1 mrs))))
            <= P * shr_m (SpecFloat.iter_pos shr_1 p (shr_1 mrs)))
      by (apply Z.mul_le_mono_nonneg_l; lia).
    lia.
  - destruct (IH _ Hm) as [H2 H3]. destruct (IH _ H2) as [H4 H5].
    split; [exact H4|].
    replace (Z.pos p~0) with (Z.pos p + Z.pos p) by lia.
    rewrite !Z.pow_add_r by lia.
    assert (0 < 2 ^ Z.pos p) by (apply Z.pow_pos_nonneg; lia).
    set (P := 2 ^ Z.pos p) in *.
    assert (P * (P * shr_m (SpecFloat.iter_pos shr_1 p
                    (SpecFloat.iter_pos shr_1 p mrs)))
            <= P * shr_m (SpecFloat.iter_pos shr_1 p mrs))
      by (apply Z.mul_le_mono_nonneg_l; lia).
    lia.
  - destruct (shr_1_bounds mrs Hm). split; [lia|].
    change (2 ^ 1) with 2. lia.
Qed.

(** Shifting to the exponent the format asks for: the exponent after the
    shift, and a mantissa at most the one before, scaled. *)
Lemma shr_fexp_bounds (m e : Z) (l : location) :
  0 <= m ->
  let '(mrs, e') := shr_fexp prec emax m e l in
  e' = Z.max e (fexp prec emax (Zdigits2 m + e)) /\
  0 <= shr_m mrs /\ 2 ^ (e' - e) * shr_m mrs <= m.
Proof.
  intros Hm. unfold shr_fexp, shr.
  assert (H0 : shr_m (shr_record_of_loc m l) = m) by (destruct l as [|[]]; reflexivity).
  destruct (fexp prec emax (Zdigits2 m + e) - e) as [|p|p] eqn:En;
    cbv beta iota.
  - rewrite H0. split; [lia|]. split; [lia|].
    replace (e - e) with 0 by lia. change (2 ^ 0) with 1. lia.
  - destruct (iter_pos_shr_1_bounds p (shr_record_of_loc m l)) as [H1 H2];
      [rewrite H0; exact Hm|].
    rewrite H0 in H2. split; [lia|]. split; [exact H1|].
    replace (e + Z.pos p - e) with (Z.pos p) by lia. exact H2.
  - rewrite H0. split; [lia|]. split; [lia|].
    replace (e - e) with 0 by lia. change (2 ^ 0) with 1. lia.
Qed.

End Shift.

Section Binary64.
#[local] Open Scope Z_scope.

Lemma round_nearest_even_bounds (m : Z) (l : location) :
  0 <= m -> 0 <= round_nearest_even m l <= m + 1.
Proof.
  intros Hm. unfold round_nearest_even.
  destruct l as [|[]]; try destruct (Z.even m); lia.
Qed.

Lemma fexp64 (x : Z) : fexp prec emax x = Z.max (x - 53) (-1074).
Proof. reflexivity. Qed.

(** Rounding a mantissa whose value is below [2^K], [K <= 1023], from an
    exponent of at most 971 does not overflow. *)
Lemma binary_round_aux_no_overflow (sx : bool) (mx ex : Z) (lx : location) (K : Z) :
  0 <= mx < 2 ^ (K - ex) -> ex <= 971 -> K <= 1023 ->
  match binary_round_aux prec emax sx mx ex lx with
  | S754_infinity _ => False
  | _ => True
  end.
Proof.
  intros [Hm Hlt] Hex HK.
  assert (HKex : 0 <= K - ex).
  { destruct (Z_lt_le_dec (K - ex) 0) as [Hneg|]; [|assumption].
    rewrite Z.pow_neg_r in Hlt by assumption. lia. }
  unfold binary_round_aux.
  pose proof (shr_fexp_bounds prec emax mx ex lx Hm) as H1.
  destruct (shr_fexp prec emax mx ex lx) as [mrs' e'].
  destruct H1 as (He' & Hs0 & Hs).
  pose proof (round_nearest_even_bounds (shr_m mrs') (loc_of_shr_record mrs') Hs0)
    as [Hr0 Hr].
  set (m1 := round_nearest_even (shr_m mrs') (loc_of_shr_record mrs')) in *.
  pose proof (shr_fexp_bounds prec emax m1 e' loc_Exact Hr0) as H2.
  destruct (shr_fexp prec emax m1 e' loc_Exact) as [mrs'' e''].
  destruct H2 as (He'' & Ht0 & _).
  destruct (shr_m mrs'') as [|m|m]; [exact I| |exact I].
  assert (Hd : Zdigits2 mx <= K - ex) by (apply Zdigits2_le; lia).
  rewrite fexp64 in He', He''.
  assert (He'le : e' <= 971) by lia.
  assert (Hee : ex <= e') by lia.
  assert (Hm1 : m1 < 2 ^ (Z.max (K - e') 0 + 1)).
  { destruct (Z_lt_le_dec (K - e') 0) as [Hneg|Hpos].
    - assert (shr_m mrs' = 0).
      { destruct (Z.eq_dec (shr_m mrs') 0) as [|Hne]; [assumption|exfalso].
        assert (2 ^ (K - ex) <= 2 ^ (e' - ex)) by (apply Z.pow_le_mono_r; lia).
        assert (0 < 2 ^ (e' - ex)) by (apply Z.pow_pos_nonneg; lia).
        nia. }
      rewrite Z.max_r by lia. change (2 ^ (0 + 1)) with 2. lia.
    - rewrite Z.max_l by lia.
      assert (Hsplit : 2 ^ (K - ex) = 2 ^ (e' - ex) * 2 ^ (K - e')).
      { rewrite <- Z.pow_add_r by lia. f_equal. lia. }
      assert (0 < 2 ^ (e' - ex)) by (apply Z.pow_pos_nonneg; lia).
      assert (shr_m mrs' < 2 ^ (K - e')) by nia.
      rewrite Z.pow_add_r, Z.pow_1_r by lia. lia. }
  assert (Hd1 : Zdigits2 m1 <= Z.max (K - e') 0 + 1) by (apply Zdigits2_le; lia).
  assert (He''le : e'' <= 971) by lia.
  change (emax - prec) with 971.
  apply Z.leb_le in He''le. rewrite He''le. exact I.
Qed.

Lemma valid_binary_bounds (sx : bool) (mx : positive) (ex : Z) :
  valid_binary (S754_finite sx mx ex) = true ->
  Z.pos (digits2_pos mx) <= 53 /\ -1074 <= ex <= 971.
Proof.
  simpl. unfold bounded, canonical_mantissa.
  intros [H1 H2]%andb_true_iff.
  apply Z.eqb_eq in H1. apply Z.leb_le in H2.
  rewrite fexp64 in H1. change (emax - prec) with 971 in H2. lia.
Qed.

(** The integer square root of a number below [2^n] is below
    [2^((n+1)/2)]. *)
Lemma sqrt_below (m q r n : Z) :
  m = q * q + r -> 0 <= r -> 0 <= q -> m < 2 ^ n -> 0 <= n ->
  q < 2 ^ ((n + 1) / 2).
Proof.
  intros Hm Hr Hq Hlt Hn.
  destruct (Z_lt_le_dec q (2 ^ ((n + 1) / 2))) as [|Hge]; [assumption|exfalso].
  assert (Hc : 0 <= (n + 1) / 2) by (apply Z.div_pos; lia).
  assert (0 < 2 ^ ((n + 1) / 2)) by (apply Z.pow_pos_nonneg; lia).
  assert (H2 : 2 ^ n <= 2 ^ ((n + 1) / 2 + (n + 1) / 2)).
  { apply Z.pow_le_mono_r; [lia|]. pose proof (Z.div_mod (n + 1) 2 ltac:(lia)).
    pose proof (Z.mod_pos_bound (n + 1) 2 ltac:(lia)). lia. }
  rewrite Z.pow_add_r in H2 by assumption. nia.
Qed.

(** The square root of a finite non-negative binary64 value is finite. *)
Lemma SFsqrt_no_overflow (x : spec_float) :
  valid_binary x = true -> sf_finite x = true ->
  match SFsqrt prec emax x with
  | S754_infinity _ => False
  | _ => True
  end.
Proof.
  destruct x as [s|s| |s mx ex]; simpl; try discriminate; intros Hvalid _.
  { destruct s; exact I. }
  destruct s; [exact I|].
  destruct (valid_binary_bounds false mx ex Hvalid) as [Hd Hex].
  unfold SFsqrt_core_binary. rewrite fexp64.
  set (d := Z.pos (digits2_pos mx)) in *.
  set (e' := Z.min _ _).
  assert (He' : -1074 <= e' /\ 2 * e' <= ex).
  { unfold e'. rewrite !Z.div2_div.
    pose proof (Z.div_mod ex 2 ltac:(lia)).
    pose proof (Z.mod_pos_bound ex 2 ltac:(lia)). lia. }
  set (m' := match (ex - 2 * e')%Z with Z0 => Z.pos mx | Z.pos _ => _ | Z.neg _ => 0%Z end).
  assert (Hm' : 0 <= m' < 2 ^ (d + (ex - 2 * e'))).
  { pose proof (digits2_pos_gt mx) as Hgt. fold d in Hgt.
    unfold m'. destruct (ex - 2 * e') as [|p|p] eqn:Es; try lia.
    - rewrite Z.add_0_r. lia.
    - rewrite Z.shiftl_mul_pow2 by lia.
      assert (0 < 2 ^ Z.pos p) by (apply Z.pow_pos_nonneg; lia).
      rewrite Z.pow_add_r by lia. nia. }
  pose proof (Z.sqrtrem_spec m' (proj1 Hm')) as Hs.
  destruct (Z.sqrtrem m') as [q r]. destruct Hs as [Hq Hr].
  apply (binary_round_aux_no_overflow false q e' _
           ((d + (ex - 2 * e') + 1) / 2 + e')).
  - split; [lia|]. replace (_ + e' - e') with ((d + (ex - 2 * e') + 1) / 2) by lia.
    eapply sqrt_below; [exact Hq| | |apply Hm'|]; lia.
  - lia.
  - pose proof (Z.div_mod (d + (ex - 2 * e') + 1) 2 ltac:(lia)).
    pose proof (Z.mod_pos_bound (d + (ex - 2 * e') + 1) 2 ltac:(lia)). lia.
Qed.

End Binary64.

Section FloatKinds.

Lemma is_nan_number (x : float) : is_nan x = negb (sf_number (Prim2SF x)).
Proof.
  destruct (is_nan x) eqn:E.
  - apply is_nan_spec in E. rewrite E. reflexivity.
  - destruct (Prim2SF x) eqn:Ex; try reflexivity.
    apply is_nan_spec in Ex. congruence.
Qed.

Lemma is_finite_spec (x : float) : is_finite x = sf_finite (Prim2SF x).
Proof.
  unfold is_finite, is_infinity. rewrite is_nan_number, FloatAxioms.eqb_spec, abs_spec.
  destruct (Prim2SF x) as [s|s| |s m e]; try reflexivity.
Qed.

Lemma is_zero_spec (x : float) :
  is_zero x = match Prim2SF x with S754_zero _ => true | _ => false end.
Proof.
  unfold is_zero. rewrite FloatAxioms.eqb_spec.
  destruct (Prim2SF x) as [s|s| |s m e]; try reflexivity; destruct s; reflexivity.
Qed.

Lemma nonneg_leb (x : float) :
  sf_nonneg (Prim2SF x) = true -> is_nan x = false /\ (0 <=? x) = true.
Proof.
  intros H. rewrite is_nan_number, FloatAxioms.leb_spec.
  destruct (Prim2SF x) as [[]|[]| |[] m e]; try discriminate; split; reflexivity.
Qed.

(** On a value with its sign bit clear the square root is finite exactly
    when the value is. *)
Lemma sqrt_finite (x : float) :
  sf_nonneg (Prim2SF x) = true -> is_finite (sqrt x) = is_finite x.
Proof.
  intros Hx. rewrite !is_finite_spec, sqrt_spec.
  pose proof (SFsqrt_nonneg prec emax _ Hx) as Hs.
  pose proof (SFsqrt_no_overflow (Prim2SF x) (Prim2SF_valid x)) as Ho.
  unfold SF64sqrt.
  destruct (Prim2SF x) as [[]|[]| |[] m e]; try discriminate; try reflexivity.
  specialize (Ho eq_refl).
  destruct (SFsqrt prec emax (S754_finite false m e)) as [?|?| |? ? ?];
    try reflexivity; try discriminate; contradiction.
Qed.

Lemma radicand_nonneg (u1 u2 v1 v2 z1 z2 : float) :
  is_finite u1 = true -> is_finite u2 = true ->
  is_finite v1 = true -> is_finite v2 = true ->
  is_finite (z1 - z2) = true -> is_zero (z1 - z2) = false ->
  sf_nonneg (Prim2SF (Shear.radicand u1 u2 v1 v2 z1 z2)) = true.
Proof.
  intros Hu1 Hu2 Hv1 Hv2 Hz Hz0.
  unfold Shear.radicand, Shear.pow2.
  rewrite add_spec, !mul_spec, !div_spec.
  rewrite is_finite_spec in *. rewrite is_zero_spec in Hz0.
  destruct (Prim2SF (z1 - z2)) as [s|s| |s m e] eqn:Ez; try discriminate.
  apply SFadd_nonneg; apply SFmul_square_nonneg;
    (eapply SFdiv_number; [|reflexivity]); rewrite sub_spec;
    apply SFsub_number; assumption.
Qed.

(** The vertical shear at a grid point: with finite winds and a finite,
    nonzero height difference it is a number, not negative, and finite
    exactly when the sum of squares under the root is. *)
Lemma shear_formula_nonneg (u1 u2 v1 v2 z1 z2 : float) :
  is_finite u1 = true -> is_finite u2 = true ->
  is_finite v1 = true -> is_finite v2 = true ->
  is_finite (z1 - z2) = true -> is_zero (z1 - z2) = false ->
  is_nan (Shear.shear_formula u1 u2 v1 v2 z1 z2) = false /\
  (0 <=? Shear.shear_formula u1 u2 v1 v2 z1 z2) = true /\
  is_finite (Shear.shear_formula u1 u2 v1 v2 z1 z2)
  = is_finite (Shear.radicand u1 u2 v1 v2 z1 z2).
Proof.
  intros Hu1 Hu2 Hv1 Hv2 Hz Hz0.
  pose proof (radicand_nonneg _ _ _ _ _ _ Hu1 Hu2 Hv1 Hv2 Hz Hz0) as Hr.
  unfold Shear.shear_formula.
  split; [|split; [|apply sqrt_finite, Hr]];
    apply nonneg_leb; rewrite sqrt_spec; apply SFsqrt_nonneg, Hr.
Qed.

End FloatKinds.

(** ** Properties of the classifier *)

Section ClassifierFacts.
Import Classifier.

Lemma classify_turbulence_level (x : float) : is_level (classify_turbulence x).
Proof.
  unfold classify_turbulence, is_level.
  destruct (x <? 5); [tauto|].
  destruct (x <? 10); [tauto|].
  destruct (x <? 15); tauto.
Qed.

(** C2: [classify_turbulence] sends values below 5 to 0, values in
    [5,10) to 1, values in [10,15) to 2 and values from 15 on to 3; every
    float that is a number falls in one of the four ranges; and the six
    boundary values of the specification land as listed. *)
Theorem classify_turbulence_thresholds :
  forall x : float,
    ((x <? 5) = true -> classify_turbulence x = 0%Z) /\
    ((5 <=? x) = true -> (x <? 10) = true -> classify_turbulence x = 1%Z) /\
    ((10 <=? x) = true -> (x <? 15) = true -> classify_turbulence x = 2%Z) /\
    ((15 <=? x) = true -> classify_turbulence x = 3%Z) /\
    (is_nan x = false ->
       (x <? 5) = true \/ ((5 <=? x) = true /\ (x <? 10) = true) \/
       ((10 <=? x) = true /\ (x <? 15) = true) \/ (15 <=? x) = true) /\
    classify_turbulence 4.999 = 0%Z /\
    classify_turbulence 5.0 = 1%Z /\
    classify_turbulence 9.999 = 1%Z /\
    classify_turbulence 10.0 = 2%Z /\
    classify_turbulence 14.999 = 2%Z /\
    classify_turbulence 15.0 = 3%Z.
Proof.
  intros x.
  assert (Hlow : forall a b : float,
            (a <=? b) = true -> (b <=? x) = true -> (x <? a) = false).
  { intros a b Hab Hbx. destruct (x <? a) eqn:E; [|reflexivity].
    pose proof (ltb_leb_trans _ _ _ E Hab) as Hxb.
    pose proof (leb_ltb_false _ _ Hbx). congruence. }
  unfold classify_turbulence.
  repeat match goal with |- _ /\ _ => split end; try reflexivity.
  - intros ->. reflexivity.
  - intros H5 ->. rewrite (leb_ltb_false _ _ H5). reflexivity.
  - intros H10 ->.
    rewrite (Hlow 5 10), (leb_ltb_false _ _ H10) by (assumption || reflexivity).
    reflexivity.
  - intros H15.
    rewrite (Hlow 5 15), (Hlow 10 15), (leb_ltb_false _ _ H15)
      by (assumption || reflexivity).
    reflexivity.
  - intros Hnan.
    destruct (x <? 5) eqn:E5; [tauto|].
    apply ltb_false_leb in E5; [|assumption|reflexivity].
    destruct (x <? 10) eqn:E10; [tauto|].
    apply ltb_false_leb in E10; [|assumption|reflexivity].
    destruct (x <? 15) eqn:E15; [tauto|].
    apply ltb_false_leb in E15; [|assumption|reflexivity].
    tauto.
Qed.

(** C4, the claim fails: NaN is not a finite value, and the classifier puts
    it in bin 3. *)
Lemma classify_turbulence_nan_is_binned :
  is_nan nan = true /\ classify_turbulence nan = 3%Z /\
  is_level (classify_turbulence nan).
Proof.
  split; [reflexivity|]. split; [reflexivity|]. apply classify_turbulence_level.
Qed.

(** C4, as the code has it: there is no fifth category.  Every input gets
    one of the four codes; NaN and +infinity get 3, -infinity gets 0. *)
Theorem classify_turbulence_non_finite :
  forall x : float,
    is_level (classify_turbulence x) /\
    (is_nan x = true -> classify_turbulence x = 3%Z) /\
    classify_turbulence nan = 3%Z /\
    classify_turbulence infinity = 3%Z /\
    classify_turbulence neg_infinity = 0%Z.
Proof.
  intros x. split; [apply classify_turbulence_level|].
  split; [|repeat split; reflexivity].
  intros Hnan. unfold classify_turbulence.
  rewrite !(nan_ltb_false x _ Hnan). reflexivity.
Qed.

End ClassifierFacts.

(** ** Properties of the region mapper *)

Section RegionFacts.
Import Region.

Lemma continent_boundaries_None (name : string) :
  name ∉ continent_names -> continent_boundaries !! name = None.
Proof.
  unfold continent_names, continent_boundaries. intros Hn.
  apply not_elem_of_list_to_map_1. simpl.
  exact Hn.
Qed.

Lemma continent_boundaries_Some (name : string) :
  name ∈ continent_names -> is_Some (continent_boundaries !! name).
Proof.
  unfold continent_names. intros Hn.
  repeat (apply elem_of_cons in Hn as [->|Hn]; [vm_compute; eauto|]).
  inversion Hn.
Qed.

Lemma get_boundaries_length (name : string) :
  length (get_boundaries name) = 4%nat.
Proof.
  destruct (decide (name ∈ continent_names)) as [Hn|Hn].
  - unfold continent_names in Hn.
    repeat (apply elem_of_cons in Hn as [->|Hn]; [reflexivity|]).
    inversion Hn.
  - unfold get_boundaries. rewrite (continent_boundaries_None name Hn).
    reflexivity.
Qed.

(** C6: the lookup is a total function of the name (it has no failure
    value); ["Europe"] resolves to (71, -31, 36, 40) in query order; every
    name outside the seven keys, such as ["Nowhereland"] or the lower-case
    ["africa"], resolves to those same bounds. *)
Theorem get_boundaries_default :
  get_boundaries "Europe" = [71.00; -31.00; 36.00; 40.00] /\
  (forall name : string,
     name ∉ continent_names ->
     get_boundaries name = get_boundaries "Europe") /\
  (forall name : string,
     name ∈ continent_names <-> is_Some (continent_boundaries !! name)) /\
  get_boundaries "Nowhereland" = get_boundaries "Europe" /\
  get_boundaries "africa" = get_boundaries "Europe" /\
  (forall name : string, length (get_boundaries name) = 4%nat).
Proof.
  split; [reflexivity|]. split; [|split; [|split; [|split]]].
  - intros name Hn. unfold get_boundaries at 1.
    rewrite (continent_boundaries_None name Hn). reflexivity.
  - intros name. split; [apply continent_boundaries_Some|].
    intros [b Hb]. destruct (decide (name ∈ continent_names)) as [|Hn]; [done|].
    rewrite (continent_boundaries_None name Hn) in Hb. discriminate.
  - reflexivity.
  - reflexivity.
  - apply get_boundaries_length.
Qed.

(** C7: on a box of four scalars the conversion never fails, maps
    (north, west, south, east) to (west, east, south, north), is a
    permutation of its input, and undoes [toQueryForm]; a box of any other
    length is rejected. *)
Theorem convert_api_to_plot_format_roundtrip (x : box) :
  length x = 4%nat ->
  (exists y, convert_api_to_plot_format x = Ok y /\ x ≡ₚ y) /\
  (forall north west south east : float,
     convert_api_to_plot_format [north; west; south; east]
     = Ok [west; east; south; north]) /\
  (toQueryForm x ≫= convert_api_to_plot_format) = Ok x /\
  (forall q, convert_api_to_plot_format q = Ok x -> toQueryForm x = Ok q).
Proof.
  intros Hlen.
  destruct x as [|a [|b [|c [|d [|? ?]]]]]; try discriminate Hlen.
  repeat split.
  - exists [b; d; c; a]. split; [reflexivity|].
    transitivity [b; a; c; d]; [apply perm_swap|].
    apply perm_skip. exact (Permutation_rev [a; c; d]).
  - intros q Hq.
    destruct q as [|n [|w [|s [|e [|? ?]]]]]; try discriminate Hq.
    simpl in Hq. injection Hq as -> -> -> ->. reflexivity.
Qed.

Lemma convert_api_to_plot_format_roundtrip_witness :
  (toQueryForm [-31.0; 40.0; 36.0; 71.0] ≫= convert_api_to_plot_format)
  = Ok [-31.0; 40.0; 36.0; 71.0].
Proof.
  apply (convert_api_to_plot_format_roundtrip [-31.0; 40.0; 36.0; 71.0]).
  reflexivity.
Defined.

End RegionFacts.

(** ** Properties of the array layer *)

Section ArrayFacts.
Import Xarray.

Lemma rectangular_fmap {A B : Type} (f : A -> B) (n m : nat) (g : list (list A)) :
  rectangular n m g ->
  rectangular n m ((fun row : list A => f <$> row) <$> g).
Proof.
  intros [Hn Hrows]. split.
  - rewrite length_fmap. exact Hn.
  - apply Forall_fmap. eapply Forall_impl; [exact Hrows|].
    intros row Hrow. simpl. rewrite length_fmap. exact Hrow.
Qed.

Lemma at_point_fmap {A B : Type} (f : A -> B) (g : list (list A)) (i j : nat) :
  at_point ((fun row : list A => f <$> row) <$> g) i j = f <$> at_point g i j.
Proof.
  unfold at_point. rewrite list_lookup_fmap.
  destruct (g !! i) as [row|]; simpl; [|reflexivity].
  apply list_lookup_fmap.
Qed.


Lemma label_eqb_refl (x : float) : label_eqb x x = true.
Proof. unfold label_eqb, is_nan. destruct (x =? x); reflexivity. Qed.

Lemma labels_eqb_refl (l : list float) : labels_eqb l l = true.
Proof.
  induction l as [|x l IH]; simpl; [reflexivity|].
  rewrite label_eqb_refl, IH. reflexivity.
Qed.

Lemma align_same (l : list float) :
  align l l = Ok {| joined := l; left_pos := seq 0 (length l);
                    right_pos := seq 0 (length l) |}.
Proof. unfold align. rewrite labels_eqb_refl. reflexivity. Qed.

Lemma take_at_seq_app {A : Type} (pre l : list A) :
  omap (fun i => (pre ++ l) !! i) (seq (length pre) (length l)) = l.
Proof.
  revert pre. induction l as [|x l IH]; intros pre; simpl; [reflexivity|].
  rewrite list_lookup_middle by reflexivity. f_equal.
  specialize (IH (pre ++ [x])).
  rewrite <- app_assoc, length_app in IH. simpl in IH.
  rewrite Nat.add_1_r in IH. exact IH.
Qed.

Lemma take_at_seq {A : Type} (l : list A) : take_at (seq 0 (length l)) l = l.
Proof. exact (take_at_seq_app [] l). Qed.

Lemma reindex_seq (n m : nat) (g : grid) :
  rectangular n m g -> reindex (seq 0 n) (seq 0 m) g = g.
Proof.
  intros [Hn Hrows]. unfold reindex.
  assert (Hcols : (take_at (seq 0 m) <$> g) = g).
  { clear Hn. induction Hrows as [|row g Hrow _ IH]; [reflexivity|].
    rewrite fmap_cons, IH, <- Hrow, take_at_seq. reflexivity. }
  rewrite Hcols, <- Hn. apply take_at_seq.
Qed.


Lemma reindex_cube (nt n m : nat) (v : list grid) :
  cube nt n m v -> take_at (seq 0 nt) (reindex (seq 0 n) (seq 0 m) <$> v) = v.
Proof.
  intros [Hn Hgrids].
  assert (Hv : (reindex (seq 0 n) (seq 0 m) <$> v) = v).
  { clear Hn. induction Hgrids as [|g v Hg _ IH]; [reflexivity|].
    rewrite fmap_cons, IH, (reindex_seq _ _ _ Hg). reflexivity. }
  rewrite Hv, <- Hn. apply take_at_seq.
Qed.

Lemma rectangular_zip_with (op : float -> float -> float) (n m : nat) (g h : grid) :
  rectangular n m g -> rectangular n m h ->
  rectangular n m (zip_with (zip_with op) g h).
Proof.
  intros [Hg Hgr] [Hh Hhr]. split.
  - rewrite length_zip_with. lia.
  - clear Hg Hh. revert h Hhr.
    induction Hgr as [|r g Hr _ IH]; intros [|r' h] Hhr; simpl; try constructor.
    + inversion Hhr; subst. rewrite length_zip_with. lia.
    + inversion Hhr; subst. apply IH. assumption.
Qed.

Lemma cube_zip3 (op : float -> float -> float) (nt n m : nat) (a b : list grid) :
  cube nt n m a -> cube nt n m b -> cube nt n m (zip3 op a b).
Proof.
  intros [Ha Har] [Hb Hbr]. split.
  - unfold zip3. rewrite length_zip_with. lia.
  - clear Ha Hb. revert b Hbr. unfold zip3.
    induction Har as [|g a Hg _ IH]; intros [|h b] Hbr; simpl; try constructor.
    + inversion Hbr; subst. apply rectangular_zip_with; assumption.
    + inversion Hbr; subst. apply IH. assumption.
Qed.

(** Two arrays over the same coordinates combine position by position. *)
Lemma da_binop_same (op : float -> float -> float) (a b : DataArray) :
  wf_array a -> wf_array b ->
  da_valid_time b = da_valid_time a ->
  da_latitude b = da_latitude a ->
  da_longitude b = da_longitude a ->
  da_binop op a b
  = Ok {| da_valid_time := da_valid_time a;
          da_latitude := da_latitude a;
          da_longitude := da_longitude a;
          da_values := zip3 op (da_values a) (da_values b) |}.
Proof.
  unfold wf_array. intros Ha Hb Et Ela Elo. rewrite Et, Ela, Elo in Hb.
  unfold da_binop. rewrite Et, Ela, Elo, !align_same. simpl.
  rewrite (reindex_cube _ _ _ _ Ha), (reindex_cube _ _ _ _ Hb). reflexivity.
Qed.


Lemma at_point_zip_with (op : float -> float -> float) (g h : grid) (i j : nat) :
  at_point (zip_with (zip_with op) g h) i j
  = (a ← at_point g i j; b ← at_point h i j; Some (op a b)).
Proof.
  unfold at_point. rewrite lookup_zip_with.
  destruct (g !! i) as [x|]; simpl; [|reflexivity].
  destruct (h !! i) as [y|]; simpl.
  - rewrite lookup_zip_with. reflexivity.
  - destruct (x !! j); reflexivity.
Qed.

Lemma at_cube_zip3 (op : float -> float -> float) (a b : list grid) (t i j : nat) :
  at_cube (zip3 op a b) t i j
  = (x ← at_cube a t i j; y ← at_cube b t i j; Some (op x y)).
Proof.
  unfold at_cube, zip3. rewrite lookup_zip_with.
  destruct (a !! t) as [g|]; simpl; [|reflexivity].
  destruct (b !! t) as [h|]; simpl.
  - apply at_point_zip_with.
  - destruct (at_point g i j); reflexivity.
Qed.

Lemma at_cube_grid_map (f : float -> float) (a : list grid) (t i j : nat) :
  at_cube (grid_map f <$> a) t i j = f <$> at_cube a t i j.
Proof.
  unfold at_cube. rewrite list_lookup_fmap.
  destruct (a !! t) as [g|]; simpl; [|reflexivity].
  apply at_point_fmap.
Qed.

Lemma cube_grid_map (f : float -> float) (nt n m : nat) (a : list grid) :
  cube nt n m a -> cube nt n m (grid_map f <$> a).
Proof.
  intros [Ha Hr]. split; [rewrite length_fmap; exact Ha|].
  apply Forall_fmap. eapply Forall_impl; [exact Hr|].
  intros g Hg. apply rectangular_fmap. exact Hg.
Qed.

Lemma rectangular_at_point {A : Type} (n m : nat) (g : list (list A)) (i j : nat) :
  rectangular n m g -> (i < n)%nat -> (j < m)%nat -> is_Some (at_point g i j).
Proof.
  intros [Hn Hr] Hi Hj. unfold at_point.
  destruct (lookup_lt_is_Some_2 g i) as [row Hrow]; [lia|].
  rewrite Hrow. simpl. apply lookup_lt_is_Some_2.
  rewrite Forall_forall in Hr.
  rewrite (Hr row); [exact Hj|]. eapply list_elem_of_lookup_2, Hrow.
Qed.

(** Selecting a variable of a valid observation at one of its levels. *)
Lemma sel_pressure_level_valid (data : Dataset) (name : string) (level : Z) :
  valid_observation data ->
  name ∈ ["u"; "v"; "z"]%string ->
  level ∈ ds_pressure_level data ->
  exists a : DataArray,
    sel_pressure_level data name level = Ok a /\
    da_valid_time a = ds_valid_time data /\
    da_latitude a = ds_latitude data /\
    da_longitude a = ds_longitude data /\
    wf_array a /\
    (forall i j, at_cube (da_values a) 0 i j = observed data name level i j) /\
    (forall i j, (i < length (ds_latitude data))%nat ->
                 (j < length (ds_longitude data))%nat ->
                 is_Some (observed data name level i j)).
Proof.
  intros Hv Hname Hlevel.
  destruct (vo_vars data Hv name Hname) as (var & Hvar & Hlen & Hcube).
  destruct (list_find_elem_of (fun l => l = level) (ds_pressure_level data) level)
    as [[k l] Hfind]; [exact Hlevel|reflexivity|].
  pose proof Hfind as Hk. apply list_find_Some in Hk as (Hk & _ & _).
  apply lookup_lt_Some in Hk.
  assert (Hobs : forall i j,
             at_cube ((fun levels : list grid => default [] (levels !! k)) <$> var) 0 i j
             = observed data name level i j).
  { intros i j. unfold observed, observed_grid, level_index, at_cube.
    rewrite Hvar, Hfind, list_lookup_fmap. simpl.
    destruct (var !! 0%nat) as [levels|] eqn:E0; simpl; [|reflexivity].
    rewrite Forall_forall in Hcube.
    destruct (Hcube levels) as [Hl _]; [eapply list_elem_of_lookup_2, E0|].
    destruct (lookup_lt_is_Some_2 levels k) as [g Hg]; [lia|].
    rewrite Hg. reflexivity. }
  eexists. split; [|split; [|split; [|split; [|split; [|split]]]]].
  - unfold sel_pressure_level, level_index. rewrite Hvar. simpl.
    rewrite Hfind. simpl.
    reflexivity.
  - reflexivity.
  - reflexivity.
  - reflexivity.
  - split; simpl; [rewrite length_fmap; exact Hlen|].
    apply Forall_fmap. eapply Forall_impl; [exact Hcube|].
    intros levels [Hl Hg]. simpl.
    destruct (lookup_lt_is_Some_2 levels k) as [g Hgk]; [lia|].
    rewrite Hgk. simpl. rewrite Forall_forall in Hg. apply Hg.
    eapply list_elem_of_lookup_2, Hgk.
  - exact Hobs.
  - intros i j Hi Hj. rewrite <- Hobs. unfold at_cube.
    rewrite list_lookup_fmap.
    destruct (lookup_lt_is_Some_2 var 0) as [levels Hl0].
    { rewrite Hlen. pose proof (vo_time data Hv).
      destruct (ds_valid_time data); [congruence|simpl; lia]. }
    rewrite Hl0. simpl.
    rewrite Forall_forall in Hcube.
    destruct (Hcube levels) as [Hl Hg]; [eapply list_elem_of_lookup_2, Hl0|].
    destruct (lookup_lt_is_Some_2 levels k) as [g Hgk]; [lia|].
    rewrite Hgk. simpl. rewrite Forall_forall in Hg.
    eapply rectangular_at_point; [apply Hg|exact Hi|exact Hj].
    eapply list_elem_of_lookup_2, Hgk.
Qed.


Lemma over_wf (data : Dataset) (a : DataArray) : over data a -> wf_array a.
Proof. intros (Et & Ela & Elo & Hc). unfold wf_array. rewrite Et, Ela, Elo. exact Hc. Qed.

Lemma da_binop_over (op : float -> float -> float) (data : Dataset) (a b : DataArray) :
  over data a -> over data b ->
  exists c, da_binop op a b = Ok c /\ over data c /\
            da_values c = zip3 op (da_values a) (da_values b).
Proof.
  intros Ha Hb. eexists. split; [|split].
  - apply da_binop_same; try (eapply over_wf; eassumption);
      destruct Ha as (? & ? & ? & _), Hb as (? & ? & ? & _); congruence.
  - destruct Ha as (Et & Ela & Elo & Hca), Hb as (_ & _ & _ & Hcb).
    split; [exact Et|]. split; [exact Ela|]. split; [exact Elo|].
    simpl. apply cube_zip3; assumption.
  - reflexivity.
Qed.

Lemma da_map_over (f : float -> float) (data : Dataset) (a : DataArray) :
  over data a -> over data (da_map f a).
Proof.
  intros (Et & Ela & Elo & Hc).
  split; [exact Et|]. split; [exact Ela|]. split; [exact Elo|].
  simpl. apply cube_grid_map. exact Hc.
Qed.

Lemma isel_valid_time_0_over (data : Dataset) (a : DataArray) :
  ds_valid_time data <> [] -> over data a ->
  exists f, isel_valid_time_0 a = Ok f /\
            latitude f = ds_latitude data /\ longitude f = ds_longitude data /\
            wf_field f /\
            (forall i j, at_point (values f) i j = at_cube (da_values a) 0 i j).
Proof.
  intros Hne (Et & Ela & Elo & Hlen & Hc). unfold isel_valid_time_0.
  destruct (da_values a) as [|g v] eqn:E.
  { destruct (ds_valid_time data); [congruence|discriminate]. }
  eexists. split; [reflexivity|]. simpl.
  split; [exact Ela|]. split; [exact Elo|]. split; [|reflexivity].
  unfold wf_field. simpl. rewrite Ela, Elo.
  apply (Forall_inv Hc).
Qed.

Lemma squeeze_grid (f : Field) :
  length (latitude f) <> 1%nat -> length (longitude f) <> 1%nat ->
  squeeze f = Grid f.
Proof.
  unfold squeeze. intros Hlat Hlon.
  destruct (latitude f) as [|? [|? ?]], (longitude f) as [|? [|? ?]];
    simpl in *; congruence.
Qed.

End ArrayFacts.

(** Select a variable of a valid observation at one of the two levels. *)
Ltac select_level data Hv name level a :=
  let E := fresh "E" a in let O := fresh "O" a in
  let S := fresh "S" a in let V := fresh "V" a in
  destruct (sel_pressure_level_valid data name level Hv)
    as (a & E & ? & ? & ? & ? & O & S);
  [ apply (bool_decide_unpack _); reflexivity
  | first [apply (Xarray.vo_lower data Hv) | apply (Xarray.vo_upper data Hv)] | ];
  assert (V : Xarray.over data a) by
    (repeat split; try assumption;
     match goal with H : Xarray.wf_array a |- _ =>
       unfold Xarray.wf_array in H;
       repeat match goal with Heq : _ a = _ data |- _ => rewrite Heq in H; clear Heq end;
       apply H end).

Section ShearFacts.
Import Xarray Shear.

Lemma calculate_wind_shear_values (data : Dataset) :
  valid_observation data ->
  exists shear : Field,
    calculate_wind_shear data = Ok (squeeze shear) /\
    latitude shear = ds_latitude data /\
    longitude shear = ds_longitude data /\
    wf_field shear /\
    (forall i j,
       (i < length (ds_latitude data))%nat ->
       (j < length (ds_longitude data))%nat ->
       exists u1 u2 v1 v2 z1 z2,
         observed data "u" 500 i j = Some u1 /\
         observed data "u" 300 i j = Some u2 /\
         observed data "v" 500 i j = Some v1 /\
         observed data "v" 300 i j = Some v2 /\
         observed data "z" 500 i j = Some z1 /\
         observed data "z" 300 i j = Some z2 /\
         at_point (values shear) i j = Some (shear_formula u1 u2 v1 v2 z1 z2)) /\
    (length (ds_latitude data) <> 1%nat ->
     length (ds_longitude data) <> 1%nat ->
     squeeze shear = Grid shear).
Proof.
  intros Hv.
  select_level data Hv "u"%string 300%Z u2.
  select_level data Hv "v"%string 300%Z v2.
  select_level data Hv "z"%string 300%Z z2.
  select_level data Hv "u"%string 500%Z u1.
  select_level data Hv "v"%string 500%Z v1.
  select_level data Hv "z"%string 500%Z z1.
  destruct (da_binop_over PrimFloat.sub data u1 u2) as (du & Edu & Vdu & Xdu); [assumption..|].
  destruct (da_binop_over PrimFloat.sub data v1 v2) as (dv & Edv & Vdv & Xdv); [assumption..|].
  destruct (da_binop_over PrimFloat.sub data z1 z2) as (dz & Edz & Vdz & Xdz); [assumption..|].
  destruct (da_binop_over PrimFloat.div data du dz) as (qu & Equ & Vqu & Xqu); [assumption..|].
  destruct (da_binop_over PrimFloat.div data dv dz) as (qv & Eqv & Vqv & Xqv); [assumption..|].
  destruct (da_binop_over PrimFloat.add data (da_map pow2 qu) (da_map pow2 qv))
    as (tot & Etot & Vtot & Xtot); [apply da_map_over; assumption..|].
  destruct (isel_valid_time_0_over data (da_map PrimFloat.sqrt tot))
    as (f & Ef & Flat & Flon & Fwf & Fat);
    [apply (vo_time data Hv)|apply da_map_over; assumption|].
  exists f. split; [|split; [exact Flat|split; [exact Flon|split; [exact Fwf|split]]]].
  - unfold calculate_wind_shear.
    rewrite Eu2, Ev2, Ez2, Eu1, Ev1, Ez1. simpl.
    rewrite Edu, Edv, Edz. simpl. rewrite Equ, Eqv. simpl.
    rewrite Etot. simpl. rewrite Ef. reflexivity.
  - intros i j Hi Hj.
    destruct (Su1 i j Hi Hj) as [a1 Ha1], (Su2 i j Hi Hj) as [a2 Ha2],
      (Sv1 i j Hi Hj) as [b1 Hb1], (Sv2 i j Hi Hj) as [b2 Hb2],
      (Sz1 i j Hi Hj) as [c1 Hc1], (Sz2 i j Hi Hj) as [c2 Hc2].
    exists a1, a2, b1, b2, c1, c2. repeat (split; [assumption|]).
    rewrite Fat. simpl. rewrite at_cube_grid_map, Xtot, at_cube_zip3.
    simpl. rewrite !at_cube_grid_map, Xqu, Xqv, !at_cube_zip3, Xdu, Xdv, Xdz.
    rewrite !at_cube_zip3, Ou1, Ou2, Ov1, Ov2, Oz1, Oz2.
    rewrite Ha1, Ha2, Hb1, Hb2, Hc1, Hc2. reflexivity.
  - intros Hlat Hlon. apply squeeze_grid; congruence.
Qed.

Lemma shape_squeeze (f : Field) :
  shape (squeeze f)
  = List.filter (fun n => negb (n =? 1)%nat)
                [length (latitude f); length (longitude f)].
Proof.
  unfold squeeze.
  destruct (latitude f) as [|? [|? ?]] eqn:Ela,
           (longitude f) as [|? [|? ?]] eqn:Elo;
    simpl; rewrite ?Ela, ?Elo; reflexivity.
Qed.

Import Samples.

Lemma constant_observation_valid (lat lon : list float)
    (u500 u300 v500 v300 z500 z300 : float) :
  valid_observation (constant_observation lat lon u500 u300 v500 v300 z500 z300).
Proof.
  assert (Hg : forall x, rectangular (length lat) (length lon)
                           (constant_grid (length lat) (length lon) x)).
  { intros x. split; [apply length_replicate|].
    apply Forall_replicate, length_replicate. }
  split; simpl.
  - discriminate.
  - set_solver.
  - set_solver.
  - apply (bool_decide_unpack _). reflexivity.
  - intros name Hname.
    repeat (apply elem_of_cons in Hname as [->|Hname]);
      [| | |inversion Hname];
      (eexists; split; [reflexivity|]);
      (split; [reflexivity|]); repeat constructor; apply Hg.
Qed.

(** C1, the claim fails: on a grid of one latitude the result has lost
    the latitude dimension; its shape is (2), not (1, 2). *)
Lemma calculate_wind_shear_single_row :
  valid_observation single_row /\
  calculate_wind_shear single_row
  = Ok (AlongLongitude 50.0 [10.0; 10.25] [0.0025; 0.0025]) /\
  (forall s, calculate_wind_shear single_row = Ok s ->
             shape s <> [length (ds_latitude single_row);
                         length (ds_longitude single_row)]).
Proof.
  split; [apply constant_observation_valid|].
  split; [vm_compute; reflexivity|].
  intros s Hs. vm_compute in Hs. injection Hs as <-. discriminate.
Qed.

(** C1, as the code has it: on every valid observation the vertical shear
    is computed on the observation's latitude/longitude grid from the first
    time step, holds sqrt((du/dz)^2 + (dv/dz)^2) at every grid point with
    du, dv, dz the differences between level 500 and level 300, and is then
    squeezed: the result has the dimensions of length other than one, so it
    is the full grid exactly when neither axis has a single point. *)
Theorem calculate_wind_shear_formula (data : Dataset) :
  valid_observation data ->
  exists shear : Field,
    calculate_wind_shear data = Ok (squeeze shear) /\
    latitude shear = ds_latitude data /\
    longitude shear = ds_longitude data /\
    wf_field shear /\
    (forall i j,
       (i < length (ds_latitude data))%nat ->
       (j < length (ds_longitude data))%nat ->
       exists u1 u2 v1 v2 z1 z2,
         observed data "u" 500 i j = Some u1 /\
         observed data "u" 300 i j = Some u2 /\
         observed data "v" 500 i j = Some v1 /\
         observed data "v" 300 i j = Some v2 /\
         observed data "z" 500 i j = Some z1 /\
         observed data "z" 300 i j = Some z2 /\
         at_point (values shear) i j
         = Some (sqrt (pow2 ((u1 - u2) / (z1 - z2)) + pow2 ((v1 - v2) / (z1 - z2))))) /\
    shape (squeeze shear)
    = List.filter (fun n => negb (n =? 1)%nat)
                  [length (ds_latitude data); length (ds_longitude data)] /\
    (length (ds_latitude data) <> 1%nat ->
     length (ds_longitude data) <> 1%nat ->
     squeeze shear = Grid shear).
Proof.
  intros Hv.
  destruct (calculate_wind_shear_values data Hv)
    as (shear & E & Hlat & Hlon & Hwf & Hval & Hsq).
  exists shear. repeat (split; [assumption|]).
  split; [|exact Hsq].
  rewrite shape_squeeze, Hlat, Hlon. reflexivity.
Qed.

Lemma calculate_wind_shear_formula_witness :
  exists shear : Field,
    calculate_wind_shear scenario = Ok (Grid shear) /\
    at_point (values shear) 1 1 = Some 0.0025.
Proof.
  destruct (calculate_wind_shear_formula scenario)
    as (shear & E & _ & _ & _ & _ & _ & Hsq).
  - apply constant_observation_valid.
  - exists shear. rewrite Hsq in E by (simpl; lia). split; [exact E|].
    vm_compute in E. injection E as <-. reflexivity.
Defined.

Lemma finite_values_observed (data : Dataset) (name : string) (level : Z)
    (i j : nat) (x : float) :
  finite_values data -> name ∈ ["u"; "v"; "z"]%string ->
  observed data name level i j = Some x -> is_finite x = true.
Proof.
  unfold finite_values, observed, observed_grid, at_point.
  intros Hfin Hname Hobs.
  rewrite Forall_forall in Hfin. specialize (Hfin name Hname).
  destruct (ds_vars data !! name) as [var|]; [|discriminate]. simpl in *.
  destruct (level_index data level) as [k|]; [|discriminate]. simpl in *.
  destruct (var !! 0%nat) as [levels|] eqn:E0; [|discriminate]. simpl in *.
  destruct (levels !! k) as [g|] eqn:Ek; [|discriminate]. simpl in *.
  destruct (g !! i) as [row|] eqn:Ei; [|discriminate]. simpl in *.
  rewrite Forall_lookup in Hfin. specialize (Hfin _ _ E0).
  rewrite Forall_lookup in Hfin. specialize (Hfin _ _ Ek).
  rewrite Forall_lookup in Hfin. specialize (Hfin _ _ Ei).
  rewrite Forall_lookup in Hfin. exact (Hfin _ _ Hobs).
Qed.

(** C9, the claim fails: all values are finite and the height difference
    is -4000 everywhere, yet the quotient squared overflows and the shear
    is +infinity. *)
Lemma calculate_wind_shear_overflow :
  valid_observation huge_wind /\
  finite_values huge_wind /\
  (forall i j z1 z2,
     observed huge_wind "z" 500 i j = Some z1 ->
     observed huge_wind "z" 300 i j = Some z2 ->
     is_zero (z1 - z2) = false) /\
  exists shear : Field,
    calculate_wind_shear huge_wind = Ok (Grid shear) /\
    at_point (values shear) 0 0 = Some infinity /\
    is_finite infinity = false.
Proof.
  split; [apply constant_observation_valid|].
  split; [repeat constructor|]. split.
  - intros i j z1 z2 H1 H2.
    destruct i as [|[|i]], j as [|[|j]]; vm_compute in H1, H2;
      try discriminate; injection H1 as <-; injection H2 as <-; reflexivity.
  - eexists. split; [vm_compute; reflexivity|]. split; reflexivity.
Qed.

(** C9, as the code has it: with finite [u], [v], [z] and a height
    difference that is finite and nonzero at every grid point, the vertical
    shear is at every grid point a number (not NaN) and not negative, and
    it is finite exactly where the sum of squares under the root is
    finite, that is, where neither a wind difference, a quotient, a square
    nor their sum has overflowed. *)
Theorem calculate_wind_shear_nonneg (data : Dataset) :
  valid_observation data ->
  finite_values data ->
  (forall i j z1 z2,
     observed data "z" 500 i j = Some z1 ->
     observed data "z" 300 i j = Some z2 ->
     is_finite (z1 - z2) = true /\ is_zero (z1 - z2) = false) ->
  exists shear : Field,
    calculate_wind_shear data = Ok (squeeze shear) /\
    wf_field shear /\
    forall i j,
      (i < length (ds_latitude data))%nat ->
      (j < length (ds_longitude data))%nat ->
      exists u1 u2 v1 v2 z1 z2 r,
        observed data "u" 500 i j = Some u1 /\
        observed data "u" 300 i j = Some u2 /\
        observed data "v" 500 i j = Some v1 /\
        observed data "v" 300 i j = Some v2 /\
        observed data "z" 500 i j = Some z1 /\
        observed data "z" 300 i j = Some z2 /\
        at_point (values shear) i j = Some r /\
        is_nan r = false /\ (0 <=? r) = true /\
        is_finite r = is_finite (radicand u1 u2 v1 v2 z1 z2).
Proof.
  intros Hv Hfin Hdz.
  destruct (calculate_wind_shear_values data Hv)
    as (shear & E & _ & _ & Hwf & Hval & _).
  exists shear. split; [exact E|]. split; [exact Hwf|].
  intros i j Hi Hj.
  destruct (Hval i j Hi Hj)
    as (u1 & u2 & v1 & v2 & z1 & z2 & Hu1 & Hu2 & Hv1 & Hv2 & Hz1 & Hz2 & Hr).
  exists u1, u2, v1, v2, z1, z2. eexists.
  repeat (split; [eassumption|]).
  destruct (Hdz i j z1 z2 Hz1 Hz2) as [Hzf Hz0].
  apply shear_formula_nonneg; try assumption;
    (eapply finite_values_observed; [exact Hfin| |eassumption]);
    apply (bool_decide_unpack _); reflexivity.
Qed.

Lemma calculate_wind_shear_nonneg_witness :
  exists shear : Field,
    calculate_wind_shear scenario = Ok (squeeze shear) /\
    exists r, at_point (values shear) 0 0 = Some r /\
              is_nan r = false /\ (0 <=? r) = true.
Proof.
  destruct (calculate_wind_shear_nonneg scenario) as (shear & E & _ & H).
  - apply constant_observation_valid.
  - repeat constructor.
  - intros i j z1 z2 H1 H2.
    destruct i as [|[|i]], j as [|[|j]]; vm_compute in H1, H2;
      try discriminate; injection H1 as <-; injection H2 as <-;
      split; reflexivity.
  - exists shear. split; [exact E|].
    destruct (H 0%nat 0%nat) as (? & ? & ? & ? & ? & ? & r & Hr);
      [simpl; lia..|].
    exists r. tauto.
Defined.

End ShearFacts.


(** ** Properties of numerical differentiation and of the horizontal shear *)

Section ZipWith.
Context {A1 A2 A3 B1 B2 B3 : Type}.
Variable R1 : A1 -> B1 -> Prop.
Variable R2 : A2 -> B2 -> Prop.
Variable R3 : A3 -> B3 -> Prop.
Variable f : A1 -> A2 -> A3.
Variable g : B1 -> B2 -> B3.
Hypothesis fg : forall a b a' b', R1 a b -> R2 a' b' -> R3 (f a a') (g b b').

Lemma Forall2_zip_with_rel (l : list A1) (k : list B1) (l' : list A2) (k' : list B2) :
  Forall2 R1 l k -> Forall2 R2 l' k' ->
  Forall2 R3 (zip_with f l l') (zip_with g k k').
Proof.
  intros H. revert l' k'.
  induction H as [|a b l k Hab _ IH]; intros l' k' H'; [constructor|].
  destruct H' as [|a' b' l' k' Hab' H']; simpl; constructor; auto.
Qed.
End ZipWith.

Section GradientRel.
Import Xarray.
Context {A B : Type}.
Variable R : A -> B -> Prop.
Variable subA addA : A -> A -> A.
Variable scaleA : float -> A -> A.
Variable divideA : A -> float -> A.
Variable subB addB : B -> B -> B.
Variable scaleB : float -> B -> B.
Variable divideB : B -> float -> B.
Hypothesis sub_rel : forall a b a' b', R a b -> R a' b' -> R (subA a a') (subB b b').
Hypothesis add_rel : forall a b a' b', R a b -> R a' b' -> R (addA a a') (addB b b').
Hypothesis scale_rel : forall c a b, R a b -> R (scaleA c a) (scaleB c b).
Hypothesis divide_rel : forall c a b, R a b -> R (divideA a c) (divideB b c).

Abbreviation gradA := (gradient subA addA scaleA divideA).
Abbreviation gradB := (gradient subB addB scaleB divideB).

Lemma interior_rel (sp : spacing) (l : list A) (k : list B) :
  Forall2 R l k ->
  Forall2 R (interior subA addA scaleA divideA sp l)
            (interior subB addB scaleB divideB sp k).
Proof.
  intros H. destruct sp as [dx|dx]; simpl.
  - eapply (Forall2_zip_with_rel R R R); [|apply Forall2_drop, H|exact H].
    intros. apply divide_rel, sub_rel; assumption.
  - eapply (Forall2_zip_with_rel eq (fun x y => R x.1.1 y.1.1 /\ R x.1.2 y.1.2 /\ R x.2 y.2) R).
    + intros abc ? [[a1 a2] a3] [[b1 b2] b3] <- (H1 & H2 & H3). simpl in *.
      destruct abc as [[a b] c].
      apply add_rel; [apply add_rel|]; apply scale_rel; assumption.
    + apply Forall_Forall2_diag, Forall_forall. reflexivity.
    + unfold zip.
      eapply (Forall2_zip_with_rel (fun x y => R x.1 y.1 /\ R x.2 y.2) R _);
        [| |apply Forall2_drop, H].
      * intros [a1 a2] [b1 b2] a3 b3 [H1 H2] H3. simpl in *. auto.
      * eapply (Forall2_zip_with_rel R R _); [|exact H|apply Forall2_drop, H].
        intros; simpl; auto.
Qed.

Lemma first_edge_rel (sp : spacing) (l : list A) (k : list B) :
  Forall2 R l k ->
  Forall2 R (first_edge subA divideA sp l) (first_edge subB divideB sp k).
Proof.
  intros H. destruct H as [|a b l k Hab H]; [constructor|].
  destruct H as [|a' b' l k Hab' H]; simpl; [constructor|].
  constructor; [|constructor]. apply divide_rel, sub_rel; assumption.
Qed.

Lemma last_edge_rel (sp : spacing) (l : list A) (k : list B) :
  Forall2 R l k ->
  Forall2 R (last_edge subA divideA sp l) (last_edge subB divideB sp k).
Proof.
  intros H. apply Forall2_reverse in H. unfold last_edge.
  destruct H as [|a b l' k' Hab H]; [constructor|].
  destruct H as [|a' b' l' k' Hab' H]; simpl; [constructor|].
  constructor; [|constructor]. apply divide_rel, sub_rel; assumption.
Qed.

Lemma gradient_rel (sp : spacing) (l : list A) (k : list B) :
  Forall2 R l k -> Forall2 R (gradA sp l) (gradB sp k).
Proof.
  intros H. unfold gradient.
  repeat apply Forall2_app;
    auto using first_edge_rel, interior_rel, last_edge_rel.
Qed.

End GradientRel.

Section GradientShape.
Import Xarray.
Context {A : Type}.
Variable sub add : A -> A -> A.
Variable scale : float -> A -> A.
Variable divide : A -> float -> A.

Lemma length_interior (sp : spacing) (f : list A) :
  fits sp (length f) ->
  length (interior sub add scale divide sp f) = (length f - 2)%nat.
Proof.
  destruct sp as [dx|dx]; unfold interior, fits; intros Hfit.
  - rewrite length_zip_with, length_drop. lia.
  - rewrite !length_zip_with, !length_drop. lia.
Qed.

Lemma length_first_edge (sp : spacing) (f : list A) :
  (2 <= length f)%nat -> length (first_edge sub divide sp f) = 1%nat.
Proof. destruct f as [|? [|? ?]]; simpl; intros; try lia. Qed.

Lemma length_last_edge (sp : spacing) (f : list A) :
  (2 <= length f)%nat -> length (last_edge sub divide sp f) = 1%nat.
Proof.
  intros H. unfold last_edge. rewrite <- length_reverse in H.
  destruct (reverse f) as [|? [|? ?]]; simpl in *; lia.
Qed.

Lemma length_gradient (sp : spacing) (f : list A) :
  (2 <= length f)%nat -> fits sp (length f) ->
  length (gradient sub add scale divide sp f) = length f.
Proof.
  intros Hn Hfit. unfold gradient.
  rewrite !length_app, length_first_edge, length_last_edge, length_interior
    by assumption.
  lia.
Qed.

(** One-sided difference at the first point. *)
Lemma gradient_first (sp : spacing) (f0 f1 : A) (f : list A) :
  gradient sub add scale divide sp (f0 :: f1 :: f) !! 0%nat
  = Some (divide (sub f1 f0) (first_step sp)).
Proof. reflexivity. Qed.

(** One-sided difference at the last point. *)
Lemma gradient_last (sp : spacing) (f : list A) (a b : A) :
  fits sp (length (f ++ [a; b])) ->
  gradient sub add scale divide sp (f ++ [a; b]) !! S (length f)
  = Some (divide (sub b a) (last_step sp)).
Proof.
  intros Hfit. unfold gradient.
  assert (Hn : (2 <= length (f ++ [a; b]))%nat) by (rewrite length_app; simpl; lia).
  rewrite app_assoc, lookup_app_r;
    rewrite length_app, length_first_edge, length_interior by assumption;
    rewrite length_app; simpl; [|lia].
  unfold last_edge. rewrite reverse_app.
  match goal with |- _ !! ?k = _ => replace k with 0%nat by lia end.
  reflexivity.
Qed.

(** Central difference at an interior point of a uniformly spaced axis. *)
Lemma gradient_interior_uniform (dx : float) (f : list A) (i : nat) (a c : A) :
  f !! i = Some a -> f !! S (S i) = Some c ->
  gradient sub add scale divide (Uniform dx) f !! S i
  = Some (divide (sub c a) (2 * dx)).
Proof.
  intros Ha Hc. unfold gradient.
  assert (Hn : (2 <= length f)%nat) by (apply lookup_lt_Some in Hc; lia).
  rewrite lookup_app_r; rewrite length_first_edge by assumption; [|lia].
  replace (S i - 1)%nat with i by lia.
  apply lookup_app_l_Some. unfold interior.
  rewrite lookup_zip_with, lookup_drop.
  change (2 + i)%nat with (S (S i)). rewrite Hc. simpl. rewrite Ha. reflexivity.
Qed.

(** Three-point formula at an interior point of an unevenly spaced axis. *)
Lemma gradient_interior_varying (dx : list float) (f : list A) (i : nat)
    (a b c : A) (dx1 dx2 : float) :
  f !! i = Some a -> f !! S i = Some b -> f !! S (S i) = Some c ->
  dx !! i = Some dx1 -> dx !! S i = Some dx2 ->
  gradient sub add scale divide (Varying dx) f !! S i
  = Some (add (add (scale ((- dx2) / (dx1 * (dx1 + dx2))) a)
                   (scale ((dx2 - dx1) / (dx1 * dx2)) b))
              (scale (dx1 / (dx2 * (dx1 + dx2))) c)).
Proof.
  intros Ha Hb Hc H1 H2. unfold gradient.
  assert (Hn : (2 <= length f)%nat) by (apply lookup_lt_Some in Hc; lia).
  rewrite lookup_app_r; rewrite length_first_edge by assumption; [|lia].
  replace (S i - 1)%nat with i by lia.
  apply lookup_app_l_Some. unfold interior.
  rewrite !lookup_zip_with, !lookup_drop.
  change (2 + i)%nat with (S (S i)). change (1 + i)%nat with (S i).
  rewrite H1, H2, Ha, Hb, Hc. reflexivity.
Qed.

End GradientShape.

Section AxisSpacing.
Import Xarray.

Lemma length_diff (x : list float) : length (diff x) = (length x - 1)%nat.
Proof. unfold diff. rewrite length_zip_with, length_drop. lia. Qed.

Lemma axis_spacing_short (x : list float) :
  (length x < 2)%nat -> axis_spacing x = Raise IndexError.
Proof. destruct x as [|? [|? ?]]; simpl; intros; try lia; reflexivity. Qed.

Lemma axis_spacing_fits (x : list float) :
  (2 <= length x)%nat ->
  exists sp, axis_spacing x = Ok sp /\ fits sp (length x).
Proof.
  intros Hn. unfold axis_spacing.
  pose proof (length_diff x) as Hd.
  destruct (diff x) as [|dx0 dx] eqn:E; [simpl in Hd; lia|].
  destruct (forallb _ _); eexists; (split; [reflexivity|]).
  - exact I.
  - unfold fits. rewrite Hd. lia.
Qed.

(** The first step of the axis is the spacing used at the first edge, and
    on an evenly spaced axis everywhere. *)
Lemma axis_spacing_first (x0 x1 : float) (x : list float) :
  axis_spacing (x0 :: x1 :: x) = Ok (Uniform (x1 - x0)) \/
  exists dx, axis_spacing (x0 :: x1 :: x) = Ok (Varying ((x1 - x0) :: dx)).
Proof.
  unfold axis_spacing. simpl.
  destruct (_ && _); [left; reflexivity|right].
  eexists. reflexivity.
Qed.

End AxisSpacing.

Section DifferentiateFacts.
Import Xarray Shear.

Lemma sel_pressure_level_first (data : Dataset) (name : string) (level : Z)
    (a : DataArray) :
  valid_observation data ->
  name ∈ ["u"; "v"; "z"]%string ->
  sel_pressure_level data name level = Ok a ->
  exists g, da_values a !! 0%nat = Some g /\
            observed_grid data name level = Some g /\
            rectangular (length (ds_latitude data)) (length (ds_longitude data)) g.
Proof.
  intros Hv Hname. unfold sel_pressure_level, observed_grid.
  destruct (vo_vars data Hv name Hname) as (var & Hvar & Hlen & Hcube).
  rewrite Hvar. simpl.
  destruct (level_index data level) as [k|] eqn:Ek; simpl; [|discriminate].
  intros [= <-]. simpl. rewrite list_lookup_fmap.
  destruct (lookup_lt_is_Some_2 var 0) as [levels Hl0].
  { rewrite Hlen. pose proof (vo_time data Hv).
    destruct (ds_valid_time data); [congruence|simpl; lia]. }
  rewrite Hl0. simpl.
  rewrite Forall_forall in Hcube.
  destruct (Hcube levels) as [Hl Hg]; [eapply list_elem_of_lookup_2, Hl0|].
  unfold level_index in Ek.
  destruct (list_find _ _) as [[k' l]|] eqn:Hfind; [|discriminate].
  injection Ek as ->.
  apply list_find_Some in Hfind as (Hk & _ & _). apply lookup_lt_Some in Hk.
  destruct (lookup_lt_is_Some_2 levels k) as [g Hgk]; [lia|].
  rewrite Hgk. exists g. repeat split; try reflexivity;
    rewrite Forall_forall in Hg; apply Hg; eapply list_elem_of_lookup_2, Hgk.
Qed.

Lemma rows_length_gradient (sp : spacing) (m : nat) (g : grid) :
  Forall (fun row => length row = m) g ->
  Forall (fun row => length row = m) (gradient_rows sp g).
Proof.
  intros Hg.
  eapply (Forall2_Forall_l (fun row _ => length row = m) _ _ (gradient_rows sp g)).
  - unfold gradient_rows.
    apply (gradient_rel (fun (row _ : list float) => length row = m));
      [| | | |apply Forall_Forall2_diag; eapply Forall_impl; [exact Hg|auto]].
    + intros a _ a' _ Ha Ha'. rewrite length_zip_with. lia.
    + intros a _ a' _ Ha Ha'. rewrite length_zip_with. lia.
    + intros c a _ Ha. rewrite length_fmap. exact Ha.
    + intros c a _ Ha. rewrite length_fmap. exact Ha.
  - apply Forall_forall. auto.
Qed.

Lemma rectangular_gradient_rows (sp : spacing) (n m : nat) (g : grid) :
  (2 <= n)%nat -> fits sp n ->
  rectangular n m g -> rectangular n m (gradient_rows sp g).
Proof.
  intros Hn Hfit [Hlen Hrows]. split.
  - unfold gradient_rows.
    rewrite length_gradient; [exact Hlen|rewrite Hlen..]; assumption.
  - apply rows_length_gradient, Hrows.
Qed.

Lemma rectangular_gradient_floats (sp : spacing) (n m : nat) (g : grid) :
  (2 <= m)%nat -> fits sp m ->
  rectangular n m g ->
  rectangular n m ((fun row : list float => gradient_floats sp row) <$> g).
Proof.
  intros Hm Hfit [Hlen Hrows]. split.
  - rewrite length_fmap. exact Hlen.
  - apply Forall_fmap. eapply Forall_impl; [exact Hrows|].
    intros row Hrow. simpl. unfold gradient_floats.
    rewrite length_gradient; [exact Hrow|rewrite Hrow..]; assumption.
Qed.

Lemma column_rel (n m : nat) (g : grid) (j : nat) :
  rectangular n m g -> (j < m)%nat ->
  Forall2 (fun (row : list float) x => row !! j = Some x) g (column g j).
Proof.
  intros [_ Hrows] Hj. unfold column.
  induction Hrows as [|row g Hrow _ IH]; [constructor|]. simpl.
  destruct (lookup_lt_is_Some_2 row j) as [x Hx]; [lia|].
  rewrite Hx. constructor; assumption.
Qed.

(** The gradient along the rows, read at column [j], is the gradient of
    column [j]. *)
Lemma at_point_gradient_rows (sp : spacing) (n m : nat) (g : grid) (i j : nat) :
  rectangular n m g -> (j < m)%nat ->
  at_point (gradient_rows sp g) i j = gradient_floats sp (column g j) !! i.
Proof.
  intros Hg Hj.
  assert (H : Forall2 (fun (row : list float) x => row !! j = Some x)
                      (gradient_rows sp g) (gradient_floats sp (column g j))).
  { unfold gradient_rows, gradient_floats.
    apply gradient_rel; [| | | |eapply column_rel; eassumption].
    - intros a b a' b' Ha Ha'. rewrite lookup_zip_with, Ha. simpl.
      rewrite Ha'. reflexivity.
    - intros a b a' b' Ha Ha'. rewrite lookup_zip_with, Ha. simpl.
      rewrite Ha'. reflexivity.
    - intros c a b Ha. rewrite list_lookup_fmap, Ha. reflexivity.
    - intros c a b Ha. rewrite list_lookup_fmap, Ha. reflexivity. }
  unfold at_point.
  destruct (gradient_rows sp g !! i) as [row|] eqn:Ei; simpl.
  - destruct (Forall2_lookup_l _ _ _ _ _ H Ei) as (x & Hx & Hrow).
    rewrite Hx. exact Hrow.
  - symmetry. apply lookup_ge_None. apply lookup_ge_None in Ei.
    rewrite <- (Forall2_length _ _ _ H). exact Ei.
Qed.

Lemma differentiate_longitude_over (data : Dataset) (a : DataArray) :
  over data a -> (2 <= length (ds_longitude data))%nat ->
  exists sp a',
    axis_spacing (ds_longitude data) = Ok sp /\
    differentiate_longitude a = Ok a' /\ over data a' /\
    da_values a' = (fun g : grid => gradient_floats sp <$> g) <$> da_values a.
Proof.
  intros (Et & Ela & Elo & Hlen & Hc) Hn.
  destruct (axis_spacing_fits _ Hn) as (sp & Hsp & Hfit).
  exists sp. eexists. split; [exact Hsp|]. split; [|split].
  - unfold differentiate_longitude. rewrite Elo, Hsp. reflexivity.
  - split; [simpl; congruence|]. split; [simpl; congruence|].
    split; [simpl; congruence|].
    split; simpl; [rewrite length_fmap; exact Hlen|].
    apply Forall_fmap. eapply Forall_impl; [exact Hc|].
    intros g Hg. apply rectangular_gradient_floats; assumption.
  - reflexivity.
Qed.

Lemma differentiate_latitude_over (data : Dataset) (a : DataArray) :
  over data a -> (2 <= length (ds_latitude data))%nat ->
  exists sp a',
    axis_spacing (ds_latitude data) = Ok sp /\
    differentiate_latitude a = Ok a' /\ over data a' /\
    da_values a' = gradient_rows sp <$> da_values a.
Proof.
  intros (Et & Ela & Elo & Hlen & Hc) Hn.
  destruct (axis_spacing_fits _ Hn) as (sp & Hsp & Hfit).
  exists sp. eexists. split; [exact Hsp|]. split; [|split].
  - unfold differentiate_latitude. rewrite Ela, Hsp. reflexivity.
  - split; [simpl; congruence|]. split; [simpl; congruence|].
    split; [simpl; congruence|].
    split; simpl; [rewrite length_fmap; exact Hlen|].
    apply Forall_fmap. eapply Forall_impl; [exact Hc|].
    intros g Hg. apply rectangular_gradient_rows; assumption.
  - reflexivity.
Qed.

End DifferentiateFacts.

Section AxisSpacingCases.
Import Xarray.

(** [np.diff] in coordinates. *)
Lemma diff_lookup (x : list float) (i : nat) (p q : float) :
  x !! i = Some p -> x !! S i = Some q -> diff x !! i = Some (q - p).
Proof.
  intros Hp Hq. unfold diff. rewrite lookup_zip_with, lookup_drop.
  change (1 + i)%nat with (S i). rewrite Hq. simpl. rewrite Hp. reflexivity.
Qed.

(** The spacing is the first step when every step equals it, and the
    list of steps otherwise. *)
Lemma axis_spacing_cases (x0 x1 : float) (rest : list float) :
  (Forall (fun d => (d =? x1 - x0) = true) (diff (x0 :: x1 :: rest)) ->
   axis_spacing (x0 :: x1 :: rest) = Ok (Uniform (x1 - x0))) /\
  (~ Forall (fun d => (d =? x1 - x0) = true) (diff (x0 :: x1 :: rest)) ->
   axis_spacing (x0 :: x1 :: rest) = Ok (Varying (diff (x0 :: x1 :: rest)))).
Proof.
  unfold axis_spacing.
  change (diff (x0 :: x1 :: rest)) with ((x1 - x0) :: diff (x1 :: rest)).
  cbv iota beta.
  destruct (forallb (fun d => d =? x1 - x0) ((x1 - x0) :: diff (x1 :: rest))) eqn:E.
  - split; [reflexivity|]. intros Hn. exfalso. apply Hn.
    apply Forall_forall. intros d Hd. rewrite forallb_forall in E.
    apply E. apply list_elem_of_In. exact Hd.
  - split; [|reflexivity]. intros Hall. exfalso.
    assert (forallb (fun d => d =? x1 - x0) ((x1 - x0) :: diff (x1 :: rest)) = true).
    { apply forallb_forall. intros d Hd. rewrite Forall_forall in Hall.
      apply Hall. apply list_elem_of_In. exact Hd. }
    congruence.
Qed.

Lemma axis_spacing_Uniform (x : list float) (dx : float) :
  axis_spacing x = Ok (Uniform dx) ->
  (exists x0 x1 rest, x = x0 :: x1 :: rest /\ dx = x1 - x0) /\
  (forall i p q, x !! i = Some p -> x !! S i = Some q -> (q - p =? dx) = true).
Proof.
  intros Hsp.
  destruct x as [|x0 [|x1 rest]]; try discriminate Hsp.
  destruct (axis_spacing_cases x0 x1 rest) as [_ Hvar].
  destruct (decide (Forall (fun d => (d =? x1 - x0) = true) (diff (x0 :: x1 :: rest))))
    as [Hall|Hn].
  - assert (dx = x1 - x0) as ->.
    { destruct (axis_spacing_cases x0 x1 rest) as [Huni _].
      rewrite (Huni Hall) in Hsp. congruence. }
    split; [eauto|]. intros i p q Hp Hq. rewrite Forall_lookup in Hall.
    exact (Hall i _ (diff_lookup _ i p q Hp Hq)).
  - rewrite (Hvar Hn) in Hsp. discriminate.
Qed.

Lemma axis_spacing_Varying (x dxs : list float) :
  axis_spacing x = Ok (Varying dxs) ->
  dxs = diff x /\
  (forall i p q, x !! i = Some p -> x !! S i = Some q -> dxs !! i = Some (q - p)).
Proof.
  intros Hsp.
  assert (dxs = diff x) as ->.
  { unfold axis_spacing in Hsp. destruct (diff x) as [|dx0 dx]; [discriminate|].
    destruct (forallb _ _); congruence. }
  split; [reflexivity|]. intros i p q. apply diff_lookup.
Qed.

Lemma axis_spacing_Ok (x : list float) (sp : spacing) :
  axis_spacing x = Ok sp -> (2 <= length x)%nat /\ fits sp (length x).
Proof.
  intros Hsp.
  assert (Hn : (2 <= length x)%nat).
  { destruct (Nat.lt_ge_cases (length x) 2) as [Hlt|]; [|assumption].
    rewrite (axis_spacing_short x Hlt) in Hsp. discriminate. }
  split; [exact Hn|].
  destruct (axis_spacing_fits x Hn) as (sp' & Hsp' & Hfit). congruence.
Qed.

(** The step used at the last point: the last coordinate step, or a step
    equal to it on an evenly spaced axis. *)
Lemma axis_spacing_last (xs : list float) (xm xn : float) (sp : spacing) :
  axis_spacing (xs ++ [xm; xn]) = Ok sp ->
  last_step sp = xn - xm \/ (xn - xm =? last_step sp) = true.
Proof.
  intros Hsp.
  assert (Hm : (xs ++ [xm; xn]) !! length xs = Some xm).
  { rewrite lookup_app_r by lia. rewrite Nat.sub_diag. reflexivity. }
  assert (Hn : (xs ++ [xm; xn]) !! S (length xs) = Some xn).
  { rewrite lookup_app_r by lia.
    replace (S (length xs) - length xs)%nat with 1%nat by lia. reflexivity. }
  destruct sp as [dx|dxs].
  - right. apply axis_spacing_Uniform in Hsp as [_ Hall].
    exact (Hall _ _ _ Hm Hn).
  - left. apply axis_spacing_Varying in Hsp as [-> _]. simpl.
    pose proof (diff_lookup _ _ _ _ Hm Hn) as Hd.
    assert (Hlen : length (diff (xs ++ [xm; xn])) = S (length xs)).
    { rewrite length_diff, length_app. simpl. lia. }
    rewrite last_lookup, Hlen. simpl. rewrite Hd. reflexivity.
Qed.

End AxisSpacingCases.

Section DerivativeInCoordinates.
Import Xarray.

(** The derivative along an axis, read in the coordinates of the axis. *)
Lemma gradient_floats_first (x0 x1 : float) (xs : list float) (sp : spacing)
    (f0 f1 : float) (fs : list float) :
  axis_spacing (x0 :: x1 :: xs) = Ok sp ->
  gradient_floats sp (f0 :: f1 :: fs) !! 0%nat = Some ((f1 - f0) / (x1 - x0)).
Proof.
  intros Hsp. unfold gradient_floats. rewrite gradient_first.
  destruct (axis_spacing_first x0 x1 xs) as [H|[dx H]];
    rewrite H in Hsp; injection Hsp as <-; reflexivity.
Qed.

Lemma gradient_floats_last (xs : list float) (xm xn : float) (sp : spacing)
    (fs : list float) (fm fn : float) :
  axis_spacing (xs ++ [xm; xn]) = Ok sp ->
  length fs = length xs ->
  gradient_floats sp (fs ++ [fm; fn]) !! S (length fs)
  = Some ((fn - fm) / last_step sp) /\
  (last_step sp = xn - xm \/ (xn - xm =? last_step sp) = true).
Proof.
  intros Hsp Hlen. split; [|eapply axis_spacing_last, Hsp].
  unfold gradient_floats. apply gradient_last.
  destruct (axis_spacing_Ok _ _ Hsp) as [_ Hfit].
  rewrite !length_app in *. simpl in *. rewrite Hlen. exact Hfit.
Qed.

Lemma gradient_floats_interior_even (x : list float) (dx : float)
    (f : list float) (i : nat) (a c : float) :
  axis_spacing x = Ok (Uniform dx) ->
  f !! i = Some a -> f !! S (S i) = Some c ->
  gradient_floats (Uniform dx) f !! S i = Some ((c - a) / (2 * dx)) /\
  (exists x0 x1 rest, x = x0 :: x1 :: rest /\ dx = x1 - x0) /\
  (forall k p q, x !! k = Some p -> x !! S k = Some q -> (q - p =? dx) = true).
Proof.
  intros Hsp Ha Hc. split; [|apply axis_spacing_Uniform, Hsp].
  unfold gradient_floats. apply gradient_interior_uniform; assumption.
Qed.

Lemma gradient_floats_interior_uneven (x dxs : list float) (f : list float)
    (i : nat) (p q r a b c : float) :
  axis_spacing x = Ok (Varying dxs) ->
  x !! i = Some p -> x !! S i = Some q -> x !! S (S i) = Some r ->
  f !! i = Some a -> f !! S i = Some b -> f !! S (S i) = Some c ->
  let dx1 := q - p in
  let dx2 := r - q in
  gradient_floats (Varying dxs) f !! S i
  = Some ((- dx2) / (dx1 * (dx1 + dx2)) * a
          + (dx2 - dx1) / (dx1 * dx2) * b
          + dx1 / (dx2 * (dx1 + dx2)) * c).
Proof.
  intros Hsp Hp Hq Hr Ha Hb Hc dx1 dx2.
  apply axis_spacing_Varying in Hsp as [_ Hd].
  unfold gradient_floats.
  apply gradient_interior_varying; try assumption; apply Hd; assumption.
Qed.

Lemma differentiate_short (a : DataArray) :
  ((length (da_latitude a) < 2)%nat -> differentiate_latitude a = Raise IndexError) /\
  ((length (da_longitude a) < 2)%nat -> differentiate_longitude a = Raise IndexError).
Proof.
  split; intros Hn; unfold differentiate_latitude, differentiate_longitude;
    rewrite (axis_spacing_short _ Hn); reflexivity.
Qed.

End DerivativeInCoordinates.

Section ShortAxis.
Import Xarray Shear.

(** On an observation with fewer than two points on an axis the
    horizontal shear raises. *)
Lemma calculate_horizontal_shear_short (data : Dataset) :
  valid_observation data ->
  (length (ds_latitude data) < 2)%nat \/ (length (ds_longitude data) < 2)%nat ->
  calculate_horizontal_shear data = Raise IndexError.
Proof.
  intros Hv Hshort.
  select_level data Hv "u"%string 500%Z u_wind.
  select_level data Hv "v"%string 500%Z v_wind.
  unfold calculate_horizontal_shear. rewrite Eu_wind, Ev_wind. simpl.
  destruct Vu_wind as (_ & Hlat & Hlon & _).
  destruct (Nat.lt_ge_cases (length (ds_latitude data)) 2) as [Hlt|Hge].
  - destruct (differentiate_short u_wind) as [Hraise _].
    rewrite Hlat in Hraise. rewrite (Hraise Hlt). reflexivity.
  - assert (Hlon2 : (length (ds_longitude data) < 2)%nat) by (destruct Hshort; lia).
    destruct (axis_spacing_fits (ds_latitude data) Hge) as (sp & Hsp & _).
    assert (Hd : exists g, differentiate_latitude u_wind = Ok g).
    { unfold differentiate_latitude. rewrite Hlat, Hsp. eexists. reflexivity. }
    destruct Hd as [g ->]. simpl.
    destruct (differentiate_short u_wind) as [_ Hraise].
    rewrite Hlon in Hraise. rewrite (Hraise Hlon2). reflexivity.
Qed.

Lemma sheared_valid : valid_observation Sheared.observation.
Proof.
  split; simpl.
  - discriminate.
  - set_solver.
  - set_solver.
  - apply (bool_decide_unpack _). reflexivity.
  - intros name Hname.
    repeat (apply elem_of_cons in Hname as [->|Hname]);
      [| | |inversion Hname];
      (eexists; split; [reflexivity|]);
      (split; [reflexivity|]); repeat constructor.
Qed.

End ShortAxis.

Section HorizontalShearFacts.
Import Xarray Shear Samples.

Lemma sel_pressure_level_coords (data : Dataset) (name : string) (level : Z)
    (a : DataArray) :
  sel_pressure_level data name level = Ok a ->
  da_latitude a = ds_latitude data /\ da_longitude a = ds_longitude data.
Proof.
  unfold sel_pressure_level.
  destruct (ds_vars data !! name); simpl; [|discriminate].
  destruct (level_index data level); simpl; [|discriminate].
  intros [= <-]. split; reflexivity.
Qed.

(** The two cross-gradients are computed and dropped: they change
    neither the value nor the failures. *)
Lemma calculate_horizontal_shear_no_cross (data : Dataset) :
  calculate_horizontal_shear data = horizontalShear data.
Proof.
  unfold calculate_horizontal_shear, horizontalShear.
  destruct (sel_pressure_level data "u" 500) as [u|e] eqn:Eu; simpl; [|reflexivity].
  destruct (sel_pressure_level data "v" 500) as [v|e] eqn:Ev; simpl; [|reflexivity].
  destruct (sel_pressure_level_coords _ _ _ _ Eu) as [Hulat Hulon].
  destruct (sel_pressure_level_coords _ _ _ _ Ev) as [Hvlat Hvlon].
  unfold differentiate_latitude, differentiate_longitude.
  rewrite Hulat, Hulon, Hvlat, Hvlon.
  destruct (axis_spacing (ds_latitude data)) as [slat|[]] eqn:Elat;
    destruct (axis_spacing (ds_longitude data)) as [slon|[]] eqn:Elon;
    simpl; try reflexivity;
    try (unfold axis_spacing in Elat; destruct (diff (ds_latitude data)); discriminate);
    try (unfold axis_spacing in Elon; destruct (diff (ds_longitude data)); discriminate).
Qed.

Lemma calculate_horizontal_shear_lower_level (data data' : Dataset) :
  sel_pressure_level data "u" 500 = sel_pressure_level data' "u" 500 ->
  sel_pressure_level data "v" 500 = sel_pressure_level data' "v" 500 ->
  calculate_horizontal_shear data = calculate_horizontal_shear data'.
Proof.
  intros Hu Hv. unfold calculate_horizontal_shear. rewrite Hu, Hv. reflexivity.
Qed.

Lemma calculate_horizontal_shear_values (data : Dataset) :
  valid_observation data ->
  (2 <= length (ds_latitude data))%nat ->
  (2 <= length (ds_longitude data))%nat ->
  exists (u v : grid) (slat slon : spacing) (shear : Field),
    observed_grid data "u" 500 = Some u /\
    observed_grid data "v" 500 = Some v /\
    axis_spacing (ds_latitude data) = Ok slat /\
    axis_spacing (ds_longitude data) = Ok slon /\
    calculate_horizontal_shear data = Ok (Grid shear) /\
    latitude shear = ds_latitude data /\
    longitude shear = ds_longitude data /\
    wf_field shear /\
    forall i j,
      (i < length (ds_latitude data))%nat ->
      (j < length (ds_longitude data))%nat ->
      exists row du_dlon dv_dlat,
        u !! i = Some row /\
        gradient_floats slon row !! j = Some du_dlon /\
        gradient_floats slat (column v j) !! i = Some dv_dlat /\
        at_point (values shear) i j
        = Some (sqrt (pow2 du_dlon + pow2 dv_dlat)).
Proof.
  intros Hv Hnlat Hnlon.
  select_level data Hv "u"%string 500%Z u_wind.
  select_level data Hv "v"%string 500%Z v_wind.
  destruct (sel_pressure_level_first data "u" 500 u_wind Hv)
    as (u & Hu0 & Hu & Hurect);
    [apply (bool_decide_unpack _); reflexivity|assumption|].
  destruct (sel_pressure_level_first data "v" 500 v_wind Hv)
    as (v & Hv0 & Hvg & Hvrect);
    [apply (bool_decide_unpack _); reflexivity|assumption|].
  destruct (differentiate_latitude_over data u_wind)
    as (slat & u_lat & Hslat & Eulat & _ & _); [assumption..|].
  destruct (differentiate_longitude_over data u_wind)
    as (slon & u_lon & Hslon & Eulon & Vulon & Xulon); [assumption..|].
  destruct (differentiate_latitude_over data v_wind)
    as (slat' & v_lat & Hslat' & Evlat & Vvlat & Xvlat); [assumption..|].
  destruct (differentiate_longitude_over data v_wind)
    as (slon' & v_lon & Hslon' & Evlon & _ & _); [assumption..|].
  assert (slat' = slat) as -> by congruence.
  destruct (da_binop_over PrimFloat.add data (da_map pow2 u_lon) (da_map pow2 v_lat))
    as (tot & Etot & Vtot & Xtot); [apply da_map_over; assumption..|].
  destruct (isel_valid_time_0_over data (da_map PrimFloat.sqrt tot))
    as (f & Ef & Flat & Flon & Fwf & Fat);
    [apply (vo_time data Hv)|apply da_map_over; assumption|].
  exists u, v, slat, slon, f.
  repeat (split; [assumption|]).
  split; [|split; [exact Flat|split; [exact Flon|split; [exact Fwf|]]]].
  - unfold calculate_horizontal_shear.
    rewrite Eu_wind, Ev_wind. simpl. rewrite Eulat. simpl. rewrite Eulon. simpl.
    rewrite Evlat. simpl. rewrite Evlon. simpl. rewrite Etot. simpl.
    rewrite Ef. simpl. f_equal. apply squeeze_grid; rewrite ?Flat, ?Flon; lia.
  - intros i j Hi Hj.
    destruct (axis_spacing_fits _ Hnlat) as (slat2 & Hs2 & Hfitlat).
    destruct (axis_spacing_fits _ Hnlon) as (slon2 & Hs3 & Hfitlon).
    assert (slat2 = slat) as -> by congruence.
    assert (slon2 = slon) as -> by congruence.
    destruct Hurect as [Hulen Hurows].
    destruct (lookup_lt_is_Some_2 u i) as [row Hrow]; [lia|].
    assert (Hrowlen : length row = length (ds_longitude data)).
    { rewrite Forall_forall in Hurows. apply Hurows.
      eapply list_elem_of_lookup_2, Hrow. }
    destruct (lookup_lt_is_Some_2 (gradient_floats slon row) j) as [ux Hux].
    { unfold gradient_floats. rewrite length_gradient; rewrite Hrowlen; assumption. }
    pose proof (column_rel _ _ v j Hvrect Hj) as Hcol.
    apply Forall2_length in Hcol. destruct Hvrect as [Hvlen Hvrows].
    destruct (lookup_lt_is_Some_2 (gradient_floats slat (column v j)) i) as [vy Hvy].
    { unfold gradient_floats.
      rewrite length_gradient; rewrite <- Hcol, Hvlen; assumption. }
    exists row, ux, vy. repeat (split; [assumption|]).
    rewrite Fat. simpl. rewrite at_cube_grid_map, Xtot, at_cube_zip3. simpl.
    rewrite !at_cube_grid_map, Xulon, Xvlat.
    unfold at_cube. rewrite !list_lookup_fmap, Hu0, Hv0. simpl.
    rewrite (at_point_gradient_rows slat _ _ v i j (conj Hvlen Hvrows) Hj), Hvy.
    unfold at_point. rewrite list_lookup_fmap, Hrow. simpl. rewrite Hux.
    reflexivity.
Qed.

(** C5, the claim fails: on a grid of one latitude there is no latitude
    step to differentiate over, and the function raises. *)
Lemma calculate_horizontal_shear_single_row :
  valid_observation single_row /\
  exists e, calculate_horizontal_shear single_row = Raise e.
Proof.
  split; [apply constant_observation_valid|].
  exists IndexError. reflexivity.
Qed.

(** C5, as the code has it: on every valid observation with at least two
    points on each axis the horizontal shear is a full grid holding
    sqrt((du/dlon)^2 + (dv/dlat)^2), where du/dlon differentiates a row of
    [u] and dv/dlat a column of [v], both at level 500, over the spacing of
    the longitudes and of the latitudes; with fewer than two points on an
    axis it raises, as each differentiation does on such an axis; it is
    determined by the two level-500 selections; dropping the two
    cross-gradients changes nothing.  The spacing of an axis is its first
    coordinate step when every step equals it and the list of its steps
    otherwise.  The derivative is the one-sided difference over the first
    and over the last coordinate step at the two ends of an axis; in
    between it is the central difference over twice the step on an evenly
    spaced axis and the three-point formula weighted by the two
    neighbouring steps on an uneven one. *)
Theorem calculate_horizontal_shear_formula (data : Dataset) :
  valid_observation data ->
  ((2 <= length (ds_latitude data))%nat ->
   (2 <= length (ds_longitude data))%nat ->
   exists (u v : grid) (slat slon : spacing) (shear : Field),
     observed_grid data "u" 500 = Some u /\
     observed_grid data "v" 500 = Some v /\
     axis_spacing (ds_latitude data) = Ok slat /\
     axis_spacing (ds_longitude data) = Ok slon /\
     calculate_horizontal_shear data = Ok (Grid shear) /\
     latitude shear = ds_latitude data /\
     longitude shear = ds_longitude data /\
     wf_field shear /\
     forall i j,
       (i < length (ds_latitude data))%nat ->
       (j < length (ds_longitude data))%nat ->
       exists row du_dlon dv_dlat,
         u !! i = Some row /\
         gradient_floats slon row !! j = Some du_dlon /\
         gradient_floats slat (column v j) !! i = Some dv_dlat /\
         at_point (values shear) i j
         = Some (sqrt (pow2 du_dlon + pow2 dv_dlat))) /\
  ((length (ds_latitude data) < 2)%nat \/ (length (ds_longitude data) < 2)%nat ->
   calculate_horizontal_shear data = Raise IndexError) /\
  (forall a : DataArray,
     ((length (da_latitude a) < 2)%nat ->
      differentiate_latitude a = Raise IndexError) /\
     ((length (da_longitude a) < 2)%nat ->
      differentiate_longitude a = Raise IndexError)) /\
  (forall other : Dataset,
     sel_pressure_level other "u" 500 = sel_pressure_level data "u" 500 ->
     sel_pressure_level other "v" 500 = sel_pressure_level data "v" 500 ->
     calculate_horizontal_shear other = calculate_horizontal_shear data) /\
  calculate_horizontal_shear data = horizontalShear data /\
  (forall x : list float,
     (length x < 2)%nat -> axis_spacing x = Raise IndexError) /\
  (forall x0 x1 rest,
     (Forall (fun d => (d =? x1 - x0) = true) (diff (x0 :: x1 :: rest)) ->
      axis_spacing (x0 :: x1 :: rest) = Ok (Uniform (x1 - x0))) /\
     (~ Forall (fun d => (d =? x1 - x0) = true) (diff (x0 :: x1 :: rest)) ->
      axis_spacing (x0 :: x1 :: rest) = Ok (Varying (diff (x0 :: x1 :: rest))))) /\
  (forall x i p q,
     x !! i = Some p -> x !! S i = Some q -> diff x !! i = Some (q - p)) /\
  (forall x0 x1 xs sp f0 f1 fs,
     axis_spacing (x0 :: x1 :: xs) = Ok sp ->
     gradient_floats sp (f0 :: f1 :: fs) !! 0%nat
     = Some ((f1 - f0) / (x1 - x0))) /\
  (forall xs xm xn sp fs fm fn,
     axis_spacing (xs ++ [xm; xn]) = Ok sp ->
     length fs = length xs ->
     gradient_floats sp (fs ++ [fm; fn]) !! S (length fs)
     = Some ((fn - fm) / last_step sp) /\
     (last_step sp = xn - xm \/ (xn - xm =? last_step sp) = true)) /\
  (forall x dx f i a c,
     axis_spacing x = Ok (Uniform dx) ->
     f !! i = Some a -> f !! S (S i) = Some c ->
     gradient_floats (Uniform dx) f !! S i = Some ((c - a) / (2 * dx)) /\
     (exists x0 x1 rest, x = x0 :: x1 :: rest /\ dx = x1 - x0) /\
     (forall k p q, x !! k = Some p -> x !! S k = Some q -> (q - p =? dx) = true)) /\
  (forall x dxs f i p q r a b c,
     axis_spacing x = Ok (Varying dxs) ->
     x !! i = Some p -> x !! S i = Some q -> x !! S (S i) = Some r ->
     f !! i = Some a -> f !! S i = Some b -> f !! S (S i) = Some c ->
     let dx1 := q - p in
     let dx2 := r - q in
     gradient_floats (Varying dxs) f !! S i
     = Some ((- dx2) / (dx1 * (dx1 + dx2)) * a
             + (dx2 - dx1) / (dx1 * dx2) * b
             + dx1 / (dx2 * (dx1 + dx2)) * c)) /\
  (forall sp f0 f1 f,
     gradient_floats sp (f0 :: f1 :: f) !! 0%nat
     = Some ((f1 - f0) / first_step sp)) /\
  (forall sp f a b,
     fits sp (length (f ++ [a; b])) ->
     gradient_floats sp (f ++ [a; b]) !! S (length f)
     = Some ((b - a) / last_step sp)) /\
  (forall dx f i a c,
     f !! i = Some a -> f !! S (S i) = Some c ->
     gradient_floats (Uniform dx) f !! S i = Some ((c - a) / (2 * dx))).
Proof.
  intros Hv.
  split; [intros Hnlat Hnlon; apply calculate_horizontal_shear_values; assumption|].
  split; [apply calculate_horizontal_shear_short, Hv|].
  split; [exact differentiate_short|].
  split; [intros other; apply calculate_horizontal_shear_lower_level|].
  split; [apply calculate_horizontal_shear_no_cross|].
  split; [exact axis_spacing_short|].
  split; [exact axis_spacing_cases|].
  split; [exact diff_lookup|].
  split; [exact gradient_floats_first|].
  split; [exact gradient_floats_last|].
  split; [exact gradient_floats_interior_even|].
  split; [exact gradient_floats_interior_uneven|].
  split; [intros; apply gradient_first|].
  split; [intros sp f a b; apply gradient_last|].
  intros dx f i a c. apply gradient_interior_uniform.
Qed.

(** On the sample with changing wind: the derivative of [u] over the
    uneven longitudes is 1, 2, 4 along each row, the derivative of [v] over
    the even latitudes is -4, -6, -8 down each column. *)
Lemma calculate_horizontal_shear_formula_witness :
  calculate_horizontal_shear Sheared.observation
  = horizontalShear Sheared.observation /\
  axis_spacing (ds_longitude Sheared.observation) = Ok (Varying [1; 2]) /\
  axis_spacing (ds_latitude Sheared.observation) = Ok (Uniform (-0.25)) /\
  gradient_floats (Varying [1; 2]) [0; 1; 9] = [1; 2; 4] /\
  gradient_floats (Uniform (-0.25)) [1; 2; 4] = [-4; -6; -8] /\
  exists shear : Field,
    calculate_horizontal_shear Sheared.observation = Ok (Grid shear) /\
    values shear
    = (fun dv_dlat => (fun du_dlon => sqrt (pow2 du_dlon + pow2 dv_dlat))
                        <$> [1; 2; 4])
        <$> [-4; -6; -8].
Proof.
  destruct (calculate_horizontal_shear_formula Sheared.observation sheared_valid)
    as (Hgrid & _ & _ & _ & Hspec & _).
  destruct Hgrid as (u & v & slat & slon & shear & _ & _ & _ & _ & E & _);
    [simpl; lia|simpl; lia|].
  split; [exact Hspec|].
  split; [reflexivity|]. split; [reflexivity|].
  split; [reflexivity|]. split; [reflexivity|].
  exists shear. split; [exact E|].
  vm_compute in E. injection E as <-. reflexivity.
Defined.

End HorizontalShearFacts.

(** ** Properties of alignment and of the general shear *)

Section AlignFacts.
Import Xarray.

Lemma index_of_labelled (l : list float) (y : float) (p : nat) :
  index_of y l = Some p -> labelled l y p.
Proof.
  revert p. induction l as [|z l IH]; intros p; simpl; [discriminate|].
  destruct (label_eqb y z) eqn:E.
  - intros [= <-]. exists z. split; [reflexivity|exact E].
  - destruct (index_of y l) as [q|]; simpl; [|discriminate].
    intros [= <-]. apply (IH q). reflexivity.
Qed.

Lemma has_label_index_of (l : list float) (y : float) :
  has_label y l = true -> is_Some (index_of y l).
Proof.
  unfold has_label. induction l as [|z l IH]; simpl; [discriminate|].
  destruct (label_eqb y z); simpl; [eauto|].
  intros H. destruct (IH H) as [q ->]. simpl. eauto.
Qed.

Lemma has_label_In (l : list float) (y : float) : In y l -> has_label y l = true.
Proof.
  unfold has_label. intros H. apply existsb_exists.
  exists y. split; [exact H|apply label_eqb_refl].
Qed.

Lemma labels_eqb_Forall2 (l r : list float) :
  labels_eqb l r = true -> Forall2 (fun a b => label_eqb a b = true) l r.
Proof.
  revert r. induction l as [|x l IH]; intros [|y r]; simpl;
    try discriminate; [constructor|].
  intros [H1 H2]%andb_true_iff. constructor; auto.
Qed.

Lemma Forall2_omap_total {A B : Type} (R : A -> B -> Prop) (f : A -> option B)
    (l : list A) :
  (forall x, In x l -> exists y, f x = Some y /\ R x y) ->
  Forall2 R l (omap f l).
Proof.
  induction l as [|x l IH]; intros H; simpl; [constructor|].
  destruct (H x) as (y & Hy & Hxy); [left; reflexivity|].
  rewrite Hy. constructor; [exact Hxy|].
  apply IH. intros x' Hx'. apply H. right. exact Hx'.
Qed.

(** Alignment succeeds on indexes without repeated labels, keeps the
    labels of the left index that occur in the right one, and pairs every
    kept label with a position that carries it on each side. *)
Lemma align_inner_join (l r : list float) :
  has_duplicates l = false -> has_duplicates r = false ->
  exists al,
    align l r = Ok al /\
    joined al = List.filter (fun x => has_label x r) l /\
    Forall2 (labelled l) (joined al) (left_pos al) /\
    Forall2 (labelled r) (joined al) (right_pos al).
Proof.
  intros Hl Hr. unfold align.
  destruct (labels_eqb l r) eqn:E.
  - eexists. split; [reflexivity|]. simpl.
    pose proof (labels_eqb_Forall2 _ _ E) as H2.
    split; [|split].
    + symmetry. apply forallb_filter_id, forallb_forall.
      intros x Hx. apply list_elem_of_In, list_elem_of_lookup in Hx as [i Hi].
      destruct (Forall2_lookup_l _ _ _ _ _ H2 Hi) as (y & Hy & Hxy).
      unfold has_label. apply existsb_exists. exists y. split; [|exact Hxy].
      apply list_elem_of_In. eapply list_elem_of_lookup_2, Hy.
    + apply Forall2_same_length_lookup_2; [rewrite length_seq; reflexivity|].
      intros i y p Hy Hp. apply lookup_seq in Hp as [-> _]. simpl.
      exists y. split; [exact Hy|apply label_eqb_refl].
    + apply Forall2_same_length_lookup_2.
      { rewrite length_seq. apply (Forall2_length _ _ _ H2). }
      intros i y p Hy Hp. apply lookup_seq in Hp as [-> _]. simpl.
      destruct (Forall2_lookup_l _ _ _ _ _ H2 Hy) as (y' & Hy' & Hyy').
      exists y'. split; assumption.
  - rewrite Hl, Hr. simpl. eexists. split; [reflexivity|]. simpl.
    split; [reflexivity|]. split.
    + apply Forall2_omap_total. intros y [Hy _]%filter_In.
      destruct (has_label_index_of l y (has_label_In _ _ Hy)) as [p Hp].
      exists p. split; [exact Hp|apply index_of_labelled, Hp].
    + apply Forall2_omap_total. intros y [_ Hy]%filter_In.
      destruct (has_label_index_of r y Hy) as [p Hp].
      exists p. split; [exact Hp|apply index_of_labelled, Hp].
Qed.

Lemma labelled_lt (l : list float) (y : float) (p : nat) :
  labelled l y p -> (p < length l)%nat.
Proof. intros (y' & Hy' & _). eapply lookup_lt_Some, Hy'. Qed.

Lemma take_at_lookup {A : Type} (pos : list nat) (l : list A) (i : nat) :
  Forall (fun p => (p < length l)%nat) pos ->
  take_at pos l !! i = pos !! i ≫= fun p => l !! p.
Proof.
  unfold take_at. intros H. revert i.
  induction H as [|p pos Hp _ IH]; intros i; simpl; [reflexivity|].
  destruct (lookup_lt_is_Some_2 l p Hp) as [x Hx]. rewrite Hx.
  destruct i as [|i]; simpl; [symmetry; exact Hx|apply IH].
Qed.

Lemma length_take_at {A : Type} (pos : list nat) (l : list A) :
  Forall (fun p => (p < length l)%nat) pos ->
  length (take_at pos l) = length pos.
Proof.
  unfold take_at. intros H.
  induction H as [|p pos Hp _ IH]; simpl; [reflexivity|].
  destruct (lookup_lt_is_Some_2 l p Hp) as [x Hx]. rewrite Hx. simpl.
  f_equal. exact IH.
Qed.

Lemma rectangular_reindex (n m : nat) (rows cols : list nat) (g : grid) :
  rectangular n m g ->
  Forall (fun p => (p < n)%nat) rows -> Forall (fun p => (p < m)%nat) cols ->
  rectangular (length rows) (length cols) (reindex rows cols g).
Proof.
  intros [Hn Hg] Hrows Hcols. unfold reindex.
  assert (Hg' : Forall (fun row : list float => length row = length cols)
                       (take_at cols <$> g)).
  { apply Forall_fmap. eapply Forall_impl; [exact Hg|].
    intros row Hrow. simpl. apply length_take_at. rewrite Hrow. exact Hcols. }
  split.
  - apply length_take_at. rewrite length_fmap, Hn. exact Hrows.
  - apply Forall_forall. intros row Hrow.
    apply list_elem_of_lookup in Hrow as [i Hi].
    rewrite take_at_lookup in Hi by (rewrite length_fmap, Hn; exact Hrows).
    destruct (rows !! i) as [p|]; simpl in Hi; [|discriminate].
    rewrite Forall_forall in Hg'. apply Hg'.
    eapply list_elem_of_lookup_2, Hi.
Qed.

Lemma at_point_reindex (n m : nat) (rows cols : list nat) (g : grid) (i j : nat) :
  rectangular n m g ->
  Forall (fun p => (p < n)%nat) rows -> Forall (fun p => (p < m)%nat) cols ->
  at_point (reindex rows cols g) i j
  = (r ← rows !! i; c ← cols !! j; at_point g r c).
Proof.
  intros [Hn Hg] Hrows Hcols. unfold at_point, reindex.
  rewrite take_at_lookup by (rewrite length_fmap, Hn; exact Hrows).
  destruct (rows !! i) as [r|]; simpl; [|reflexivity].
  rewrite list_lookup_fmap.
  destruct (g !! r) as [row|] eqn:Er; simpl.
  - rewrite take_at_lookup; [reflexivity|].
    rewrite Forall_forall in Hg. rewrite (Hg row); [exact Hcols|].
    eapply list_elem_of_lookup_2, Er.
  - destruct (cols !! j); reflexivity.
Qed.

End AlignFacts.

Section GeneralShearFacts.
Import Xarray Shear Samples.

(** On identical coordinates the general shear is sqrt(h^2 + v^2) at every
    grid point. *)
Lemma calculate_general_wind_shear_same (vertical horizontal : Field) :
  wf_field vertical -> wf_field horizontal ->
  latitude vertical = latitude horizontal ->
  longitude vertical = longitude horizontal ->
  exists g : Field,
    calculate_general_wind_shear vertical horizontal = Ok g /\
    latitude g = latitude horizontal /\
    longitude g = longitude horizontal /\
    forall i j,
      at_point (values g) i j
      = (h ← at_point (values horizontal) i j;
         v ← at_point (values vertical) i j;
         Some (sqrt (pow2 h + pow2 v))).
Proof.
  unfold wf_field. intros Hv Hh Elat Elon. rewrite Elat, Elon in Hv.
  eexists. split; [|split; [|split]].
  - unfold calculate_general_wind_shear, field_binop. simpl.
    rewrite Elat, Elon, !align_same. simpl.
    rewrite !reindex_seq by (apply rectangular_fmap; assumption).
    reflexivity.
  - reflexivity.
  - reflexivity.
  - intros i j. simpl. unfold grid_map.
    rewrite at_point_fmap, at_point_zip_with, !at_point_fmap.
    destruct (at_point (values horizontal) i j) as [h|]; simpl; [|reflexivity].
    destruct (at_point (values vertical) i j) as [v|]; reflexivity.
Qed.

Lemma calculate_general_wind_shear_joined (vertical horizontal : Field) :
  wf_field vertical -> wf_field horizontal ->
  has_duplicates (latitude vertical) = false ->
  has_duplicates (longitude vertical) = false ->
  has_duplicates (latitude horizontal) = false ->
  has_duplicates (longitude horizontal) = false ->
  exists g : Field,
    calculate_general_wind_shear vertical horizontal = Ok g /\
    latitude g = List.filter (fun y => has_label y (latitude vertical))
                             (latitude horizontal) /\
    longitude g = List.filter (fun x => has_label x (longitude vertical))
                              (longitude horizontal) /\
    wf_field g /\
    forall i j y x,
      latitude g !! i = Some y -> longitude g !! j = Some x ->
      exists ih jh iv jv h v,
        labelled (latitude horizontal) y ih /\
        labelled (longitude horizontal) x jh /\
        labelled (latitude vertical) y iv /\
        labelled (longitude vertical) x jv /\
        at_point (values horizontal) ih jh = Some h /\
        at_point (values vertical) iv jv = Some v /\
        at_point (values g) i j = Some (sqrt (pow2 h + pow2 v)).
Proof.
  unfold wf_field. intros Hv Hh Dvlat Dvlon Dhlat Dhlon.
  destruct (align_inner_join (latitude horizontal) (latitude vertical) Dhlat Dvlat)
    as (la & Ela & Jla & Lla & Rla).
  destruct (align_inner_join (longitude horizontal) (longitude vertical) Dhlon Dvlon)
    as (lo & Elo & Jlo & Llo & Rlo).
  assert (Hrows_l : Forall (fun p => (p < length (latitude horizontal))%nat) (left_pos la)).
  { eapply Forall2_Forall_r; [exact Lla|]. apply Forall_forall.
    intros y _ p Hp. eapply labelled_lt, Hp. }
  assert (Hrows_r : Forall (fun p => (p < length (latitude vertical))%nat) (right_pos la)).
  { eapply Forall2_Forall_r; [exact Rla|]. apply Forall_forall.
    intros y _ p Hp. eapply labelled_lt, Hp. }
  assert (Hcols_l : Forall (fun p => (p < length (longitude horizontal))%nat) (left_pos lo)).
  { eapply Forall2_Forall_r; [exact Llo|]. apply Forall_forall.
    intros y _ p Hp. eapply labelled_lt, Hp. }
  assert (Hcols_r : Forall (fun p => (p < length (longitude vertical))%nat) (right_pos lo)).
  { eapply Forall2_Forall_r; [exact Rlo|]. apply Forall_forall.
    intros y _ p Hp. eapply labelled_lt, Hp. }
  pose proof (rectangular_fmap pow2 _ _ _ Hh) as Hh2.
  pose proof (rectangular_fmap pow2 _ _ _ Hv) as Hv2.
  pose proof (rectangular_reindex _ _ _ _ _ Hh2 Hrows_l Hcols_l) as Wl.
  pose proof (rectangular_reindex _ _ _ _ _ Hv2 Hrows_r Hcols_r) as Wr.
  rewrite <- (Forall2_length _ _ _ Lla), <- (Forall2_length _ _ _ Llo) in Wl.
  rewrite <- (Forall2_length _ _ _ Rla), <- (Forall2_length _ _ _ Rlo) in Wr.
  eexists. split; [|split; [|split; [|split]]].
  - unfold calculate_general_wind_shear, field_binop. simpl.
    rewrite Ela. simpl. rewrite Elo. reflexivity.
  - exact Jla.
  - exact Jlo.
  - simpl. apply rectangular_fmap, rectangular_zip_with; assumption.
  - simpl. intros i j y x Hy Hx.
    destruct (Forall2_lookup_l _ _ _ _ _ Lla Hy) as (ih & Hih & Lih).
    destruct (Forall2_lookup_l _ _ _ _ _ Rla Hy) as (iv & Hiv & Liv).
    destruct (Forall2_lookup_l _ _ _ _ _ Llo Hx) as (jh & Hjh & Ljh).
    destruct (Forall2_lookup_l _ _ _ _ _ Rlo Hx) as (jv & Hjv & Ljv).
    destruct (rectangular_at_point _ _ (values horizontal) ih jh Hh) as [h Hhv];
      [eapply labelled_lt; eassumption..|].
    destruct (rectangular_at_point _ _ (values vertical) iv jv Hv) as [v Hvv];
      [eapply labelled_lt; eassumption..|].
    exists ih, jh, iv, jv, h, v. repeat (split; [assumption|]).
    unfold grid_map.
    rewrite at_point_fmap, at_point_zip_with.
    rewrite (at_point_reindex _ _ _ _ _ i j Hh2 Hrows_l Hcols_l).
    rewrite (at_point_reindex _ _ _ _ _ i j Hv2 Hrows_r Hcols_r).
    rewrite Hih, Hjh, Hiv, Hjv. simpl.
    rewrite !at_point_fmap, Hhv, Hvv. reflexivity.
Qed.

(** C3, the claim fails: the two fields share one latitude out of two;
    the function returns the field on the shared latitude and raises
    nothing. *)
Lemma calculate_general_wind_shear_no_mismatch :
  latitude vertical_sample <> latitude horizontal_sample /\
  calculate_general_wind_shear vertical_sample horizontal_sample
  = Ok {| latitude := [49.75]; longitude := [10.0; 10.25];
          values := [[5; 5]] |}.
Proof.
  split; [|reflexivity].
  intros H.
  apply (f_equal (fun l => match l with y :: _ => y =? 50 | [] => false end)) in H.
  discriminate H.
Qed.

(** C3, as the code has it: there is no coordinate check and no
    ShapeMismatch.  Two well-formed fields whose coordinates have no
    repeated labels are combined on the labels they share: the result keeps
    the latitudes and longitudes of the horizontal field that also occur in
    the vertical one, and holds sqrt(h^2 + v^2) of the two values found
    under each kept pair of labels.  On identical coordinates that is every
    grid point. *)
Theorem calculate_general_wind_shear_aligns (vertical horizontal : Field) :
  wf_field vertical -> wf_field horizontal ->
  has_duplicates (latitude vertical) = false ->
  has_duplicates (longitude vertical) = false ->
  has_duplicates (latitude horizontal) = false ->
  has_duplicates (longitude horizontal) = false ->
  (exists g : Field,
     calculate_general_wind_shear vertical horizontal = Ok g /\
     latitude g = List.filter (fun y => has_label y (latitude vertical))
                              (latitude horizontal) /\
     longitude g = List.filter (fun x => has_label x (longitude vertical))
                               (longitude horizontal) /\
     wf_field g /\
     forall i j y x,
       latitude g !! i = Some y -> longitude g !! j = Some x ->
       exists ih jh iv jv h v,
         labelled (latitude horizontal) y ih /\
         labelled (longitude horizontal) x jh /\
         labelled (latitude vertical) y iv /\
         labelled (longitude vertical) x jv /\
         at_point (values horizontal) ih jh = Some h /\
         at_point (values vertical) iv jv = Some v /\
         at_point (values g) i j = Some (sqrt (pow2 h + pow2 v))) /\
  (latitude vertical = latitude horizontal ->
   longitude vertical = longitude horizontal ->
   exists g : Field,
     calculate_general_wind_shear vertical horizontal = Ok g /\
     latitude g = latitude horizontal /\
     longitude g = longitude horizontal /\
     forall i j,
       at_point (values g) i j
       = (h ← at_point (values horizontal) i j;
          v ← at_point (values vertical) i j;
          Some (sqrt (pow2 h + pow2 v)))).
Proof.
  intros Hv Hh Dvlat Dvlon Dhlat Dhlon. split.
  - apply calculate_general_wind_shear_joined; assumption.
  - intros Elat Elon. apply calculate_general_wind_shear_same; assumption.
Qed.

Lemma calculate_general_wind_shear_aligns_witness :
  exists g : Field,
    calculate_general_wind_shear vertical_sample horizontal_sample = Ok g /\
    latitude g = [49.75] /\ values g = [[5; 5]].
Proof.
  destruct (calculate_general_wind_shear_aligns vertical_sample horizontal_sample)
    as [(g & E & _) _].
  - split; [reflexivity|repeat constructor].
  - split; [reflexivity|repeat constructor].
  - reflexivity.
  - reflexivity.
  - reflexivity.
  - reflexivity.
  - exists g. split; [exact E|].
    vm_compute in E. injection E as <-. split; reflexivity.
Defined.

End GeneralShearFacts.

(** ** Properties of the elementwise classification *)

Section ClassifyFieldFacts.
Import Classifier Xarray Plot Vectorize.

(** C8, the claim fails: a field without grid points is rejected, no
    turbulence field is produced. *)
Lemma classify_field_empty :
  let f := {| latitude := []; longitude := [10.0; 10.25]; values := [] |} in
  wf_field f /\ classify_field f = Raise ValueError.
Proof.
  split; [|reflexivity]. split; [reflexivity|constructor].
Qed.

(** C8, as the code has it: on every field with at least one grid point
    the classification succeeds, keeps both coordinates and the shape, puts
    [classify_turbulence] of the shear value at every grid point, and so
    holds only the codes 0 to 3. *)
Theorem classify_field_levels (f : Field) :
  wf_field f ->
  concat (values f) <> [] ->
  exists t : TurbulenceField,
    classify_field f = Ok t /\
    t_latitude t = latitude f /\
    t_longitude t = longitude f /\
    rectangular (length (latitude f)) (length (longitude f)) (t_values t) /\
    Forall (Forall is_level) (t_values t) /\
    (forall i j, at_point (t_values t) i j
                 = classify_turbulence <$> at_point (values f) i j).
Proof.
  intros Hwf Hne.
  pose proof (rectangular_fmap classify_turbulence _ _ _ Hwf) as Hrect.
  exists {| t_latitude := latitude f; t_longitude := longitude f;
            t_values := (fun row : list float => classify_turbulence <$> row)
                          <$> values f |}.
  split; [|split; [reflexivity|split; [reflexivity|split; [exact Hrect|split]]]].
  - unfold classify_field, vectorize_classify_turbulence.
    destruct (concat (values f)) eqn:E; [congruence|]. simpl.
    unfold DataArray_latitude_longitude.
    rewrite bool_decide_eq_true_2; [reflexivity|exact Hrect].
  - simpl. apply Forall_fmap, Forall_forall. intros row _. simpl.
    apply Forall_fmap, Forall_forall. intros x _. simpl.
    apply classify_turbulence_level.
  - intros i j. simpl. apply at_point_fmap.
Qed.

Lemma classify_field_levels_witness :
  exists t : TurbulenceField,
    classify_field {| latitude := [50.0; 49.75]; longitude := [10.0];
                      values := [[4.999]; [15.0]] |} = Ok t /\
    t_values t = [[0%Z]; [3%Z]].
Proof.
  destruct (classify_field_levels
              {| latitude := [50.0; 49.75]; longitude := [10.0];
                 values := [[4.999]; [15.0]] |}) as (t & Ht & _).
  - split; [reflexivity|]. repeat constructor.
  - discriminate.
  - exists t. split; [exact Ht|].
    vm_compute in Ht. injection Ht as <-. reflexivity.
Defined.

End ClassifyFieldFacts.

(** ** Properties of the renderer and of the pipelines *)

Section TraceFacts.
Import Region Xarray Shear Plot Vectorize Bot.
Context {B : Type}.
Variable proj : event -> option B.
Variable b : B.

Lemma emits_ret {A : Type} (a : A) : emits proj b 0 (mret a).
Proof. exists 0%nat. repeat split; auto. Qed.

Lemma emits_lift {A : Type} (r : result A) : emits proj b 0 (lift r).
Proof. exists 0%nat. repeat split; auto. Qed.

Lemma emits_silent (e : event) : proj e = None -> emits proj b 0 (emit e).
Proof. intros H. exists 0%nat. simpl. rewrite H. repeat split; auto. Qed.

Lemma emits_once (e : event) : proj e = Some b -> emits proj b 1 (emit e).
Proof. intros H. exists 1%nat. simpl. rewrite H. repeat split; auto. Qed.

Lemma emits_bind {A C : Type} (n n' : nat) (m : M A) (k : A -> M C) :
  emits proj b n m -> (forall a, emits proj b n' (k a)) ->
  emits proj b (n + n') (m ≫= k).
Proof.
  intros (i & Hi & Hm & Hok) Hk. unfold mbind, M_bind.
  destruct (outcome m) as [a|e] eqn:E.
  - destruct (Hk a) as (j & Hj & Hka & Hokk).
    exists (i + j)%nat. cbn [trace outcome]. split; [lia|]. split.
    + rewrite omap_app, Hm, Hka, replicate_add. reflexivity.
    + intros Hfin. rewrite Hok, Hokk by auto. reflexivity.
  - exists i. cbn [trace outcome]. split; [lia|].
    split; [exact Hm|discriminate].
Qed.

Lemma emits_bind_eq {A C : Type} (n n' N : nat) (m : M A) (k : A -> M C) :
  emits proj b n m -> (forall a, emits proj b n' (k a)) -> N = (n + n')%nat ->
  emits proj b N (m ≫= k).
Proof. intros Hm Hk ->. apply emits_bind; assumption. Qed.

End TraceFacts.

Section PlotFacts.
Import Region Xarray Shear Plot Vectorize Bot.

Ltac step :=
  lazymatch goal with
  | |- emits _ _ _ (mret _) => apply emits_ret
  | |- emits _ _ _ (lift _) => apply emits_lift
  | |- emits _ _ _ (emit _) =>
      first [apply emits_silent; reflexivity | apply emits_once; reflexivity]
  | |- emits _ _ _ (_ ≫= _) =>
      eapply (emits_bind _ _ _ _ _ _); [|intros ?]
  end.

Lemma plot_wind_shear_extent (data : Squeezed) (title filename : string)
    (north west south east : float) :
  omap extent_of (trace (plot_wind_shear data title filename
                                         [north; west; south; east]))
  = [[west; east; south; north]].
Proof. destruct data; reflexivity. Qed.

Lemma plot_turbulence_level_extent (data : TurbulenceField) (filename : string)
    (north west south east : float) :
  omap extent_of (trace (plot_turbulence_level data filename
                                               [north; west; south; east]))
  = [[west; east; south; north]].
Proof. reflexivity. Qed.

Lemma plot_wind_shear_emits (data : Squeezed) (title filename : string)
    (north west south east : float) :
  emits extent_of [west; east; south; north] 1
        (plot_wind_shear data title filename [north; west; south; east]) /\
  emits area_of [north; west; south; east] 0
        (plot_wind_shear data title filename [north; west; south; east]).
Proof.
  split.
  - exists 1%nat. rewrite plot_wind_shear_extent. repeat split; auto.
  - exists 0%nat. split; [lia|]. split; [destruct data; reflexivity|auto].
Qed.

Lemma plot_turbulence_level_emits (data : TurbulenceField) (filename : string)
    (north west south east : float) :
  emits extent_of [west; east; south; north] 1
        (plot_turbulence_level data filename [north; west; south; east]) /\
  emits area_of [north; west; south; east] 0
        (plot_turbulence_level data filename [north; west; south; east]).
Proof.
  split.
  - exists 1%nat. repeat split; auto.
  - exists 0%nat. repeat split; auto.
Qed.

Lemma download_era5_data_area (cds : request -> result Dataset)
    (d : date) (t : time) (area : box) :
  emits area_of area 1 (download_era5_data cds d t area).
Proof.
  unfold download_era5_data.
  eapply emits_bind_eq; [step|intros ?; step|reflexivity].
Qed.

Lemma download_era5_data_extent (cds : request -> result Dataset)
    (d : date) (t : time) (area extent : box) :
  emits extent_of extent 0 (download_era5_data cds d t area).
Proof.
  unfold download_era5_data.
  eapply emits_bind_eq; [step|intros ?; step|reflexivity].
Qed.

(** Walk through a pipeline, one call at a time. *)
Ltac run :=
  lazymatch goal with
  | |- emits extent_of _ _ (plot_wind_shear _ _ _ _) =>
      apply plot_wind_shear_emits
  | |- emits area_of _ _ (plot_wind_shear _ _ _ _) =>
      apply plot_wind_shear_emits
  | |- emits extent_of _ _ (plot_turbulence_level _ _ _) =>
      apply plot_turbulence_level_emits
  | |- emits area_of _ _ (plot_turbulence_level _ _ _) =>
      apply plot_turbulence_level_emits
  | |- emits extent_of _ _ (download_era5_data _ _ _ _) =>
      apply download_era5_data_extent
  | |- emits area_of _ _ (download_era5_data _ _ _ _) =>
      apply download_era5_data_area
  | |- emits _ _ _ (_ ≫= _) =>
      eapply emits_bind_eq; [run|intros ?; run|]
  | |- _ => step
  end.

Lemma get_windshear_data_emits (cds : request -> result Dataset)
    (d : date) (t : time) (continent : string) (north west south east : float) :
  get_boundaries continent = [north; west; south; east] ->
  emits area_of [north; west; south; east] 1
        (get_windshear_data cds d t continent) /\
  emits extent_of [west; east; south; north] 3
        (get_windshear_data cds d t continent).
Proof.
  intros Hbox. unfold get_windshear_data. cbv zeta. rewrite Hbox.
  split; run; reflexivity.
Qed.

Lemma get_turbulence_data_emits (cds : request -> result Dataset)
    (d : date) (t : time) (continent : string) (north west south east : float) :
  get_boundaries continent = [north; west; south; east] ->
  emits area_of [north; west; south; east] 1
        (get_turbulence_data cds d t continent) /\
  emits extent_of [west; east; south; north] 4
        (get_turbulence_data cds d t continent).
Proof.
  intros Hbox. unfold get_turbulence_data. cbv zeta. rewrite Hbox.
  split; run; reflexivity.
Qed.

Lemma main_emits (cds : request -> result Dataset) :
  emits area_of [71.0; -31.0; 36.0; 40.0] 1 (main cds) /\
  emits extent_of [-31.0; 40.0; 36.0; 71.0] 4 (main cds).
Proof.
  unfold main, default_continent. cbv zeta. split; run; reflexivity.
Qed.

Lemma plot_wind_shear_converts (data : Squeezed) (title filename : string)
    (continent extent : box) :
  convert_api_to_plot_format continent = Ok extent ->
  omap extent_of (trace (plot_wind_shear data title filename continent))
  = [extent].
Proof.
  destruct continent as [|n [|w [|s [|e [|? ?]]]]]; try discriminate.
  intros [= <-]. apply plot_wind_shear_extent.
Qed.

Lemma plot_turbulence_level_converts (data : TurbulenceField) (filename : string)
    (continent extent : box) :
  convert_api_to_plot_format continent = Ok extent ->
  omap extent_of (trace (plot_turbulence_level data filename continent))
  = [extent].
Proof.
  destruct continent as [|n [|w [|s [|e [|? ?]]]]]; try discriminate.
  intros [= <-]. reflexivity.
Qed.

(** A complete run on the sample scenario: one request for the box of
    Asia, four maps over its display form. *)
Lemma get_turbulence_data_scenario :
  let run := get_turbulence_data (fun _ => Ok Samples.scenario)
               {| year := 2024; month := 11; day := 15 |}
               {| hour := 10; minute := 30 |} "Asia" in
  outcome run = Ok "turbulence_level.png"%string /\
  omap area_of (trace run) = [[77.71; 25.98; -11.02; 179.69]] /\
  omap extent_of (trace run) = replicate 4 [25.98; 179.69; -11.02; 77.71].
Proof. vm_compute. repeat split; reflexivity. Qed.

End PlotFacts.

(** ** More on the order of binary64 values and on the classifier *)

Section ClassifierOrder.
Import Classifier.

Lemma SFcompare_le_lt_trans (x y z : spec_float) :
  SFcompare x y = Some Lt \/ SFcompare x y = Some Eq ->
  SFcompare y z = Some Lt ->
  SFcompare x z = Some Lt.
Proof.
  destruct x as [sx|sx| |sx mx ex], y as [sy|sy| |sy my ey],
    z as [sz|sz| |sz mz ez]; simpl;
    try destruct sx; try destruct sy; try destruct sz; simpl;
    intros [H1|H1] H2; try discriminate; try reflexivity.
  all: revert H1 H2; change (Pos.compare_cont Eq) with Pos.compare.
  all: destruct (Z.compare_spec ex ey), (Z.compare_spec ey ez),
    (Z.compare_spec ex ez); try discriminate; try reflexivity; try lia.
  all: destruct (Pos.compare_spec mx my), (Pos.compare_spec my mz),
    (Pos.compare_spec mx mz); simpl; try discriminate; try reflexivity; try lia.
Qed.

(** [x <= y] and [y < a] give [x < a]. *)
Lemma leb_ltb_trans (x y a : float) :
  (x <=? y) = true -> (y <? a) = true -> (x <? a) = true.
Proof.
  rewrite !FloatAxioms.ltb_spec, FloatAxioms.leb_spec. unfold SFltb, SFleb.
  intros H1 H2.
  rewrite (SFcompare_le_lt_trans (Prim2SF x) (Prim2SF y) (Prim2SF a)).
  - reflexivity.
  - destruct (SFcompare (Prim2SF x) (Prim2SF y)) as [[]|]; auto; discriminate.
  - destruct (SFcompare (Prim2SF y) (Prim2SF a)) as [[]|]; congruence.
Qed.

(** X1: a larger shear never gets a lower category. *)
Theorem classify_turbulence_monotone (x y : float) :
  (x <=? y) = true ->
  (classify_turbulence x <= classify_turbulence y)%Z.
Proof.
  intros Hxy. unfold classify_turbulence.
  destruct (y <? 5) eqn:Y5.
  { rewrite (leb_ltb_trans x y 5 Hxy Y5). lia. }
  destruct (y <? 10) eqn:Y10.
  { rewrite (leb_ltb_trans x y 10 Hxy Y10). destruct (x <? 5); lia. }
  destruct (y <? 15) eqn:Y15.
  { rewrite (leb_ltb_trans x y 15 Hxy Y15).
    destruct (x <? 5); [lia|]. destruct (x <? 10); lia. }
  destruct (x <? 5); [lia|]. destruct (x <? 10); [lia|].
  destruct (x <? 15); lia.
Qed.

Lemma classify_turbulence_monotone_witness :
  (classify_turbulence 4.5 <= classify_turbulence 12.25)%Z.
Proof.
  apply (classify_turbulence_monotone 4.5 12.25). reflexivity.
Defined.

End ClassifierOrder.

(** ** Values that are not finite, through the shear formulas *)

Section Extremes.
Import Classifier Shear.

Lemma SFdiv_by_zero (x y : spec_float) :
  match y with S754_zero _ => true | _ => false end = true ->
  sf_finite (SFdiv prec emax x y) = false.
Proof.
  destruct y as [sy|sy| |sy my ey]; try discriminate. intros _.
  destruct x as [sx|sx| |sx mx ex]; reflexivity.
Qed.

Lemma SFmul_square_extreme (x : spec_float) :
  sf_finite x = false -> sf_extreme (SFmul prec emax x x) = true.
Proof.
  destruct x as [s|s| |s m e]; try discriminate; intros _;
    [destruct s|]; reflexivity.
Qed.

Lemma SFadd_extreme (x y : spec_float) :
  sf_extreme x = true -> sf_extreme y = true ->
  sf_extreme (SFadd prec emax x y) = true.
Proof.
  destruct x as [?|[]| |? ? ?], y as [?|[]| |? ? ?]; try discriminate; reflexivity.
Qed.

(** A square, which is NaN or has its sign bit clear, plus NaN or
    [+infinity]. *)
Lemma SFadd_square_extreme (x y : spec_float) :
  sf_extreme y = true ->
  sf_extreme (SFadd prec emax (SFmul prec emax x x) y) = true.
Proof.
  intros Hy.
  destruct (sf_number x) eqn:Hx.
  - pose proof (SFmul_square_nonneg prec emax x Hx) as Hsq.
    destruct (SFmul prec emax x x) as [[]|[]| |[] m e], y as [?|[]| |? ? ?];
      try discriminate; reflexivity.
  - destruct x; try discriminate. destruct y; reflexivity.
Qed.

Lemma SFsqrt_extreme (x : spec_float) :
  sf_extreme x = true -> sf_extreme (SFsqrt prec emax x) = true.
Proof. destruct x as [?|[]| |? ? ?]; try discriminate; reflexivity. Qed.

Lemma extreme_not_finite (x : float) :
  sf_extreme (Prim2SF x) = true -> is_finite x = false.
Proof.
  rewrite is_finite_spec. destruct (Prim2SF x) as [?|[]| |? ? ?]; try discriminate; reflexivity.
Qed.

(** NaN and [+infinity] are classified Extreme. *)
Lemma classify_turbulence_extreme (x : float) :
  sf_extreme (Prim2SF x) = true -> classify_turbulence x = 3%Z.
Proof.
  intros Hx. unfold classify_turbulence.
  rewrite !FloatAxioms.ltb_spec.
  destruct (Prim2SF x) as [?|[]| |? ? ?]; try discriminate; reflexivity.
Qed.

(** Where the two heights are equal the vertical shear is NaN or
    [+infinity], whatever the winds. *)
Lemma shear_formula_level_heights (u1 u2 v1 v2 z1 z2 : float) :
  is_zero (z1 - z2) = true ->
  sf_extreme (Prim2SF (shear_formula u1 u2 v1 v2 z1 z2)) = true.
Proof.
  rewrite is_zero_spec. intros Hz.
  unfold shear_formula, radicand, pow2.
  rewrite sqrt_spec, add_spec, !mul_spec, !div_spec.
  apply SFsqrt_extreme, SFadd_extreme; apply SFmul_square_extreme, SFdiv_by_zero, Hz.
Qed.

(** The general shear at a grid point whose vertical shear is NaN or
    [+infinity]. *)
Lemma general_formula_extreme (h v : float) :
  sf_extreme (Prim2SF v) = true ->
  sf_extreme (Prim2SF (sqrt (pow2 h + pow2 v))) = true.
Proof.
  intros Hv. unfold pow2. rewrite sqrt_spec, add_spec, !mul_spec.
  apply SFsqrt_extreme, SFadd_square_extreme, SFmul_square_extreme.
  destruct (Prim2SF v) as [?|[]| |? ? ?]; try discriminate; reflexivity.
Qed.

(** The general shear at a grid point is NaN exactly when one of the two
    shears is, and is not negative otherwise. *)
Lemma general_formula_kind (h v : float) :
  is_nan (sqrt (pow2 h + pow2 v)) = is_nan h || is_nan v /\
  (is_nan (sqrt (pow2 h + pow2 v)) = false -> (0 <=? sqrt (pow2 h + pow2 v)) = true).
Proof.
  assert (Hcase : (is_nan h || is_nan v = true /\
                   Prim2SF (sqrt (pow2 h + pow2 v)) = S754_nan) \/
                  (is_nan h || is_nan v = false /\
                   sf_nonneg (Prim2SF (sqrt (pow2 h + pow2 v))) = true)).
  { unfold pow2. rewrite sqrt_spec, add_spec, !mul_spec, !is_nan_number.
    unfold SF64sqrt, SF64add, SF64mul.
    destruct (sf_number (Prim2SF h)) eqn:Hh; simpl.
    - destruct (sf_number (Prim2SF v)) eqn:Hv; simpl.
      + right. split; [reflexivity|].
        apply SFsqrt_nonneg, SFadd_nonneg; apply SFmul_square_nonneg; assumption.
      + left. split; [reflexivity|].
        destruct (Prim2SF v); try discriminate.
        destruct (SFmul prec emax (Prim2SF h) (Prim2SF h)); reflexivity.
    - left. split; [reflexivity|]. destruct (Prim2SF h); try discriminate. reflexivity. }
  destruct Hcase as [[Hn Hs]|[Hn Hs]]; rewrite Hn.
  - apply is_nan_spec in Hs. rewrite Hs. split; [reflexivity|discriminate].
  - destruct (nonneg_leb _ Hs) as [H1 H2]. rewrite H1. split; [reflexivity|auto].
Qed.

End Extremes.

(** ** Runs of the pipelines, call by call *)

Section RunFacts.
Import Region Xarray Shear Plot Vectorize Bot Observe Runs.

Lemma outcome_bind {A C : Type} (m : M A) (k : A -> M C) :
  outcome (m ≫= k)
  = match outcome m with Ok a => outcome (k a) | Raise e => Raise e end.
Proof. unfold mbind, M_bind. destruct (outcome m); reflexivity. Qed.

Lemma trace_bind {A C : Type} (m : M A) (k : A -> M C) :
  trace (m ≫= k)
  = trace m ++ match outcome m with Ok a => trace (k a) | Raise _ => [] end.
Proof.
  unfold mbind, M_bind. destruct (outcome m); simpl; [reflexivity|].
  symmetry. apply app_nil_r.
Qed.

Lemma outcome_bind_Ok {A C : Type} (m : M A) (k : A -> M C) (c : C) :
  outcome (m ≫= k) = Ok c ->
  exists a, outcome m = Ok a /\ outcome (k a) = Ok c.
Proof.
  rewrite outcome_bind. destruct (outcome m) as [a|e]; [eauto|discriminate].
Qed.

Section Yields.
Context {B : Type}.
Variable proj : event -> option B.

Lemma yields_ret {A : Type} (a : A) : yields proj [] (mret a).
Proof. split; [reflexivity|auto]. Qed.

Lemma yields_lift {A : Type} (r : result A) : yields proj [] (lift r).
Proof. split; [reflexivity|auto]. Qed.

Lemma yields_silent (e : event) : proj e = None -> yields proj [] (emit e).
Proof. intros H. unfold yields. simpl. rewrite H. split; [reflexivity|auto]. Qed.

Lemma yields_once (e : event) (b : B) : proj e = Some b -> yields proj [b] (emit e).
Proof. intros H. unfold yields. simpl. rewrite H. split; [reflexivity|auto]. Qed.

Lemma yields_bind {A C : Type} (l l' : list B) (m : M A) (k : A -> M C) :
  yields proj l m -> (forall a, yields proj l' (k a)) ->
  yields proj (l ++ l') (m ≫= k).
Proof.
  intros [Hpre Hall] Hk. unfold yields.
  rewrite trace_bind, outcome_bind, omap_app.
  destruct (outcome m) as [a|e].
  - destruct (Hk a) as [Hpre' Hall']. rewrite Hall by reflexivity. split.
    + apply prefix_app, Hpre'.
    + intros Hok. rewrite Hall' by exact Hok. reflexivity.
  - simpl. rewrite app_nil_r. split; [|discriminate].
    apply prefix_app_r, Hpre.
Qed.

Lemma yields_bind_eq {A C : Type} (l l' L : list B) (m : M A) (k : A -> M C) :
  yields proj l m -> (forall a, yields proj l' (k a)) -> L = l ++ l' ->
  yields proj L (m ≫= k).
Proof. intros Hm Hk ->. apply yields_bind; assumption. Qed.

End Yields.

Lemma extends_refl {A : Type} (m : M A) : extends m m.
Proof. split; [reflexivity|auto]. Qed.

Lemma extends_ret {A B : Type} (a : A) (m : M B) : extends (mret a) m.
Proof. split; [apply prefix_nil|discriminate]. Qed.

Lemma extends_bind {A C C' : Type} (m : M A) (k : A -> M C) (k' : A -> M C') :
  (forall a, extends (k a) (k' a)) -> extends (m ≫= k) (m ≫= k').
Proof.
  intros Hk. unfold extends. rewrite !trace_bind, !outcome_bind.
  destruct (outcome m) as [a|e].
  - destruct (Hk a) as [Hpre Hfail]. split.
    + apply prefix_app, Hpre.
    + intros e He. destruct (Hfail e He) as [-> ->]. auto.
  - split; [reflexivity|]. intros e' [= <-]. split; reflexivity.
Qed.

End RunFacts.

(** ** Files written, requests sent and failures of the two pipelines *)

Section PipelineFacts.
Import Region Xarray Shear Plot Vectorize Bot Observe Runs.

Ltac pace :=
  lazymatch goal with
  | |- yields _ _ (mret _) => apply yields_ret
  | |- yields _ _ (lift _) => apply yields_lift
  | |- yields _ _ (emit _) =>
      first [apply yields_silent; reflexivity | apply yields_once; reflexivity]
  | |- yields _ _ (_ ≫= _) =>
      eapply yields_bind_eq; [pace|intros ?; pace|]
  end.







Lemma get_windshear_data_returns (cds : request -> result Dataset)
    (d : date) (t : time) (continent name : string) :
  outcome (get_windshear_data cds d t continent) = Ok name ->
  name = "general_wind_shear.png"%string.
Proof.
  unfold get_windshear_data. cbv zeta. intros H.
  repeat (apply outcome_bind_Ok in H as (? & _ & H)).
  injection H as <-. reflexivity.
Qed.

Lemma get_turbulence_data_returns (cds : request -> result Dataset)
    (d : date) (t : time) (continent name : string) :
  outcome (get_turbulence_data cds d t continent) = Ok name ->
  name = "turbulence_level.png"%string.
Proof.
  unfold get_turbulence_data. cbv zeta. intros H.
  repeat (apply outcome_bind_Ok in H as (? & _ & H)).
  injection H as <-. reflexivity.
Qed.


Lemma get_turbulence_data_extends (cds : request -> result Dataset)
    (d : date) (t : time) (continent : string) :
  extends (get_windshear_data cds d t continent)
          (get_turbulence_data cds d t continent).
Proof.
  unfold get_windshear_data, get_turbulence_data.
  cbv zeta. repeat (apply extends_bind; intros ?). apply extends_ret.
Qed.

(** X3: a turbulence run starts as the wind-shear run with the same
    arguments does: it makes the same calls in the same order, fails where
    that one fails, and only goes on where that one returns. *)
Theorem get_turbulence_data_extends_windshear (cds : request -> result Dataset)
    (d : date) (t : time) (continent : string) :
  let windshear := get_windshear_data cds d t continent in
  let turbulence := get_turbulence_data cds d t continent in
  trace windshear `prefix_of` trace turbulence /\
  (forall e, outcome windshear = Raise e ->
     outcome turbulence = Raise e /\ trace turbulence = trace windshear) /\
  (is_ok (outcome turbulence) = true -> is_ok (outcome windshear) = true).
Proof.
  intros windshear turbulence.
  destruct (get_turbulence_data_extends cds d t continent) as [Hpre Hfail].
  fold windshear in Hpre, Hfail. fold turbulence in Hpre, Hfail. split; [exact Hpre|]. split; [exact Hfail|].
  destruct (outcome windshear) as [?|e] eqn:E; [reflexivity|].
  destruct (Hfail e eq_refl) as [-> _]. discriminate.
Qed.

(** X4: only the hour of the time asked for reaches the data service. *)
Theorem pipelines_ignore_minutes (cds : request -> result Dataset)
    (d : date) (t t' : time) (continent : string) :
  hour t = hour t' ->
  get_windshear_data cds d t continent = get_windshear_data cds d t' continent /\
  get_turbulence_data cds d t continent = get_turbulence_data cds d t' continent /\
  (forall r, Retrieve r ∈ trace (get_turbulence_data cds d t continent) ->
     req_time r = {| hour := hour t; minute := 0 |}).
Proof.
  intros Hh.
  assert (Hd : forall area, download_era5_data cds d t area
                            = download_era5_data cds d t' area).
  { intros area. unfold download_era5_data. rewrite Hh. reflexivity. }
  split; [|split].
  - unfold get_windshear_data. rewrite Hd. reflexivity.
  - unfold get_turbulence_data. rewrite Hd. reflexivity.
  - intros r Hr.
    assert (Hy : yields request_of
                   [{| req_product_type := ["reanalysis"]%string;
                       req_variable := ["u_component_of_wind"; "v_component_of_wind";
                                        "geopotential"]%string;
                       req_date := d;
                       req_time := {| hour := hour t; minute := 0 |};
                       req_pressure_level := [500; 300]%Z;
                       req_format := "nc";
                       req_area := get_boundaries continent |}]
                   (get_turbulence_data cds d t continent)).
    { unfold get_turbulence_data, plot_wind_shear, plot_turbulence_level,
        download_era5_data. cbv zeta. pace; reflexivity. }
    destruct Hy as [Hpre _].
    assert (Hin : r ∈ omap request_of (trace (get_turbulence_data cds d t continent))).
    { apply list_elem_of_omap. exists (Retrieve r). split; [exact Hr|reflexivity]. }
    destruct Hpre as [rest Hrest].
    assert (Hin' : r ∈ omap request_of (trace (get_turbulence_data cds d t continent)) ++ rest)
      by (apply elem_of_app; left; exact Hin).
    rewrite <- Hrest in Hin'. apply list_elem_of_singleton in Hin'. rewrite Hin'.
    reflexivity.
Qed.

Lemma pipelines_ignore_minutes_witness :
  get_turbulence_data (fun _ => Ok Samples.scenario)
    {| year := 2024; month := 11; day := 15 |} {| hour := 10; minute := 59 |} "Asia"
  = get_turbulence_data (fun _ => Ok Samples.scenario)
    {| year := 2024; month := 11; day := 15 |} {| hour := 10; minute := 0 |} "Asia".
Proof.
  apply (pipelines_ignore_minutes (fun _ => Ok Samples.scenario)
           {| year := 2024; month := 11; day := 15 |}
           {| hour := 10; minute := 59 |} {| hour := 10; minute := 0 |} "Asia").
  reflexivity.
Defined.

End PipelineFacts.

(** ** Missing variables and levels *)

Section MissingData.
Import Xarray Shear.

Lemma level_index_None (data : Dataset) (level : Z) :
  level_index data level = None <-> level ∉ ds_pressure_level data.
Proof.
  unfold level_index. rewrite fmap_None, list_find_None, Forall_forall.
  split.
  - intros H Hin. exact (H level Hin eq_refl).
  - intros H l Hl ->. exact (H Hl).
Qed.

(** A selection either succeeds, on a variable and a level that are both
    there, or is a [KeyError]. *)
Lemma sel_pressure_level_cases (data : Dataset) (name : string) (level : Z) :
  (sel_pressure_level data name level = Raise KeyError /\
   (ds_vars data !! name = None \/ level ∉ ds_pressure_level data)) \/
  (exists a, sel_pressure_level data name level = Ok a /\
             is_Some (ds_vars data !! name) /\ level ∈ ds_pressure_level data).
Proof.
  unfold sel_pressure_level.
  destruct (ds_vars data !! name) as [var|] eqn:Ev; simpl; [|left; auto].
  destruct (level_index data level) as [k|] eqn:Ek; simpl.
  - right. eexists. split; [reflexivity|]. split; [eauto|].
    destruct (decide (level ∈ ds_pressure_level data)) as [|Hn]; [assumption|].
    apply level_index_None in Hn. congruence.
  - left. split; [reflexivity|]. right. apply level_index_None, Ek.
Qed.

Lemma align_not_KeyError (l r : list float) : align l r <> Raise KeyError.
Proof.
  unfold align. destruct (labels_eqb l r); [discriminate|].
  destruct (has_duplicates l || has_duplicates r); discriminate.
Qed.

Lemma da_binop_not_KeyError (op : float -> float -> float) (a b : DataArray) :
  da_binop op a b <> Raise KeyError.
Proof.
  unfold da_binop.
  pose proof (align_not_KeyError (da_valid_time a) (da_valid_time b)).
  destruct (align (da_valid_time a) (da_valid_time b)) as [?|[]]; simpl;
    try discriminate; try congruence.
  pose proof (align_not_KeyError (da_latitude a) (da_latitude b)).
  destruct (align (da_latitude a) (da_latitude b)) as [?|[]]; simpl;
    try discriminate; try congruence.
  pose proof (align_not_KeyError (da_longitude a) (da_longitude b)).
  destruct (align (da_longitude a) (da_longitude b)) as [?|[]]; simpl;
    try discriminate; congruence.
Qed.

Lemma isel_valid_time_0_not_KeyError (a : DataArray) :
  isel_valid_time_0 a <> Raise KeyError.
Proof. unfold isel_valid_time_0. destruct (da_values a); discriminate. Qed.

Lemma axis_spacing_not_KeyError (x : list float) : axis_spacing x <> Raise KeyError.
Proof. unfold axis_spacing. destruct (diff x); discriminate. Qed.

Ltac pick name level :=
  let a := fresh "a" in let E := fresh "E" in
  let Hvar := fresh "Hvar" in let Hlev := fresh "Hlev" in
  match goal with
  | data : Dataset |- _ =>
      destruct (sel_pressure_level_cases data name level)
        as [[E ?]|(a & E & Hvar & Hlev)];
      rewrite E; simpl
  end.

Ltac next_binop :=
  match goal with
  | |- context [da_binop ?op ?a ?b] =>
      let H := fresh "H" in
      pose proof (da_binop_not_KeyError op a b) as H;
      destruct (da_binop op a b) as [?|[]]; simpl;
      try discriminate; try congruence; clear H
  end.

(** X5: the vertical shear raises [KeyError] exactly when one of [u], [v],
    [z] or one of the levels 300 and 500 is missing from the dataset; the
    horizontal shear exactly when [u], [v] or the level 500 is missing: it
    needs neither [z] nor the level 300. *)
Theorem shear_KeyError_iff_missing (data : Dataset) :
  (calculate_wind_shear data = Raise KeyError <->
   ds_vars data !! "u" = None \/ ds_vars data !! "v" = None \/
   ds_vars data !! "z" = None \/
   300%Z ∉ ds_pressure_level data \/ 500%Z ∉ ds_pressure_level data) /\
  (calculate_horizontal_shear data = Raise KeyError <->
   ds_vars data !! "u" = None \/ ds_vars data !! "v" = None \/
   500%Z ∉ ds_pressure_level data).
Proof.
  split; split.
  - unfold calculate_wind_shear.
    pick "u"%string 300%Z; [tauto|].
    pick "v"%string 300%Z; [tauto|].
    pick "z"%string 300%Z; [tauto|].
    pick "u"%string 500%Z; [tauto|].
    pick "v"%string 500%Z; [tauto|].
    pick "z"%string 500%Z; [tauto|].
    repeat next_binop.
    match goal with
    | |- context [isel_valid_time_0 ?a] =>
        pose proof (isel_valid_time_0_not_KeyError a);
        destruct (isel_valid_time_0 a) as [?|[]]; simpl;
        try discriminate; congruence
    end.
  - intros H. unfold calculate_wind_shear.
    destruct (sel_pressure_level_cases data "u" 300) as [[E _]|(a1 & E & [? V1] & L1)];
      rewrite E; simpl; [reflexivity|].
    destruct (sel_pressure_level_cases data "v" 300) as [[E2 _]|(a2 & E2 & [? V2] & L2)];
      rewrite E2; simpl; [reflexivity|].
    destruct (sel_pressure_level_cases data "z" 300) as [[E3 _]|(a3 & E3 & [? V3] & L3)];
      rewrite E3; simpl; [reflexivity|].
    destruct (sel_pressure_level_cases data "u" 500) as [[E4 _]|(a4 & E4 & [? V4] & L4)];
      rewrite E4; simpl; [reflexivity|].
    exfalso. destruct H as [H|[H|[H|[H|H]]]]; try congruence; contradiction.
  - unfold calculate_horizontal_shear.
    pick "u"%string 500%Z; [tauto|].
    pick "v"%string 500%Z; [tauto|].
    unfold differentiate_latitude, differentiate_longitude.
    repeat match goal with
    | |- context [axis_spacing ?x] =>
        pose proof (axis_spacing_not_KeyError x);
        destruct (axis_spacing x) as [?|[]]; simpl;
        try discriminate; try congruence
    end.
    repeat next_binop.
    match goal with
    | |- context [isel_valid_time_0 ?a] =>
        pose proof (isel_valid_time_0_not_KeyError a);
        destruct (isel_valid_time_0 a) as [?|[]]; simpl;
        try discriminate; congruence
    end.
  - intros H. unfold calculate_horizontal_shear.
    destruct (sel_pressure_level_cases data "u" 500) as [[E _]|(a1 & E & [? V1] & L1)];
      rewrite E; simpl; [reflexivity|].
    destruct (sel_pressure_level_cases data "v" 500) as [[E2 _]|(a2 & E2 & [? V2] & L2)];
      rewrite E2; simpl; [reflexivity|].
    exfalso. destruct H as [H|[H|H]]; try congruence; contradiction.
Qed.

End MissingData.

(** ** Complete runs *)

Section ServiceFailure.
Import Classifier Region Xarray Shear Plot Vectorize Bot Observe Runs.

Lemma download_era5_data_run (cds : request -> result Dataset)
    (d : date) (t : time) (area : box) (r : request) :
  omap request_of (trace (download_era5_data cds d t area)) = [r] ->
  trace (download_era5_data cds d t area) = [Retrieve r] /\
  outcome (download_era5_data cds d t area) = cds r.
Proof.
  unfold download_era5_data. cbv zeta. rewrite trace_bind, outcome_bind. simpl.
  intros [= <-]. split; reflexivity.
Qed.

(** X6: when the data service fails, the one request is all a pipeline
    has done, and the exception of the service is what it raises. *)
Theorem pipelines_stop_at_service_failure (cds : request -> result Dataset)
    (d : date) (t : time) (continent : string) (r : request) (e : exn) :
  omap request_of (trace (download_era5_data cds d t (get_boundaries continent)))
  = [r] ->
  cds r = Raise e ->
  trace (get_windshear_data cds d t continent) = [Retrieve r] /\
  outcome (get_windshear_data cds d t continent) = Raise e /\
  trace (get_turbulence_data cds d t continent) = [Retrieve r] /\
  outcome (get_turbulence_data cds d t continent) = Raise e.
Proof.
  intros Hr He.
  destruct (download_era5_data_run cds d t _ r Hr) as [Ht Ho]. rewrite He in Ho.
  assert (Hw : trace (get_windshear_data cds d t continent) = [Retrieve r] /\
               outcome (get_windshear_data cds d t continent) = Raise e).
  { unfold get_windshear_data. cbv zeta. rewrite trace_bind, outcome_bind, Ho, Ht.
    split; reflexivity. }
  destruct Hw as [Hwt Hwo]. split; [exact Hwt|]. split; [exact Hwo|].
  destruct (get_turbulence_data_extends cds d t continent) as [_ Hfail].
  destruct (Hfail e Hwo) as [Hto Htt]. rewrite Htt, Hwt. split; [reflexivity|exact Hto].
Qed.

Lemma pipelines_stop_at_service_failure_witness :
  outcome (get_turbulence_data (fun _ => Raise KeyError)
             {| year := 2024; month := 11; day := 15 |}
             {| hour := 10; minute := 0 |} "Asia") = Raise KeyError.
Proof.
  eapply (pipelines_stop_at_service_failure (fun _ => Raise KeyError)); reflexivity.
Defined.

End ServiceFailure.

Section ShortGrids.
Import Classifier Region Xarray Shear Plot Vectorize Bot Observe Runs.


Lemma get_boundaries_box (name : string) :
  exists north west south east, get_boundaries name = [north; west; south; east].
Proof.
  pose proof (get_boundaries_length name) as Hlen.
  destruct (get_boundaries name) as [|n [|w [|s [|e [|? ?]]]]]; try discriminate Hlen.
  eauto.
Qed.



End ShortGrids.

Section WholeRuns.
Import Classifier Region Xarray Shear Plot Vectorize Bot Observe Runs.

Lemma classify_field_values (f : Field) :
  wf_field f -> concat (values f) <> [] ->
  exists t : TurbulenceField,
    classify_field f = Ok t /\
    t_latitude t = latitude f /\
    t_longitude t = longitude f /\
    (forall i j, at_point (t_values t) i j
                 = classify_turbulence <$> at_point (values f) i j).
Proof.
  intros Hwf Hne.
  pose proof (rectangular_fmap classify_turbulence _ _ _ Hwf) as Hrect.
  eexists. split; [|split; [|split]].
  - unfold classify_field, vectorize_classify_turbulence.
    destruct (concat (values f)) eqn:E; [congruence|]. simpl.
    unfold DataArray_latitude_longitude.
    rewrite bool_decide_eq_true_2; [reflexivity|exact Hrect].
  - reflexivity.
  - reflexivity.
  - intros i j. simpl. apply at_point_fmap.
Qed.

Lemma rectangular_nonempty {A : Type} (n m : nat) (g : list (list A)) :
  rectangular n m g -> (0 < n)%nat -> (0 < m)%nat -> concat g <> [].
Proof.
  intros [Hlen Hrows] Hn Hm.
  destruct g as [|row g]; simpl in *; [lia|].
  apply Forall_cons in Hrows as [Hrow _].
  destruct row; simpl in *; [lia|discriminate].
Qed.

Lemma calculate_general_wind_shear_wf (vertical horizontal general : Field) :
  wf_field vertical -> wf_field horizontal ->
  latitude vertical = latitude horizontal ->
  longitude vertical = longitude horizontal ->
  calculate_general_wind_shear vertical horizontal = Ok general ->
  wf_field general.
Proof.
  unfold wf_field. intros Hv Hh Elat Elon. rewrite Elat, Elon in Hv.
  unfold calculate_general_wind_shear, field_binop. simpl.
  rewrite Elat, Elon, !align_same. simpl.
  rewrite !reindex_seq by (apply rectangular_fmap; assumption).
  intros [= <-]. simpl.
  apply rectangular_fmap, rectangular_zip_with; apply rectangular_fmap; assumption.
Qed.

(** The four fields of a turbulence run on a valid observation with at
    least two points on each axis. *)
Lemma turbulence_of_observation (data : Dataset) :
  valid_observation data ->
  (2 <= length (ds_latitude data))%nat ->
  (2 <= length (ds_longitude data))%nat ->
  exists (vertical horizontal general : Field) (turbulence : TurbulenceField),
    calculate_wind_shear data = Ok (Grid vertical) /\
    calculate_horizontal_shear data = Ok (Grid horizontal) /\
    calculate_general_wind_shear vertical horizontal = Ok general /\
    classify_field general = Ok turbulence /\
    t_latitude turbulence = ds_latitude data /\
    t_longitude turbulence = ds_longitude data /\
    forall i j,
      (i < length (ds_latitude data))%nat ->
      (j < length (ds_longitude data))%nat ->
      exists u1 u2 v1 v2 z1 z2 h,
        observed data "u" 500 i j = Some u1 /\
        observed data "u" 300 i j = Some u2 /\
        observed data "v" 500 i j = Some v1 /\
        observed data "v" 300 i j = Some v2 /\
        observed data "z" 500 i j = Some z1 /\
        observed data "z" 300 i j = Some z2 /\
        at_point (values vertical) i j = Some (shear_formula u1 u2 v1 v2 z1 z2) /\
        at_point (values horizontal) i j = Some h /\
        at_point (values general) i j
        = Some (sqrt (pow2 h + pow2 (shear_formula u1 u2 v1 v2 z1 z2))) /\
        at_point (t_values turbulence) i j
        = Some (classify_turbulence
                  (sqrt (pow2 h + pow2 (shear_formula u1 u2 v1 v2 z1 z2)))).
Proof.
  intros Hv Hnlat Hnlon.
  destruct (calculate_wind_shear_values data Hv)
    as (vertical & Ev & Vlat & Vlon & Vwf & Vval & Vsq).
  rewrite Vsq in Ev by lia.
  destruct (calculate_horizontal_shear_values data Hv Hnlat Hnlon)
    as (gu & gv & slat & slon & horizontal & _ & _ & _ & _ & Eh & Hlat & Hlon & Hwf & Hval).
  destruct (calculate_general_wind_shear_same vertical horizontal Vwf Hwf)
    as (general & Eg & Glat & Glon & Gval); [congruence..|].
  assert (Gwf : wf_field general).
  { eapply calculate_general_wind_shear_wf; [exact Vwf|exact Hwf| | |exact Eg];
      congruence. }
  destruct (classify_field_values general Gwf) as (turbulence & Et & Tlat & Tlon & Tval).
  { eapply rectangular_nonempty; [exact Gwf| |]; rewrite ?Glat, ?Glon, ?Hlat, ?Hlon; lia. }
  exists vertical, horizontal, general, turbulence.
  repeat (split; [assumption || congruence|]).
  intros i j Hi Hj.
  destruct (Vval i j Hi Hj)
    as (u1 & u2 & v1 & v2 & z1 & z2 & Hu1 & Hu2 & Hv1 & Hv2 & Hz1 & Hz2 & Hr).
  destruct (Hval i j Hi Hj) as (row & ux & vy & _ & _ & _ & Hh).
  exists u1, u2, v1, v2, z1, z2. eexists.
  repeat (split; [eassumption|]).
  assert (Hg : at_point (values general) i j
               = Some (sqrt (pow2 (sqrt (pow2 ux + pow2 vy))
                             + pow2 (shear_formula u1 u2 v1 v2 z1 z2)))).
  { rewrite Gval, Hh, Hr. reflexivity. }
  split; [exact Hg|]. rewrite Tval, Hg. reflexivity.
Qed.

Lemma plot_wind_shear_run (f : Field) (title filename : string)
    (north west south east : float) :
  plot_wind_shear (Grid f) title filename [north; west; south; east]
  = {| trace := [Subplots; SetExtent [west; east; south; north];
                 PColorMesh (longitude f) (latitude f) (values f);
                 Coastlines; Gridlines; SetTitle title;
                 Colorbar "Wind Shear (m/s)" []; SaveFig filename; Show];
       outcome := Ok tt |}.
Proof. reflexivity. Qed.

Lemma plot_turbulence_level_run (data : TurbulenceField) (filename : string)
    (north west south east : float) :
  plot_turbulence_level data filename [north; west; south; east]
  = {| trace := [Subplots; SetExtent [west; east; south; north];
                 PColorMeshLevels (t_longitude data) (t_latitude data) (t_values data)
                                  ["blue"; "green"; "orange"; "red"]%string;
                 Coastlines; Gridlines;
                 SetTitle "Turbulence Level Based on General Wind Shear";
                 Colorbar "Turbulence Level"
                          ["Light"; "Moderate"; "Severe"; "Extreme"]%string;
                 SaveFig filename; Show];
       outcome := Ok tt |}.
Proof. reflexivity. Qed.

(** A run on a dataset from which the four fields can be computed. *)
Lemma pipelines_run (cds : request -> result Dataset)
    (d : date) (t : time) (continent : string) (r : request) (data : Dataset)
    (vertical horizontal general : Field) (turbulence : TurbulenceField)
    (north west south east : float) :
  omap request_of (trace (download_era5_data cds d t (get_boundaries continent)))
  = [r] ->
  cds r = Ok data ->
  calculate_wind_shear data = Ok (Grid vertical) ->
  calculate_horizontal_shear data = Ok (Grid horizontal) ->
  calculate_general_wind_shear vertical horizontal = Ok general ->
  classify_field general = Ok turbulence ->
  get_boundaries continent = [north; west; south; east] ->
  let region := [north; west; south; east] in
  let shear_maps :=
    trace (plot_wind_shear (Grid vertical) "Vertical Wind Shear"
             "vertical_wind_shear.png" region)
    ++ trace (plot_wind_shear (Grid horizontal) "Horizontal Wind Shear"
                "horizontal_wind_shear.png" region)
    ++ trace (plot_wind_shear (Grid general)
                "General Wind Shear (Vertical + Horizontal)"
                "general_wind_shear.png" region) in
  get_windshear_data cds d t continent
  = {| trace := Retrieve r :: shear_maps;
       outcome := Ok "general_wind_shear.png"%string |} /\
  get_turbulence_data cds d t continent
  = {| trace := Retrieve r
                :: shear_maps
                ++ trace (plot_turbulence_level turbulence "turbulence_level.png"
                            region);
       outcome := Ok "turbulence_level.png"%string |}.
Proof.
  intros Hr Hcds Ev Eh Eg Et Hbox region shear_maps.
  destruct (download_era5_data_run cds d t _ r Hr) as [Ht Ho]. rewrite Hcds in Ho.
  assert (Hgen : (v ← as_field (Grid vertical); h ← as_field (Grid horizontal);
                  calculate_general_wind_shear v h) = Ok general) by exact Eg.
  assert (Hrec : forall (A : Type) (m : M A) tr out,
             trace m = tr -> outcome m = out -> m = {| trace := tr; outcome := out |}).
  { intros A [tr' out'] tr out. simpl. intros -> ->. reflexivity. }
  unfold shear_maps, region. split; apply Hrec.
  - unfold get_windshear_data. cbv zeta.
    repeat progress (rewrite ?trace_bind, ?outcome_bind, ?Ho, ?Ht, ?Ev, ?Eh, ?Hgen,
                       ?Hbox, ?plot_wind_shear_run;
                     cbn [lift trace outcome app mret M_ret]).
    rewrite ?app_nil_r. reflexivity.
  - unfold get_windshear_data. cbv zeta.
    repeat progress (rewrite ?outcome_bind, ?Ho, ?Ev, ?Eh, ?Hgen, ?Hbox,
                       ?plot_wind_shear_run;
                     cbn [lift outcome]).
    reflexivity.
  - unfold get_turbulence_data. cbv zeta.
    repeat progress (rewrite ?trace_bind, ?outcome_bind, ?Ho, ?Ht, ?Ev, ?Eh, ?Hgen, ?Et,
                       ?Hbox, ?plot_wind_shear_run, ?plot_turbulence_level_run;
                     cbn [lift trace outcome app mret M_ret]).
    rewrite ?app_nil_r. reflexivity.
  - unfold get_turbulence_data. cbv zeta.
    repeat progress (rewrite ?outcome_bind, ?Ho, ?Ev, ?Eh, ?Hgen, ?Et, ?Hbox,
                       ?plot_wind_shear_run, ?plot_turbulence_level_run;
                     cbn [lift outcome]).
    reflexivity.
Qed.

(** X8: on a valid observation with at least two points on each axis a
    turbulence run completes: it draws the vertical, the horizontal and
    the general shear, in that order, then the categories of the general
    shear on the grid of the observation, writes the four pictures and
    returns the path of the last one. *)
Theorem get_turbulence_data_completes (cds : request -> result Dataset)
    (d : date) (t : time) (continent : string) (r : request) (data : Dataset) :
  omap request_of (trace (download_era5_data cds d t (get_boundaries continent)))
  = [r] ->
  cds r = Ok data ->
  valid_observation data ->
  (2 <= length (ds_latitude data))%nat ->
  (2 <= length (ds_longitude data))%nat ->
  exists (vertical horizontal general : Field) (turbulence : TurbulenceField),
    calculate_wind_shear data = Ok (Grid vertical) /\
    calculate_horizontal_shear data = Ok (Grid horizontal) /\
    calculate_general_wind_shear vertical horizontal = Ok general /\
    classify_field general = Ok turbulence /\
    outcome (get_turbulence_data cds d t continent) = Ok "turbulence_level.png"%string /\
    outcome (get_windshear_data cds d t continent) = Ok "general_wind_shear.png"%string /\
    omap drawn_of (trace (get_turbulence_data cds d t continent))
    = [vertical; horizontal; general] /\
    omap levels_of (trace (get_turbulence_data cds d t continent)) = [turbulence] /\
    omap saved_of (trace (get_turbulence_data cds d t continent))
    = ["vertical_wind_shear.png"; "horizontal_wind_shear.png";
       "general_wind_shear.png"; "turbulence_level.png"]%string /\
    t_latitude turbulence = ds_latitude data /\
    t_longitude turbulence = ds_longitude data /\
    forall i j,
      (i < length (ds_latitude data))%nat ->
      (j < length (ds_longitude data))%nat ->
      exists v h,
        at_point (values vertical) i j = Some v /\
        at_point (values horizontal) i j = Some h /\
        at_point (t_values turbulence) i j
        = Some (classify_turbulence (sqrt (pow2 h + pow2 v))).
Proof.
  intros Hr Hcds Hv Hnlat Hnlon.
  destruct (turbulence_of_observation data Hv Hnlat Hnlon)
    as (vertical & horizontal & general & turbulence
        & Ev & Eh & Eg & Et & Tlat & Tlon & Hval).
  destruct (get_boundaries_box continent) as (n & w & s & e & Hbox).
  destruct (pipelines_run cds d t continent r data vertical horizontal general
              turbulence n w s e Hr Hcds Ev Eh Eg Et Hbox) as [Hw Ht].
  exists vertical, horizontal, general, turbulence.
  repeat (split; [assumption|]).
  rewrite Hw, Ht, !plot_wind_shear_run, plot_turbulence_level_run.
  cbn [trace outcome].
  split; [reflexivity|]. split; [reflexivity|].
  split; [destruct vertical, horizontal, general; reflexivity|].
  split; [destruct turbulence; reflexivity|]. split; [reflexivity|].
  split; [exact Tlat|]. split; [exact Tlon|].
  intros i j Hi Hj.
  destruct (Hval i j Hi Hj)
    as (u1 & u2 & v1 & v2 & z1 & z2 & h & _ & _ & _ & _ & _ & _ & Hv' & Hh' & _ & Ht').
  eauto.
Qed.

End WholeRuns.

Section SpecialValues.
Import Classifier Region Xarray Shear Plot Vectorize Bot Observe Runs.

Lemma get_turbulence_data_completes_witness :
  outcome (get_turbulence_data (fun _ => Ok Samples.scenario)
             {| year := 2024; month := 11; day := 15 |}
             {| hour := 10; minute := 30 |} "Asia")
  = Ok "turbulence_level.png"%string.
Proof.
  destruct (get_turbulence_data_completes (fun _ => Ok Samples.scenario)
              {| year := 2024; month := 11; day := 15 |}
              {| hour := 10; minute := 30 |} "Asia" _ Samples.scenario
              eq_refl eq_refl)
    as (? & ? & ? & ? & _ & _ & _ & _ & H & _).
  - apply constant_observation_valid.
  - simpl. lia.
  - simpl. lia.
  - exact H.
Defined.

(** X9: where the geopotential is the same at both levels the height
    difference is zero, nothing is raised, and the vertical shear is NaN
    or +infinity whatever the winds are; the general shear there is not
    finite either, and the grid point is classified Extreme. *)
Theorem level_heights_are_extreme (data : Dataset) :
  valid_observation data ->
  (2 <= length (ds_latitude data))%nat ->
  (2 <= length (ds_longitude data))%nat ->
  exists (vertical horizontal general : Field) (turbulence : TurbulenceField),
    calculate_wind_shear data = Ok (Grid vertical) /\
    calculate_horizontal_shear data = Ok (Grid horizontal) /\
    calculate_general_wind_shear vertical horizontal = Ok general /\
    classify_field general = Ok turbulence /\
    forall i j z1 z2,
      (i < length (ds_latitude data))%nat ->
      (j < length (ds_longitude data))%nat ->
      observed data "z" 500 i j = Some z1 ->
      observed data "z" 300 i j = Some z2 ->
      is_zero (z1 - z2) = true ->
      exists v g,
        at_point (values vertical) i j = Some v /\ is_finite v = false /\
        at_point (values general) i j = Some g /\ is_finite g = false /\
        at_point (t_values turbulence) i j = Some 3%Z.
Proof.
  intros Hv Hnlat Hnlon.
  destruct (turbulence_of_observation data Hv Hnlat Hnlon)
    as (vertical & horizontal & general & turbulence
        & Ev & Eh & Eg & Et & _ & _ & Hval).
  exists vertical, horizontal, general, turbulence.
  repeat (split; [assumption|]).
  intros i j z1 z2 Hi Hj Hz1 Hz2 Hzero.
  destruct (Hval i j Hi Hj)
    as (u1 & u2 & v1 & v2 & z1' & z2' & h & _ & _ & _ & _ & Hz1' & Hz2'
        & Hvert & _ & Hgen & Hturb).
  assert (z1' = z1) as -> by congruence. assert (z2' = z2) as -> by congruence.
  pose proof (shear_formula_level_heights u1 u2 v1 v2 z1 z2 Hzero) as Hx.
  pose proof (general_formula_extreme h _ Hx) as Hg.
  eexists. eexists.
  split; [exact Hvert|]. split; [apply extreme_not_finite, Hx|].
  split; [exact Hgen|]. split; [apply extreme_not_finite, Hg|].
  rewrite Hturb, (classify_turbulence_extreme _ Hg). reflexivity.
Qed.

Lemma level_heights_are_extreme_witness :
  exists (vertical horizontal general : Field) (turbulence : TurbulenceField),
    calculate_wind_shear Cases.level_heights = Ok (Grid vertical) /\
    calculate_horizontal_shear Cases.level_heights = Ok (Grid horizontal) /\
    calculate_general_wind_shear vertical horizontal = Ok general /\
    classify_field general = Ok turbulence /\
    at_point (t_values turbulence) 0 0 = Some 3%Z.
Proof.
  destruct (level_heights_are_extreme Cases.level_heights)
    as (vertical & horizontal & general & turbulence & Ev & Eh & Eg & Et & H).
  - apply constant_observation_valid.
  - simpl. lia.
  - simpl. lia.
  - exists vertical, horizontal, general, turbulence.
    repeat (split; [assumption|]).
    destruct (H 0%nat 0%nat 5000 5000) as (v & g & _ & _ & _ & _ & Ht);
      [simpl; lia|simpl; lia|reflexivity|reflexivity|reflexivity|exact Ht].
Defined.

(** X10: the general shear at a grid point is NaN exactly when the
    horizontal or the vertical shear is NaN there, and otherwise it is not
    negative: squaring drops the signs of the two shears. *)
Theorem calculate_general_wind_shear_sign (vertical horizontal : Field) :
  wf_field vertical -> wf_field horizontal ->
  latitude vertical = latitude horizontal ->
  longitude vertical = longitude horizontal ->
  exists general : Field,
    calculate_general_wind_shear vertical horizontal = Ok general /\
    wf_field general /\
    forall i j g,
      at_point (values general) i j = Some g ->
      exists h v,
        at_point (values horizontal) i j = Some h /\
        at_point (values vertical) i j = Some v /\
        is_nan g = is_nan h || is_nan v /\
        (is_nan g = false -> (0 <=? g) = true).
Proof.
  intros Vwf Hwf Elat Elon.
  destruct (calculate_general_wind_shear_same vertical horizontal Vwf Hwf Elat Elon)
    as (general & Eg & _ & _ & Gval).
  exists general. split; [exact Eg|]. split.
  { exact (calculate_general_wind_shear_wf _ _ _ Vwf Hwf Elat Elon Eg). }
  intros i j g Hg. rewrite Gval in Hg.
  destruct (at_point (values horizontal) i j) as [h|]; [|discriminate].
  destruct (at_point (values vertical) i j) as [v|]; [|discriminate].
  simpl in Hg. injection Hg as <-.
  exists h, v. split; [reflexivity|]. split; [reflexivity|].
  apply general_formula_kind.
Qed.

Lemma calculate_general_wind_shear_sign_witness :
  exists general : Field,
    calculate_general_wind_shear
      {| latitude := [50.0; 49.75]; longitude := [10.0; 10.25];
         values := [[-3; nan]; [3; 0]] |}
      {| latitude := [50.0; 49.75]; longitude := [10.0; 10.25];
         values := [[-4; 1]; [4; neg_infinity]] |}
    = Ok general /\
    values general = [[5; nan]; [5; infinity]].
Proof.
  destruct (calculate_general_wind_shear_sign
              {| latitude := [50.0; 49.75]; longitude := [10.0; 10.25];
                 values := [[-3; nan]; [3; 0]] |}
              {| latitude := [50.0; 49.75]; longitude := [10.0; 10.25];
                 values := [[-4; 1]; [4; neg_infinity]] |})
    as (general & Eg & _).
  - split; [reflexivity|repeat constructor].
  - split; [reflexivity|repeat constructor].
  - reflexivity.
  - reflexivity.
  - exists general. split; [exact Eg|].
    vm_compute in Eg. injection Eg as <-. reflexivity.
Defined.

End SpecialValues.

(** ** Region boxes, the renderer and [main] *)

Section RegionAndPlotFacts.
Import Region Xarray Shear Plot Vectorize Bot Observe Runs.

(** X11: whatever name is given, the box requested is a proper one, south
    below north and west before east, inside the range of latitudes and
    longitudes, and the map extent set from it is (west, east, south,
    north). *)
Theorem get_boundaries_well_ordered (name : string) :
  exists north west south east : float,
    get_boundaries name = [north; west; south; east] /\
    (south <? north) = true /\ (west <? east) = true /\
    (-90 <=? south) = true /\ (north <=? 90) = true /\
    (-180 <=? west) = true /\ (east <=? 180) = true /\
    convert_api_to_plot_format (get_boundaries name) = Ok [west; east; south; north].
Proof.
  destruct (decide (name ∈ continent_names)) as [Hn|Hn].
  - unfold continent_names in Hn.
    repeat (apply elem_of_cons in Hn as [->|Hn];
            [do 4 eexists; repeat split; reflexivity|]).
    inversion Hn.
  - unfold get_boundaries. rewrite (continent_boundaries_None name Hn).
    do 4 eexists. repeat split; reflexivity.
Qed.

(** X12: the conversion fails, with [ValueError], exactly on lists that do
    not have four items; on a box it moves north, west and east round and
    leaves south in place, so that converting three times gives the box
    back, and converting twice gives it back only when north, west and
    east are the same. *)
Theorem convert_api_to_plot_format_cycle (x : box) :
  (is_ok (convert_api_to_plot_format x) = true <-> length x = 4%nat) /\
  (length x <> 4%nat -> convert_api_to_plot_format x = Raise ValueError) /\
  (forall y, convert_api_to_plot_format x = Ok y ->
     length y = 4%nat /\
     (convert_api_to_plot_format y ≫= convert_api_to_plot_format) = Ok x /\
     (convert_api_to_plot_format y = Ok x ->
      exists a south, x = [a; a; south; a])).
Proof.
  destruct x as [|n [|w [|s [|e [|? ?]]]]];
    (split; [split; [discriminate || reflexivity|discriminate || reflexivity]|]);
    (split; [intros H; reflexivity || (exfalso; apply H; reflexivity)|]);
    intros y Hy; try discriminate Hy.
  injection Hy as <-. split; [reflexivity|]. split; [reflexivity|].
  simpl. intros [= -> ->]. eauto.
Qed.

(** X13: a plot function given a region that does not have four items
    raises [ValueError] once the figure is created, before any extent is
    set; [plot_wind_shear] given data that lost a dimension to [squeeze]
    raises it once the extent is set, before anything is drawn.  In both
    cases no file is written. *)
Theorem plot_functions_fail_before_drawing (data : Squeezed)
    (levels : TurbulenceField) (title filename : string) (continent : box) :
  (length continent <> 4%nat ->
   plot_wind_shear data title filename continent
   = {| trace := [Subplots]; outcome := Raise ValueError |} /\
   plot_turbulence_level levels filename continent
   = {| trace := [Subplots]; outcome := Raise ValueError |}) /\
  (forall north west south east,
     continent = [north; west; south; east] ->
     (forall f, data <> Grid f) ->
     plot_wind_shear data title filename continent
     = {| trace := [Subplots; SetExtent [west; east; south; north]];
          outcome := Raise ValueError |}) /\
  (forall north west south east f,
     continent = [north; west; south; east] ->
     data = Grid f ->
     outcome (plot_wind_shear data title filename continent) = Ok tt /\
     omap saved_of (trace (plot_wind_shear data title filename continent))
     = [filename] /\
     omap drawn_of (trace (plot_wind_shear data title filename continent)) = [f]).
Proof.
  split; [|split].
  - intros Hlen.
    destruct continent as [|n [|w [|s [|e [|? ?]]]]];
      try (split; reflexivity). destruct (Hlen eq_refl).
  - intros n w s e -> Hdata.
    destruct data as [f| | |]; try reflexivity. destruct (Hdata f eq_refl).
  - intros n w s e f -> ->. destruct f. repeat split.
Qed.

Lemma agrees_bind {A C C' : Type} (m : M A) (k : A -> M C) (k' : A -> M C') :
  (forall a, agrees (k a) (k' a)) -> agrees (m ≫= k) (m ≫= k').
Proof.
  intros Hk. unfold agrees. rewrite !trace_bind, !outcome_bind.
  destruct (outcome m) as [a|e]; [|split; reflexivity].
  destruct (Hk a) as [-> Hout]. split; [reflexivity|exact Hout].
Qed.

Lemma agrees_then_ret {A C : Type} (m : M A) (c : C) :
  agrees m (m ≫= fun _ => mret c).
Proof.
  unfold agrees. rewrite trace_bind, outcome_bind.
  destruct (outcome m); simpl; rewrite app_nil_r; split; reflexivity || exact I.
Qed.

Lemma download_era5_data_hour (cds : request -> result Dataset)
    (d : date) (t t' : time) (area : box) :
  hour t = hour t' ->
  download_era5_data cds d t area = download_era5_data cds d t' area.
Proof. intros Hh. unfold download_era5_data. rewrite Hh. reflexivity. Qed.

Lemma main_agrees (cds : request -> result Dataset) (t : time) (name : string) :
  hour t = 10%Z ->
  get_boundaries name = get_boundaries "Europe" ->
  agrees (main cds)
         (get_turbulence_data cds {| year := 2024; month := 11; day := 15 |} t name).
Proof.
  intros Hh Hbox. unfold main, get_turbulence_data, default_continent. cbv zeta.
  rewrite Hbox.
  rewrite (download_era5_data_hour cds _ t {| hour := 10; minute := 0 |})
    by exact Hh.
  change (get_boundaries "Europe") with [71.0; -31.0; 36.0; 40.0].
  repeat (apply agrees_bind; intros ?). apply agrees_then_ret.
Qed.

(** X14: [main] is the turbulence pipeline of the bot run for
    2024-11-15 at ten o'clock over the default region: it makes the same
    calls in the same order as [get_turbulence_data] does for that date,
    any time within that hour and any name that resolves to the box of
    Europe, and fails where that one fails. *)
Theorem main_is_the_europe_run (cds : request -> result Dataset)
    (t : time) (name : string) :
  hour t = 10%Z ->
  get_boundaries name = get_boundaries "Europe" ->
  let bot := get_turbulence_data cds {| year := 2024; month := 11; day := 15 |}
                                 t name in
  trace (main cds) = trace bot /\
  (forall e, outcome (main cds) = Raise e <-> outcome bot = Raise e) /\
  (outcome (main cds) = Ok tt <-> outcome bot = Ok "turbulence_level.png"%string).
Proof.
  intros Hh Hbox bot.
  destruct (main_agrees cds t name Hh Hbox) as [Htr Hout]. fold bot in Htr, Hout. split; [exact Htr|]. split.
  - intros e. destruct (outcome (main cds)), (outcome bot); try contradiction;
      split; intros [= <-]; congruence.
  - pose proof (get_turbulence_data_returns
                  cds {| year := 2024; month := 11; day := 15 |} t name) as Hret.
    fold bot in Hret.
    destruct (outcome (main cds)) as [[]|], (outcome bot) as [path|];
      try contradiction; split; try discriminate; intros _; try reflexivity.
    rewrite (Hret path eq_refl). reflexivity.
Qed.

Lemma main_is_the_europe_run_witness :
  trace (main (fun _ => Ok Samples.scenario))
  = trace (get_turbulence_data (fun _ => Ok Samples.scenario)
             {| year := 2024; month := 11; day := 15 |}
             {| hour := 10; minute := 45 |} "Atlantis").
Proof.
  apply (main_is_the_europe_run (fun _ => Ok Samples.scenario)
           {| hour := 10; minute := 45 |} "Atlantis"); reflexivity.
Defined.

End RegionAndPlotFacts.

(** ** The region, from the request to the maps *)

Section ExtentFacts.
Import Region Xarray Shear Plot Vectorize Bot Observe Runs.

Lemma framed_ret {A : Type} (extent : box) (a : A) : framed extent (mret a).
Proof. reflexivity. Qed.

Lemma framed_lift {A : Type} (extent : box) (r : result A) : framed extent (lift r).
Proof. reflexivity. Qed.

Lemma framed_bind {A C : Type} (extent : box) (m : M A) (k : A -> M C) :
  framed extent m -> (forall a, framed extent (k a)) -> framed extent (m ≫= k).
Proof.
  unfold framed. intros Hm Hk. rewrite trace_bind, !omap_app, length_app, replicate_add.
  rewrite Hm. f_equal. destruct (outcome m) as [a|e]; [apply Hk|reflexivity].
Qed.

Lemma plot_wind_shear_framed (data : Squeezed) (title filename : string)
    (north west south east : float) :
  framed [west; east; south; north]
         (plot_wind_shear data title filename [north; west; south; east]).
Proof. destruct data; reflexivity. Qed.

Lemma plot_turbulence_level_framed (data : TurbulenceField) (filename : string)
    (north west south east : float) :
  framed [west; east; south; north]
         (plot_turbulence_level data filename [north; west; south; east]).
Proof. reflexivity. Qed.

Lemma download_era5_data_framed (cds : request -> result Dataset)
    (d : date) (t : time) (area extent : box) :
  framed extent (download_era5_data cds d t area).
Proof.
  unfold download_era5_data. cbv zeta.
  apply framed_bind; [reflexivity|intros ?; apply framed_lift].
Qed.

Ltac frame :=
  lazymatch goal with
  | |- framed _ (plot_wind_shear _ _ _ _) => apply plot_wind_shear_framed
  | |- framed _ (plot_turbulence_level _ _ _) => apply plot_turbulence_level_framed
  | |- framed _ (download_era5_data _ _ _ _) => apply download_era5_data_framed
  | |- framed _ (mret _) => apply framed_ret
  | |- framed _ (lift _) => apply framed_lift
  | |- framed _ (_ ≫= _) => apply framed_bind; [frame|intros ?; frame]
  end.

Lemma pipelines_framed (cds : request -> result Dataset)
    (d : date) (t : time) (continent : string) (north west south east : float) :
  get_boundaries continent = [north; west; south; east] ->
  framed [west; east; south; north] (get_windshear_data cds d t continent) /\
  framed [west; east; south; north] (get_turbulence_data cds d t continent).
Proof.
  intros Hbox. unfold get_windshear_data, get_turbulence_data. cbv zeta.
  rewrite Hbox. split; frame.
Qed.

Lemma main_framed (cds : request -> result Dataset) :
  framed [-31.0; 40.0; 36.0; 71.0] (main cds).
Proof. unfold main, default_continent. cbv zeta. frame. Qed.

(** The request is the first call of a run, whatever comes of it. *)
Lemma requested_once {A : Type} (cds : request -> result Dataset)
    (d : date) (t : time) (area : box) (k : Dataset -> M A) :
  emits area_of area 1 (download_era5_data cds d t area ≫= k) ->
  omap area_of (trace (download_era5_data cds d t area ≫= k)) = [area].
Proof.
  intros (n & Hn & Hrep & _). rewrite Hrep.
  assert (Hne : omap area_of (trace (download_era5_data cds d t area ≫= k)) <> []).
  { rewrite trace_bind. unfold download_era5_data. cbv zeta.
    rewrite trace_bind. discriminate. }
  rewrite Hrep in Hne. destruct n as [|[|n]]; [destruct Hne; reflexivity|reflexivity|lia].
Qed.

Lemma pipelines_request_once (cds : request -> result Dataset)
    (d : date) (t : time) (continent : string) :
  omap area_of (trace (get_windshear_data cds d t continent))
  = [get_boundaries continent] /\
  omap area_of (trace (get_turbulence_data cds d t continent))
  = [get_boundaries continent].
Proof.
  destruct (get_boundaries_box continent) as (n & w & s & e & Hbox).
  destruct (get_windshear_data_emits cds d t continent n w s e Hbox) as [Hw _].
  destruct (get_turbulence_data_emits cds d t continent n w s e Hbox) as [Ht _].
  rewrite <- Hbox in Hw, Ht.
  split; [exact (requested_once cds d t _ _ Hw)
         |exact (requested_once cds d t _ _ Ht)].
Qed.

Lemma main_requests_once (cds : request -> result Dataset) :
  omap area_of (trace (main cds)) = [[71.0; -31.0; 36.0; 40.0]].
Proof.
  destruct (main_emits cds) as [Hm _].
  exact (requested_once cds _ _ _ _ Hm).
Qed.

Lemma download_era5_data_request (cds : request -> result Dataset)
    (d : date) (t : time) (area : box) (r : request) :
  omap request_of (trace (download_era5_data cds d t area)) = [r] ->
  req_area r = area /\ req_date r = d /\
  req_time r = {| hour := hour t; minute := 0 |}.
Proof.
  unfold download_era5_data. cbv zeta. rewrite trace_bind. simpl.
  intros [= <-]. repeat split.
Qed.

Lemma emits_complete {A B : Type} (proj : event -> option B) (b : B) (n : nat)
    (m : M A) (a : A) :
  emits proj b n m -> outcome m = Ok a -> omap proj (trace m) = replicate n b.
Proof.
  intros (k & _ & Hrep & Hok) Hout. rewrite Hrep, Hok; [reflexivity|].
  rewrite Hout. reflexivity.
Qed.

(** Both pipelines and [main] on a valid observation with at least two
    points on each axis: the run completes and every map is drawn over the
    box that was requested. *)
Lemma pipelines_complete (cds : request -> result Dataset)
    (d : date) (t : time) (continent : string) (r : request) (data : Dataset) :
  omap request_of (trace (download_era5_data cds d t (get_boundaries continent)))
  = [r] ->
  cds r = Ok data ->
  valid_observation data ->
  (2 <= length (ds_latitude data))%nat ->
  (2 <= length (ds_longitude data))%nat ->
  exists north west south east : float,
    get_boundaries continent = [north; west; south; east] /\
    req_area r = [north; west; south; east] /\
    outcome (get_windshear_data cds d t continent)
    = Ok "general_wind_shear.png"%string /\
    omap extent_of (trace (get_windshear_data cds d t continent))
    = replicate 3 [west; east; south; north] /\
    length (omap drawn_of (trace (get_windshear_data cds d t continent))) = 3%nat /\
    outcome (get_turbulence_data cds d t continent)
    = Ok "turbulence_level.png"%string /\
    omap extent_of (trace (get_turbulence_data cds d t continent))
    = replicate 4 [west; east; south; north] /\
    length (omap drawn_of (trace (get_turbulence_data cds d t continent))) = 3%nat /\
    length (omap levels_of (trace (get_turbulence_data cds d t continent))) = 1%nat.
Proof.
  intros Hr Hcds Hv Hnlat Hnlon.
  destruct (turbulence_of_observation data Hv Hnlat Hnlon)
    as (vertical & horizontal & general & turbulence
        & Ev & Eh & Eg & Et & _).
  destruct (get_boundaries_box continent) as (n & w & s & e & Hbox).
  destruct (pipelines_run cds d t continent r data vertical horizontal general
              turbulence n w s e Hr Hcds Ev Eh Eg Et Hbox) as [Hw Ht].
  destruct (download_era5_data_request cds d t _ r Hr) as [Harea _].
  exists n, w, s, e. split; [exact Hbox|]. split; [congruence|].
  rewrite Hw, Ht, !plot_wind_shear_run, plot_turbulence_level_run.
  cbn [trace outcome]. repeat split.
Qed.

Lemma main_complete (cds : request -> result Dataset) (r : request) (data : Dataset) :
  omap request_of
    (trace (download_era5_data cds {| year := 2024; month := 11; day := 15 |}
              {| hour := 10; minute := 0 |} [71.0; -31.0; 36.0; 40.0]))
  = [r] ->
  cds r = Ok data ->
  valid_observation data ->
  (2 <= length (ds_latitude data))%nat ->
  (2 <= length (ds_longitude data))%nat ->
  req_area r = [71.0; -31.0; 36.0; 40.0] /\
  outcome (main cds) = Ok tt /\
  omap extent_of (trace (main cds)) = replicate 4 [-31.0; 40.0; 36.0; 71.0] /\
  length (omap drawn_of (trace (main cds))) = 3%nat /\
  length (omap levels_of (trace (main cds))) = 1%nat.
Proof.
  intros Hr Hcds Hv Hnlat Hnlon.
  destruct (download_era5_data_request cds _ _ _ r Hr) as [Harea _].
  split; [exact Harea|].
  destruct (pipelines_complete cds {| year := 2024; month := 11; day := 15 |}
              {| hour := 10; minute := 0 |} "Europe" r data Hr Hcds Hv Hnlat Hnlon)
    as (n & w & s & e & _ & _ & _ & _ & _ & Hto & _ & Hdrawn & Hlevels).
  destruct (main_agrees cds {| hour := 10; minute := 0 |} "Europe" eq_refl eq_refl)
    as [Htr Hout].
  rewrite Hto in Hout.
  destruct (outcome (main cds)) as [[]|] eqn:Hmain; [|contradiction].
  split; [reflexivity|].
  split; [exact (emits_complete _ _ _ _ _ (proj2 (main_emits cds)) Hmain)|].
  rewrite Htr. split; assumption.
Qed.

(** C10: both plot functions take their region in query order and set the
    map extent to its conversion, (west, east, south, north).  On every
    run the two pipelines send exactly one request, for the box the name
    resolves to, and [main] one for the default box; every figure they
    create gets the conversion of that same box as its extent, and no
    other extent is set: three maps, or four with the turbulence map, when
    the run completes.  On a valid observation with at least two points on
    each axis the run does complete, with three shear maps drawn, and the
    category map after them in the turbulence pipeline and in [main]. *)
Theorem plot_extent_from_query_form :
  (forall data title filename continent extent,
     convert_api_to_plot_format continent = Ok extent ->
     omap extent_of (trace (plot_wind_shear data title filename continent))
     = [extent]) /\
  (forall data filename continent extent,
     convert_api_to_plot_format continent = Ok extent ->
     omap extent_of (trace (plot_turbulence_level data filename continent))
     = [extent]) /\
  (forall data title filename north west south east,
     omap extent_of (trace (plot_wind_shear data title filename
                                            [north; west; south; east]))
     = [[west; east; south; north]]) /\
  (forall data filename north west south east,
     omap extent_of (trace (plot_turbulence_level data filename
                                                  [north; west; south; east]))
     = [[west; east; south; north]]) /\
  (forall cds d t continent,
     exists north west south east,
       get_boundaries continent = [north; west; south; east] /\
       emits area_of [north; west; south; east] 1
             (get_windshear_data cds d t continent) /\
       emits extent_of [west; east; south; north] 3
             (get_windshear_data cds d t continent) /\
       emits area_of [north; west; south; east] 1
             (get_turbulence_data cds d t continent) /\
       emits extent_of [west; east; south; north] 4
             (get_turbulence_data cds d t continent)) /\
  (forall cds,
     emits area_of [71.0; -31.0; 36.0; 40.0] 1 (main cds) /\
     emits extent_of [-31.0; 40.0; 36.0; 71.0] 4 (main cds)) /\
  (forall cds d t continent,
     omap area_of (trace (get_windshear_data cds d t continent))
     = [get_boundaries continent] /\
     omap area_of (trace (get_turbulence_data cds d t continent))
     = [get_boundaries continent]) /\
  (forall cds, omap area_of (trace (main cds)) = [[71.0; -31.0; 36.0; 40.0]]) /\
  (forall cds d t continent,
     exists north west south east,
       get_boundaries continent = [north; west; south; east] /\
       omap extent_of (trace (get_windshear_data cds d t continent))
       = replicate
           (length (omap figure_of (trace (get_windshear_data cds d t continent))))
           [west; east; south; north] /\
       omap extent_of (trace (get_turbulence_data cds d t continent))
       = replicate
           (length (omap figure_of (trace (get_turbulence_data cds d t continent))))
           [west; east; south; north]) /\
  (forall cds,
     omap extent_of (trace (main cds))
     = replicate (length (omap figure_of (trace (main cds))))
                 [-31.0; 40.0; 36.0; 71.0]) /\
  (forall cds d t continent r data,
     omap request_of
       (trace (download_era5_data cds d t (get_boundaries continent))) = [r] ->
     cds r = Ok data ->
     valid_observation data ->
     (2 <= length (ds_latitude data))%nat ->
     (2 <= length (ds_longitude data))%nat ->
     exists north west south east : float,
       get_boundaries continent = [north; west; south; east] /\
       req_area r = [north; west; south; east] /\
       outcome (get_windshear_data cds d t continent)
       = Ok "general_wind_shear.png"%string /\
       omap extent_of (trace (get_windshear_data cds d t continent))
       = replicate 3 [west; east; south; north] /\
       length (omap drawn_of (trace (get_windshear_data cds d t continent)))
       = 3%nat /\
       outcome (get_turbulence_data cds d t continent)
       = Ok "turbulence_level.png"%string /\
       omap extent_of (trace (get_turbulence_data cds d t continent))
       = replicate 4 [west; east; south; north] /\
       length (omap drawn_of (trace (get_turbulence_data cds d t continent)))
       = 3%nat /\
       length (omap levels_of (trace (get_turbulence_data cds d t continent)))
       = 1%nat) /\
  (forall cds r data,
     omap request_of
       (trace (download_era5_data cds {| year := 2024; month := 11; day := 15 |}
                 {| hour := 10; minute := 0 |} [71.0; -31.0; 36.0; 40.0]))
     = [r] ->
     cds r = Ok data ->
     valid_observation data ->
     (2 <= length (ds_latitude data))%nat ->
     (2 <= length (ds_longitude data))%nat ->
     req_area r = [71.0; -31.0; 36.0; 40.0] /\
     outcome (main cds) = Ok tt /\
     omap extent_of (trace (main cds)) = replicate 4 [-31.0; 40.0; 36.0; 71.0] /\
     length (omap drawn_of (trace (main cds))) = 3%nat /\
     length (omap levels_of (trace (main cds))) = 1%nat) /\
  (let run := get_turbulence_data (fun _ => Ok Samples.scenario)
                {| year := 2024; month := 11; day := 15 |}
                {| hour := 10; minute := 30 |} "Asia" in
   valid_observation Samples.scenario /\
   outcome run = Ok "turbulence_level.png"%string /\
   omap area_of (trace run) = [[77.71; 25.98; -11.02; 179.69]] /\
   omap extent_of (trace run) = replicate 4 [25.98; 179.69; -11.02; 77.71]).
Proof.
  split; [exact plot_wind_shear_converts|].
  split; [exact plot_turbulence_level_converts|].
  split; [exact plot_wind_shear_extent|].
  split; [exact plot_turbulence_level_extent|].
  split.
  { intros cds d t continent.
    destruct (get_boundaries_box continent) as (n & w & s & e & Hbox).
    exists n, w, s, e. split; [exact Hbox|].
    destruct (get_windshear_data_emits cds d t continent n w s e Hbox).
    destruct (get_turbulence_data_emits cds d t continent n w s e Hbox).
    auto. }
  split; [exact main_emits|].
  split; [exact pipelines_request_once|].
  split; [exact main_requests_once|].
  split.
  { intros cds d t continent.
    destruct (get_boundaries_box continent) as (n & w & s & e & Hbox).
    exists n, w, s, e. split; [exact Hbox|].
    exact (pipelines_framed cds d t continent n w s e Hbox). }
  split; [exact main_framed|].
  split; [exact pipelines_complete|].
  split; [exact main_complete|].
  split; [apply constant_observation_valid|].
  vm_compute. repeat split; reflexivity.
Qed.

End ExtentFacts.

(** ** Zeros through the shear formulas *)

Section ExactShift.
#[local] Open Scope Z_scope.

Lemma iter_pos_shr_1_div (p : positive) (mrs : shr_record) :
  0 <= shr_m mrs ->
  shr_m (SpecFloat.iter_pos shr_1 p mrs) = shr_m mrs / 2 ^ Z.pos p.
Proof.
  revert mrs. induction p as [p IH|p IH|]; intros mrs Hm; simpl SpecFloat.iter_pos.
  - pose proof (shr_1_bounds mrs Hm) as [H0 _].
    pose proof (iter_pos_shr_1_bounds p (shr_1 mrs) H0) as [H1 _].
    rewrite IH, IH, shr_1_div2 by assumption.
    replace (Z.pos p~1) with (1 + Z.pos p + Z.pos p) by lia.
    rewrite !Z.pow_add_r, Z.pow_1_r by lia.
    rewrite !Z.div_div by (try apply Z.pow_pos_nonneg; lia).
    f_equal. lia.
  - pose proof (iter_pos_shr_1_bounds p mrs Hm) as [H1 _].
    rewrite IH, IH by assumption.
    replace (Z.pos p~0) with (Z.pos p + Z.pos p) by lia.
    rewrite !Z.pow_add_r by lia.
    rewrite !Z.div_div by (try apply Z.pow_pos_nonneg; lia).
    reflexivity.
  - rewrite shr_1_div2 by assumption. reflexivity.
Qed.

(** A mantissa of at least [2^n] survives a shift by [n]. *)
Lemma shr_fexp_positive (m e : Z) (l : location) (n : Z) :
  0 <= n -> 2 ^ n <= m ->
  fexp prec emax (Zdigits2 m + e) - e <= n ->
  0 < shr_m (fst (shr_fexp prec emax m e l)).
Proof.
  intros Hn Hm Hs.
  assert (Hpos : 0 < m) by (pose proof (Z.pow_pos_nonneg 2 n); lia).
  unfold shr_fexp, shr.
  assert (H0 : shr_m (shr_record_of_loc m l) = m) by (destruct l as [|[]]; reflexivity).
  destruct (fexp prec emax (Zdigits2 m + e) - e) as [|p|p] eqn:En; cbn [fst];
    try (rewrite H0; exact Hpos).
  rewrite iter_pos_shr_1_div, H0 by (rewrite H0; lia).
  apply Z.div_str_pos. split; [apply Z.pow_pos_nonneg; lia|].
  transitivity (2 ^ n); [apply Z.pow_le_mono_r; lia|exact Hm].
Qed.

Lemma round_nearest_even_ge (m : Z) (l : location) : m <= round_nearest_even m l.
Proof.
  unfold round_nearest_even. destruct l as [|[]]; try destruct (Z.even m); lia.
Qed.

(** Rounding a mantissa that survives the first shift gives no zero. *)
Lemma binary_round_aux_nonzero (sx : bool) (mx ex : Z) (lx : location) (n : Z) :
  0 <= n -> 2 ^ n <= mx ->
  fexp prec emax (Zdigits2 mx + ex) - ex <= n ->
  sf_divisor (binary_round_aux prec emax sx mx ex lx) = true.
Proof.
  intros Hn Hm Hs.
  assert (Hpos : 0 < mx) by (pose proof (Z.pow_pos_nonneg 2 n); lia).
  pose proof (shr_fexp_positive mx ex lx n Hn Hm Hs) as H1.
  pose proof (shr_fexp_bounds prec emax mx ex lx ltac:(lia)) as B1.
  unfold binary_round_aux.
  destruct (shr_fexp prec emax mx ex lx) as [mrs' e']. cbn [fst] in H1.
  destruct B1 as (He' & _ & _).
  pose proof (round_nearest_even_ge (shr_m mrs') (loc_of_shr_record mrs')) as Hr.
  set (m1 := round_nearest_even (shr_m mrs') (loc_of_shr_record mrs')) in *.
  assert (Hm1 : 0 < m1) by lia.
  assert (H2 : 0 < shr_m (fst (shr_fexp prec emax m1 e' loc_Exact))).
  { destruct m1 as [|p1|p1] eqn:Em1; try lia.
    apply (shr_fexp_positive (Z.pos p1) e' loc_Exact (Z.pos (digits2_pos p1) - 1)).
    - lia.
    - apply digits2_pos_le.
    - rewrite fexp64. rewrite fexp64 in He'. cbn [Zdigits2]. lia. }
  destruct (shr_fexp prec emax m1 e' loc_Exact) as [mrs'' e'']. cbn [fst] in H2.
  destruct (shr_m mrs'') as [|m|m]; try lia.
  destruct (e'' <=? emax - prec); reflexivity.
Qed.

(** Twice a value that is neither NaN nor zero is neither. *)
Lemma SFmul_two_divisor (x : spec_float) :
  valid_binary x = true -> sf_divisor x = true ->
  sf_divisor (SFmul prec emax (S754_finite false 4503599627370496 (-51)) x) = true.
Proof.
  destruct x as [s|s| |s mx ex]; try discriminate; intros Hvalid _; [reflexivity|].
  destruct (valid_binary_bounds s mx ex Hvalid) as [Hd Hex].
  cbn [SFmul].
  apply (binary_round_aux_nonzero _ _ _ _ 52); [lia| |].
  - change (2 ^ 52) with 4503599627370496. lia.
  - rewrite fexp64.
    assert (Hdig : Zdigits2 (Z.pos (4503599627370496 * mx)) <= 105).
    { apply Zdigits2_le; [|lia]. split; [lia|].
      pose proof (digits2_pos_gt mx) as Hgt.
      assert (2 ^ Z.pos (digits2_pos mx) <= 2 ^ 53) by (apply Z.pow_le_mono_r; lia).
      change (2 ^ 105) with (4503599627370496 * 2 ^ 53). lia. }
    lia.
Qed.

End ExactShift.

Section Zeros.
Import Classifier Xarray Shear.

Lemma SFsub_diag (x : spec_float) :
  sf_finite x = true -> sf_zero (SFsub prec emax x x) = true.
Proof.
  destruct x as [[]|?| |s m e]; try discriminate; intros _; try reflexivity.
  cbn [SFsub]. cbv zeta. rewrite Z.sub_diag. reflexivity.
Qed.

Lemma SFdiv_zero (x y : spec_float) :
  sf_zero x = true -> sf_divisor y = true -> sf_zero (SFdiv prec emax x y) = true.
Proof.
  destruct x as [?|?| |? ? ?], y as [?|?| |? ? ?]; try discriminate; reflexivity.
Qed.

Lemma divisor_spec (x : float) :
  is_nan x = false -> is_zero x = false -> sf_divisor (Prim2SF x) = true.
Proof.
  rewrite is_nan_number, is_zero_spec.
  destruct (Prim2SF x); try discriminate; reflexivity.
Qed.

Lemma zero_of_spec (x : float) : Prim2SF x = S754_zero false -> x = 0.
Proof.
  intros H. rewrite <- (SF2Prim_Prim2SF x), H. reflexivity.
Qed.

(** The difference of a finite value with itself over a value that is
    neither NaN nor zero. *)
Lemma zero_quotient (k d : float) :
  is_finite k = true -> sf_divisor (Prim2SF d) = true ->
  sf_zero (Prim2SF ((k - k) / d)) = true.
Proof.
  intros Hk Hd. rewrite div_spec, sub_spec.
  apply SFdiv_zero; [|exact Hd]. apply SFsub_diag. rewrite <- is_finite_spec. exact Hk.
Qed.

Lemma two_divisor (d : float) :
  sf_divisor (Prim2SF d) = true -> sf_divisor (Prim2SF (2 * d)) = true.
Proof.
  intros Hd. rewrite mul_spec.
  change (Prim2SF 2) with (S754_finite false 4503599627370496 (-51)).
  apply SFmul_two_divisor; [apply Prim2SF_valid|exact Hd].
Qed.

(** The root of the sum of the squares of two zeros is [+0]. *)
Lemma root_of_zero_squares (a b : float) :
  sf_zero (Prim2SF a) = true -> sf_zero (Prim2SF b) = true ->
  sqrt (pow2 a + pow2 b) = 0.
Proof.
  intros Ha Hb. apply zero_of_spec.
  unfold pow2. rewrite sqrt_spec, add_spec, !mul_spec.
  destruct (Prim2SF a) as [[]|?| |? ? ?], (Prim2SF b) as [[]|?| |? ? ?];
    try discriminate; reflexivity.
Qed.

Lemma Forall_zip_with_both {A B C : Type} (P : A -> Prop) (Q : B -> Prop)
    (R : C -> Prop) (f : A -> B -> C) (l : list A) (k : list B) :
  (forall x y, P x -> Q y -> R (f x y)) ->
  Forall P l -> Forall Q k -> Forall R (zip_with f l k).
Proof.
  intros Hf Hl. revert k. induction Hl as [|x l Hx _ IH]; intros k Hk; [constructor|].
  destruct Hk as [|y k Hy Hk]; simpl; constructor; auto.
Qed.

(** On an evenly spaced axis the derivative of a constant is zero at
    every point, the two ends included. *)
Lemma gradient_floats_constant (dx k : float) (f : list float) :
  is_finite k = true -> sf_divisor (Prim2SF dx) = true ->
  Forall (eq k) f ->
  Forall (fun x => sf_zero (Prim2SF x) = true) (gradient_floats (Uniform dx) f).
Proof.
  intros Hk Hdx Hf. unfold gradient_floats, gradient.
  repeat apply Forall_app_2.
  - unfold first_edge. destruct Hf as [|f0 ? <- Hf]; [constructor|].
    destruct Hf as [|f1 ? <- Hf]; constructor; [|constructor].
    apply zero_quotient; assumption.
  - unfold interior.
    apply (Forall_zip_with_both (eq k) (eq k)); [| |exact Hf].
    + intros ? ? <- <-. apply zero_quotient; [exact Hk|apply two_divisor, Hdx].
    + apply Forall_drop, Hf.
  - unfold last_edge. apply Forall_reverse in Hf.
    destruct Hf as [|fn ? <- Hf]; [constructor|].
    destruct Hf as [|fm ? <- Hf]; constructor; [|constructor].
    apply zero_quotient; assumption.
Qed.

Lemma observed_grid_rectangular (data : Dataset) (name : string) (level : Z)
    (g : grid) :
  valid_observation data -> name ∈ ["u"; "v"; "z"]%string ->
  observed_grid data name level = Some g ->
  rectangular (length (ds_latitude data)) (length (ds_longitude data)) g.
Proof.
  intros Hv Hname. unfold observed_grid.
  destruct (vo_vars data Hv name Hname) as (var & Hvar & _ & Hcube).
  rewrite Hvar. simpl.
  destruct (level_index data level) as [k|]; simpl; [|discriminate].
  destruct (var !! 0%nat) as [levels|] eqn:E0; simpl; [|discriminate].
  intros Hg. rewrite Forall_forall in Hcube.
  destruct (Hcube levels) as [_ Hrect]; [eapply list_elem_of_lookup_2, E0|].
  rewrite Forall_forall in Hrect. apply Hrect. eapply list_elem_of_lookup_2, Hg.
Qed.

(** X15: a wind that is the same at every grid point and on both levels,
    over an evenly spaced grid and with heights that differ between the
    levels, has no shear: the vertical, the horizontal and the general
    shear are [0] at every grid point and every grid point is classified
    Light. *)
Theorem uniform_wind_is_light (data : Dataset) (ku kv dlat dlon : float) :
  valid_observation data ->
  (2 <= length (ds_latitude data))%nat ->
  (2 <= length (ds_longitude data))%nat ->
  is_finite ku = true -> is_finite kv = true ->
  (forall level i j x, observed data "u" level i j = Some x -> x = ku) ->
  (forall level i j x, observed data "v" level i j = Some x -> x = kv) ->
  (forall i j z1 z2,
     observed data "z" 500 i j = Some z1 ->
     observed data "z" 300 i j = Some z2 ->
     is_nan (z1 - z2) = false /\ is_zero (z1 - z2) = false) ->
  axis_spacing (ds_latitude data) = Ok (Uniform dlat) ->
  is_nan dlat = false -> is_zero dlat = false ->
  axis_spacing (ds_longitude data) = Ok (Uniform dlon) ->
  is_nan dlon = false -> is_zero dlon = false ->
  exists (vertical horizontal general : Field) (turbulence : Plot.TurbulenceField),
    calculate_wind_shear data = Ok (Grid vertical) /\
    calculate_horizontal_shear data = Ok (Grid horizontal) /\
    calculate_general_wind_shear vertical horizontal = Ok general /\
    Vectorize.classify_field general = Ok turbulence /\
    forall i j,
      (i < length (ds_latitude data))%nat ->
      (j < length (ds_longitude data))%nat ->
      at_point (values vertical) i j = Some 0 /\
      at_point (values horizontal) i j = Some 0 /\
      at_point (values general) i j = Some 0 /\
      at_point (Plot.t_values turbulence) i j = Some 0%Z.
Proof.
  intros Hv Hnlat Hnlon Hku Hkv Hu Hvv Hz Hslat Hnlat' Hzlat Hslon Hnlon' Hzlon.
  destruct (turbulence_of_observation data Hv Hnlat Hnlon)
    as (vertical & horizontal & general & turbulence
        & Ev & Eh & Eg & Et & _ & _ & Hval).
  destruct (calculate_horizontal_shear_values data Hv Hnlat Hnlon)
    as (gu & gv & slat & slon & horizontal' & Hgu & Hgv & Hslat' & Hslon'
        & Eh' & _ & _ & _ & Hhval).
  assert (horizontal' = horizontal) as -> by congruence.
  assert (slat = Uniform dlat) as -> by congruence.
  assert (slon = Uniform dlon) as -> by congruence.
  pose proof (observed_grid_rectangular data "u" 500 gu Hv
                ltac:(apply (bool_decide_unpack _); reflexivity) Hgu) as Hurect.
  pose proof (observed_grid_rectangular data "v" 500 gv Hv
                ltac:(apply (bool_decide_unpack _); reflexivity) Hgv) as Hvrect.
  exists vertical, horizontal, general, turbulence.
  repeat (split; [assumption|]).
  intros i j Hi Hj.
  destruct (Hval i j Hi Hj)
    as (u1 & u2 & v1 & v2 & z1 & z2 & h & Hu1 & Hu2 & Hv1 & Hv2 & Hz1 & Hz2
        & Hvert & Hh & Hgen & Hturb).
  apply Hu in Hu1, Hu2. apply Hvv in Hv1, Hv2. subst u1 u2 v1 v2.
  destruct (Hz i j z1 z2 Hz1 Hz2) as [Hdn Hdz].
  pose proof (divisor_spec _ Hdn Hdz) as Hdiv.
  assert (Hzero_v : shear_formula ku ku kv kv z1 z2 = 0).
  { unfold shear_formula, radicand.
    apply root_of_zero_squares; apply zero_quotient; assumption. }
  destruct (Hhval i j Hi Hj) as (row & ux & vy & Hrow & Hux & Hvy & Hh').
  assert (Hrow_const : Forall (eq ku) row).
  { apply Forall_lookup. intros j' x Hx. symmetry. apply (Hu 500%Z i j').
    unfold observed. rewrite Hgu. simpl. unfold at_point. rewrite Hrow. exact Hx. }
  assert (Hcol_const : Forall (eq kv) (column gv j)).
  { apply Forall_forall. intros x Hx. unfold column in Hx.
    apply list_elem_of_omap in Hx as (row' & Hin & Hx).
    apply list_elem_of_lookup in Hin as [i' Hi'].
    symmetry. apply (Hvv 500%Z i' j).
    unfold observed. rewrite Hgv. simpl. unfold at_point. rewrite Hi'. exact Hx. }
  pose proof (gradient_floats_constant dlon ku row Hku
                (divisor_spec _ Hnlon' Hzlon) Hrow_const) as Gu.
  pose proof (gradient_floats_constant dlat kv (column gv j) Hkv
                (divisor_spec _ Hnlat' Hzlat) Hcol_const) as Gv.
  rewrite Forall_lookup in Gu, Gv.
  assert (Hzero_h : h = 0).
  { rewrite Hh' in Hh. injection Hh as <-.
    apply root_of_zero_squares; [exact (Gu _ _ Hux)|exact (Gv _ _ Hvy)]. }
  subst h. rewrite Hzero_v in *.
  split; [exact Hvert|]. split; [exact Hh|].
  split; [rewrite Hgen; reflexivity|]. rewrite Hturb. reflexivity.
Qed.

Lemma uniform_wind_is_light_witness :
  exists (vertical horizontal general : Field) (turbulence : Plot.TurbulenceField),
    calculate_wind_shear Cases.calm = Ok (Grid vertical) /\
    calculate_horizontal_shear Cases.calm = Ok (Grid horizontal) /\
    calculate_general_wind_shear vertical horizontal = Ok general /\
    Vectorize.classify_field general = Ok turbulence /\
    at_point (Plot.t_values turbulence) 1 1 = Some 0%Z.
Proof.
  destruct (uniform_wind_is_light Cases.calm 10 3 (-0.25) 0.25)
    as (vertical & horizontal & general & turbulence & Ev & Eh & Eg & Et & H).
  - apply constant_observation_valid.
  - simpl. lia.
  - simpl. lia.
  - reflexivity.
  - reflexivity.
  - intros level i j x. unfold observed, observed_grid. simpl.
    destruct (level_index Cases.calm level) as [[|[|k]]|]; simpl;
      try discriminate;
      destruct i as [|[|[|i]]], j as [|[|[|j]]]; simpl;
      intros H; first [discriminate H | injection H as <-; reflexivity].
  - intros level i j x. unfold observed, observed_grid. simpl.
    destruct (level_index Cases.calm level) as [[|[|k]]|]; simpl;
      try discriminate;
      destruct i as [|[|[|i]]], j as [|[|[|j]]]; simpl;
      intros H; first [discriminate H | injection H as <-; reflexivity].
  - intros i j z1 z2 H1 H2.
    destruct i as [|[|[|i]]], j as [|[|[|j]]]; vm_compute in H1, H2;
      try discriminate; injection H1 as <-; injection H2 as <-; split; reflexivity.
  - reflexivity.
  - reflexivity.
  - reflexivity.
  - reflexivity.
  - reflexivity.
  - reflexivity.
  - exists vertical, horizontal, general, turbulence.
    repeat (split; [assumption|]). apply (H 1%nat 1%nat); simpl; lia.
Defined.

End Zeros.

(** ** Properties of the command handlers *)

Section HandlerFacts.
Import Region Xarray Plot Bot Observe Runs Handlers.

Lemma finished_bind {A C : Type} (h : Handler A) (k : A -> Handler C) :
  finished (h ≫= k)
  = match finished h with Ok a => finished (k a) | Raise e => Raise e end.
Proof. unfold mbind, Handler_bind. destruct (finished h); reflexivity. Qed.

Lemma actions_bind {A C : Type} (h : Handler A) (k : A -> Handler C) :
  actions (h ≫= k)
  = actions h ++ match finished h with Ok a => actions (k a) | Raise _ => [] end.
Proof.
  unfold mbind, Handler_bind. destruct (finished h); simpl; [reflexivity|].
  symmetry. apply app_nil_r.
Qed.


Lemma actions_try_except {A : Type} (body : Handler A) (handler : exn -> Handler A) :
  actions (try_except body handler)
  = actions body ++ match finished body with
                    | Ok _ => []
                    | Raise e => actions (handler e)
                    end.
Proof.
  unfold try_except. destruct (finished body); simpl; [|reflexivity].
  symmetry. apply app_nil_r.
Qed.

Lemma omap_call {B : Type} (proj : action -> option B) (l : list event) :
  (forall e, proj (Call e) = None) -> omap proj (Call <$> l) = [].
Proof.
  intros H. induction l as [|e l IH]; [reflexivity|].
  rewrite fmap_cons. simpl. rewrite H. exact IH.
Qed.

Lemma omap_call_of (l : list event) : omap call_of (Call <$> l) = l.
Proof. induction l as [|e l IH]; [reflexivity|]. simpl. f_equal. exact IH. Qed.

Section Requests.
Variable strptime_date : string -> result date.
Variable strptime_time : string -> result time.
Variable str : exn -> string.
Variable cds : request -> result Dataset.


Ltac handle :=
  cbn -[String.concat get_turbulence_data get_windshear_data].

(** X17: with a date and a time that parse and at least one more word, a
    request handler runs its pipeline once, for the parsed date and time
    and the continent named by the remaining words joined with single
    spaces, and then sends either the picture the pipeline returned or the
    text of the exception it raised. *)
Theorem request_handlers_run_pipeline (date_str time_str word : string)
    (words : list string) (d : date) (t : time) :
  strptime_date date_str = Ok d ->
  strptime_time time_str = Ok t ->
  let args := date_str :: time_str :: word :: words in
  let continent := String.concat " " (word :: words) in
  let closing (pipeline : M string) :=
    match outcome pipeline with
    | Ok path => ReplyPhoto path
    | Raise e => ReplyText ("An error occurred: " +:+ str e)
    end in
  actions (turbulence_request strptime_date strptime_time str cds args)
  = ReplyText "Retrieving ERA5 meteorological data..."
    :: (Call <$> trace (get_turbulence_data cds d t continent))
    ++ [closing (get_turbulence_data cds d t continent)] /\
  actions (windshear_request strptime_date strptime_time str cds args)
  = ReplyText "Retrieving ERA5 meteorological data..."
    :: (Call <$> trace (get_windshear_data cds d t continent))
    ++ [closing (get_windshear_data cds d t continent)].
Proof.
  intros Hd Ht args continent closing. split.
  - unfold turbulence_request, args. handle. rewrite Hd. handle. rewrite Ht. handle.
    unfold closing. fold continent.
    destruct (outcome (get_turbulence_data cds d t continent)); reflexivity.
  - unfold windshear_request, args. handle. rewrite Hd. handle. rewrite Ht. handle.
    unfold closing. fold continent.
    destruct (outcome (get_windshear_data cds d t continent)); reflexivity.
Qed.

(** What a request handler does with words it cannot use. *)
Lemma turbulence_request_rejects (args : list string) :
  (forall date_str time_str word words d t,
     args = date_str :: time_str :: word :: words ->
     strptime_date date_str = Ok d -> strptime_time time_str = Ok t -> False) ->
  omap call_of (actions (turbulence_request strptime_date strptime_time str cds args))
  = [] /\
  omap photo_of (actions (turbulence_request strptime_date strptime_time str cds args))
  = [].
Proof.
  intros Hbad. unfold turbulence_request.
  destruct args as [|date_str [|time_str [|word words]]]; try (split; reflexivity).
  handle.
  destruct (strptime_date date_str) as [d|[]] eqn:Hd; handle; try (split; reflexivity).
  destruct (strptime_time time_str) as [t|[]] eqn:Ht; handle; try (split; reflexivity).
  destruct (Hbad _ _ _ _ d t eq_refl Hd Ht).
Qed.

Lemma windshear_request_rejects (args : list string) :
  (forall date_str time_str word words d t,
     args = date_str :: time_str :: word :: words ->
     strptime_date date_str = Ok d -> strptime_time time_str = Ok t -> False) ->
  omap call_of (actions (windshear_request strptime_date strptime_time str cds args))
  = [] /\
  omap photo_of (actions (windshear_request strptime_date strptime_time str cds args))
  = [].
Proof.
  intros Hbad. unfold windshear_request.
  destruct args as [|date_str [|time_str [|word words]]]; try (split; reflexivity).
  handle.
  destruct (strptime_date date_str) as [d|[]] eqn:Hd; handle; try (split; reflexivity).
  destruct (strptime_time time_str) as [t|[]] eqn:Ht; handle; try (split; reflexivity).
  destruct (Hbad _ _ _ _ d t eq_refl Hd Ht).
Qed.

(** X18: a request handler calls the data service or the plotting library,
    or sends a picture, only if it was given at least three words of which
    the first parses as a date and the second as a time. *)
Theorem request_handlers_validate_first (args : list string) :
  let turbulence := turbulence_request strptime_date strptime_time str cds args in
  let windshear := windshear_request strptime_date strptime_time str cds args in
  omap call_of (actions turbulence) <> [] \/ omap photo_of (actions turbulence) <> [] \/
  omap call_of (actions windshear) <> [] \/ omap photo_of (actions windshear) <> [] ->
  exists date_str time_str word words d t,
    args = date_str :: time_str :: word :: words /\
    strptime_date date_str = Ok d /\ strptime_time time_str = Ok t.
Proof.
  intros turbulence windshear Hdoes.
  destruct args as [|date_str [|time_str [|word words]]].
  1-3: exfalso; destruct Hdoes as [H|[H|[H|H]]]; apply H; reflexivity.
  destruct (strptime_date date_str) as [d|e1] eqn:Hd.
  - destruct (strptime_time time_str) as [t|e2] eqn:Ht.
    + exists date_str, time_str, word, words, d, t. auto.
    + exfalso.
      assert (Hbad : forall ds ts w ws d0 t0,
                date_str :: time_str :: word :: words = ds :: ts :: w :: ws ->
                strptime_date ds = Ok d0 -> strptime_time ts = Ok t0 -> False).
      { intros ds ts w ws d0 t0 [= <- <- <- <-] _ Ht0. congruence. }
      destruct (turbulence_request_rejects _ Hbad) as [Tc Tp].
      destruct (windshear_request_rejects _ Hbad) as [Wc Wp].
      destruct Hdoes as [H|[H|[H|H]]];
        [exact (H Tc)|exact (H Tp)|exact (H Wc)|exact (H Wp)].
  - exfalso.
    assert (Hbad : forall ds ts w ws d0 t0,
              date_str :: time_str :: word :: words = ds :: ts :: w :: ws ->
              strptime_date ds = Ok d0 -> strptime_time ts = Ok t0 -> False).
    { intros ds ts w ws d0 t0 [= <- <- <- <-] Hd0 _. congruence. }
    destruct (turbulence_request_rejects _ Hbad) as [Tc Tp].
      destruct (windshear_request_rejects _ Hbad) as [Wc Wp].
    destruct Hdoes as [H|[H|[H|H]]];
        [exact (H Tc)|exact (H Tp)|exact (H Wc)|exact (H Wp)].
Qed.

(** X19: what the user is told about unusable words: with fewer than three
    words, the usage line of the command and nothing else; with a date or
    a time that the parser rejects with [ValueError], the notice that data
    is being retrieved followed by the format reminder. *)
Theorem request_handlers_explain (args : list string) :
  let retrieving := "Retrieving ERA5 meteorological data..."%string in
  let invalid := "Invalid date or time format. Please use YYYY-MM-DD for date and HH:MM for time."%string in
  ((length args < 3)%nat ->
   actions (turbulence_request strptime_date strptime_time str cds args)
   = [ReplyText "Please provide the date, time, and continent in the format: /turbulence_request YYYY-MM-DD HH:MM Continent"] /\
   actions (windshear_request strptime_date strptime_time str cds args)
   = [ReplyText "Please provide the date, time, and continent in the format: /windshear_request YYYY-MM-DD HH:MM Continent"]) /\
  (forall date_str time_str word words,
     args = date_str :: time_str :: word :: words ->
     strptime_date date_str = Raise ValueError \/
     (is_ok (strptime_date date_str) = true /\
      strptime_time time_str = Raise ValueError) ->
     actions (turbulence_request strptime_date strptime_time str cds args)
     = [ReplyText retrieving; ReplyText invalid] /\
     actions (windshear_request strptime_date strptime_time str cds args)
     = [ReplyText retrieving; ReplyText invalid]).
Proof.
  intros retrieving invalid. split.
  - intros Hlen.
    destruct args as [|? [|? [|? ?]]]; simpl in Hlen; try lia; split; reflexivity.
  - intros date_str time_str word words -> Hbad.
    unfold turbulence_request, windshear_request. handle.
    destruct Hbad as [Hd|[Hd Ht]].
    + rewrite Hd. split; reflexivity.
    + destruct (strptime_date date_str) as [d|]; [|discriminate]. handle.
      rewrite Ht. split; reflexivity.
Qed.

Variable today : date.
Variable clock : time.

(** X20: the handler of [/continent] has no [try]: called without a word
    it asks for one and runs nothing; otherwise it runs the turbulence
    pipeline for the words joined with spaces, at the time of the clock,
    and when the pipeline raises the exception leaves the handler and the
    user is sent nothing. *)
Theorem continent_lets_failures_out (args : list string) :
  let pipeline := get_turbulence_data cds today clock (String.concat " " args) in
  let run := continent cds today clock args in
  match args with
  | [] =>
      actions run = [ReplyText "Retrieving ERA5 meteorological data...";
                     ReplyText "Please provide the continent name."] /\
      finished run = Ok tt
  | _ :: _ =>
      actions run
      = (Call <$> trace pipeline)
        ++ match outcome pipeline with
           | Ok path => [ReplyPhoto path]
           | Raise _ => []
           end /\
      finished run
      = match outcome pipeline with
        | Ok _ => Ok tt
        | Raise e => Raise e
        end
  end.
Proof.
  intros pipeline run. destruct args as [|word words]; [split; reflexivity|].
  unfold run, continent.
  change (length (word :: words) <? 1)%nat with false. cbv iota zeta.
  rewrite actions_bind, finished_bind. cbn [call actions finished]. fold pipeline.
  destruct (outcome pipeline) as [path|e]; [split; reflexivity|].
  rewrite app_nil_r. split; reflexivity.
Qed.

End Requests.

Section Latest.
Variable str : exn -> string.
Variable cds_at : nat -> request -> result Dataset.
Variable today : date.
Variable clock : time.
Variable search_latest_date : string -> option string.
Variable strptime_datetime : string -> result (date * time).

#[local] Abbreviation run :=
  (latest str cds_at today clock search_latest_date strptime_datetime).
#[local] Abbreviation first_turbulence :=
  (get_turbulence_data (cds_at 0) today clock "Europe").
#[local] Abbreviation first_windshear :=
  (get_windshear_data (cds_at 1) today clock "Europe").

Ltac attempt := cbn -[get_turbulence_data get_windshear_data String.append].

(** X21: when both pipelines complete at the first attempt, [latest]
    announces the retrieval, runs the turbulence pipeline and then the
    wind-shear pipeline, each with a request of its own for the box of
    Europe, and sends the turbulence picture followed by the general
    wind-shear picture. *)
Theorem latest_sends_both_pictures (p1 p2 : string) :
  outcome first_turbulence = Ok p1 ->
  outcome first_windshear = Ok p2 ->
  actions run
  = ReplyText "Retrieving ERA5 meteorological data..."
    :: (Call <$> trace first_turbulence) ++ (Call <$> trace first_windshear)
    ++ [ReplyPhoto "turbulence_level.png"; ReplyPhoto "general_wind_shear.png"] /\
  finished run = Ok tt /\
  omap area_of (omap call_of (actions run))
  = [[71.0; -31.0; 36.0; 40.0]; [71.0; -31.0; 36.0; 40.0]].
Proof.
  intros H1 H2.
  pose proof (get_turbulence_data_returns _ _ _ _ _ H1) as ->.
  pose proof (get_windshear_data_returns _ _ _ _ _ H2) as ->.
  assert (Hact : actions run
                 = [ReplyText "Retrieving ERA5 meteorological data..."]
                   ++ (Call <$> trace first_turbulence) ++ (Call <$> trace first_windshear)
                   ++ [ReplyPhoto "turbulence_level.png";
                       ReplyPhoto "general_wind_shear.png"] /\
                 finished run = Ok tt).
  { unfold run, latest. attempt. fold first_turbulence first_windshear.
    rewrite H1. attempt. fold first_windshear. rewrite H2. attempt.
    rewrite app_nil_r, <- !app_assoc. split; reflexivity. }
  destruct Hact as [Hact Hfin]. split; [exact Hact|]. split; [exact Hfin|].
  rewrite Hact, !omap_app, !omap_call_of.
  change (omap call_of [ReplyText _]) with (@nil event).
  change (omap call_of [ReplyPhoto _; ReplyPhoto _]) with (@nil event).
  rewrite app_nil_l, app_nil_r.
  destruct (get_turbulence_data_emits (cds_at 0) today clock "Europe"
              71.0 (-31.0) 36.0 40.0 eq_refl) as [(k & _ & Hk & Hok) _].
  destruct (get_windshear_data_emits (cds_at 1) today clock "Europe"
              71.0 (-31.0) 36.0 40.0 eq_refl) as [(k' & _ & Hk' & Hok') _].
  fold first_turbulence in Hk, Hok. fold first_windshear in Hk', Hok'.
  rewrite Hk, Hk', Hok, Hok' by (rewrite ?H1, ?H2; reflexivity). reflexivity.
Qed.

Lemma latest_after_failure (e : exn) :
  first_attempt_fails cds_at today clock e ->
  exists calls : list event,
    forall handler : exn -> Handler (option (string * string)),
      try_except
        (turbulence_image ← call first_turbulence;
         windshear_image ← call first_windshear;
         mret (Some (turbulence_image, windshear_image)))
        handler
      = {| actions := (Call <$> calls) ++ actions (handler e);
           finished := finished (handler e) |}.
Proof.
  intros [H1|[H1 H2]].
  - exists (trace first_turbulence). intros handler.
    unfold try_except. rewrite finished_bind, actions_bind.
    cbn [call actions finished]. rewrite H1, app_nil_r. reflexivity.
  - destruct (outcome first_turbulence) as [p1|] eqn:E1; [|discriminate].
    exists (trace first_turbulence ++ trace first_windshear). intros handler.
    unfold try_except. rewrite finished_bind, actions_bind.
    cbn [call actions finished]. rewrite E1.
    rewrite finished_bind, actions_bind. cbn [call actions finished].
    rewrite H2, app_nil_r, fmap_app. reflexivity.
Qed.

Ltac fail_first e Hfail calls Htry :=
  destruct (latest_after_failure e Hfail) as [calls Htry];
  unfold run, latest; cbv zeta;
  rewrite !finished_bind, !actions_bind, Htry;
  cbn [reply_text actions finished].

(** X22: when the first attempt fails and the text of the exception names
    no latest available date, [latest] sends that text after the words
    "An error occurred: ", sends no picture, and ends without raising. *)
Theorem latest_reports_failure (e : exn) :
  first_attempt_fails cds_at today clock e ->
  search_latest_date (str e) = None ->
  finished run = Ok tt /\
  omap photo_of (actions run) = [] /\
  omap text_of (actions run)
  = ["Retrieving ERA5 meteorological data..."; "An error occurred: " +:+ str e]%string.
Proof.
  intros Hfail Hnone. fail_first e Hfail calls Htry. rewrite Hnone.
  rewrite !finished_bind, !actions_bind. cbn [reply_text actions finished mret Handler_ret].
  split; [reflexivity|].
  rewrite !app_nil_r, !omap_app, !(omap_call _ calls) by reflexivity.
  split; reflexivity.
Qed.

(** X23: when the text of the exception names a latest available date,
    [latest] announces that date and tries again outside the [try]: if the
    date does not parse or a pipeline of the second attempt raises, the
    exception leaves the handler, and the user has been sent no picture
    and no error message. *)
Theorem latest_retry_is_unguarded (e e' : exn) (latest_date_str : string) :
  first_attempt_fails cds_at today clock e ->
  search_latest_date (str e) = Some latest_date_str ->
  strptime_datetime latest_date_str = Raise e' \/
  (exists d t,
     strptime_datetime latest_date_str = Ok (d, t) /\
     (outcome (get_turbulence_data (cds_at 2) d t "Europe") = Raise e' \/
      (is_ok (outcome (get_turbulence_data (cds_at 2) d t "Europe")) = true /\
       outcome (get_windshear_data (cds_at 3) d t "Europe") = Raise e'))) ->
  finished run = Raise e' /\
  omap photo_of (actions run) = [] /\
  omap text_of (actions run)
  = ["Retrieving ERA5 meteorological data...";
     "The requested date is not available yet. because ERA5 data is updated daily with a latency of about 5 days. Retrieving the latest available data for "
       +:+ latest_date_str +:+ "..."]%string.
Proof.
  intros Hfail Hsome Hretry. fail_first e Hfail calls Htry. rewrite Hsome.
  rewrite !finished_bind, !actions_bind. cbn [reply_text eval actions finished].
  destruct Hretry as [Hparse|(d & t & Hparse & Hpipe)]; rewrite Hparse.
  - split; [reflexivity|].
    rewrite !app_nil_r, !omap_app, !(omap_call _ calls) by reflexivity.
    split; reflexivity.
  - cbn [fst snd]. rewrite !finished_bind, !actions_bind. cbn [call actions finished].
    destruct Hpipe as [H1|[H1 H2]].
    + rewrite H1. split; [reflexivity|].
      rewrite !app_nil_r, !omap_app, !(omap_call _ calls), !(omap_call _ (trace _))
        by reflexivity.
      split; reflexivity.
    + destruct (outcome (get_turbulence_data (cds_at 2) d t "Europe")) as [p1|];
        [|discriminate].
      rewrite !finished_bind, !actions_bind. cbn [call actions finished]. rewrite H2.
      split; [reflexivity|].
      rewrite !app_nil_r, !omap_app, !(omap_call _ calls), !(omap_call _ (trace _))
        by reflexivity.
      split; reflexivity.
Qed.

End Latest.
End HandlerFacts.

Section HandlerExamples.
Import Region Xarray Plot Bot Observe Runs Handlers.

Lemma request_handlers_run_pipeline_witness :
  actions (turbulence_request Cases.strptime_date Cases.strptime_time Cases.str
             (fun _ => Ok Samples.scenario)
             ["2024-11-15"; "10:30"; "North"; "America"]%string)
  = ReplyText "Retrieving ERA5 meteorological data..."
    :: (Call <$> trace (get_turbulence_data (fun _ => Ok Samples.scenario)
                          {| year := 2024; month := 11; day := 15 |}
                          {| hour := 10; minute := 30 |} "North America"))
    ++ [ReplyPhoto "turbulence_level.png"].
Proof.
  destruct (request_handlers_run_pipeline Cases.strptime_date Cases.strptime_time
              Cases.str (fun _ => Ok Samples.scenario)
              "2024-11-15" "10:30" "North" ["America"%string]
              {| year := 2024; month := 11; day := 15 |}
              {| hour := 10; minute := 30 |} eq_refl eq_refl) as [H _].
  exact H.
Defined.

Lemma request_handlers_validate_first_witness :
  exists date_str time_str word words d t,
    ["2024-11-15"; "10:30"; "Asia"]%string = date_str :: time_str :: word :: words /\
    Cases.strptime_date date_str = Ok d /\ Cases.strptime_time time_str = Ok t.
Proof.
  apply (request_handlers_validate_first Cases.strptime_date Cases.strptime_time
           Cases.str (fun _ => Ok Samples.scenario)).
  right. left. vm_compute. discriminate.
Defined.

Lemma latest_sends_both_pictures_witness :
  finished (latest Cases.str (fun _ _ => Ok Samples.scenario)
              {| year := 2024; month := 11; day := 15 |}
              {| hour := 10; minute := 30 |}
              (fun _ => None) (fun _ => Raise ValueError)) = Ok tt.
Proof.
  apply (latest_sends_both_pictures Cases.str (fun _ _ => Ok Samples.scenario)
           {| year := 2024; month := 11; day := 15 |}
           {| hour := 10; minute := 30 |}
           (fun _ => None) (fun _ => Raise ValueError)
           "turbulence_level.png" "general_wind_shear.png");
    vm_compute; reflexivity.
Defined.

Lemma latest_reports_failure_witness :
  omap text_of
    (actions (latest Cases.str (fun _ _ => Raise KeyError)
                {| year := 2024; month := 11; day := 15 |}
                {| hour := 10; minute := 30 |}
                (fun _ => None) (fun _ => Raise ValueError)))
  = ["Retrieving ERA5 meteorological data..."; "An error occurred: 'u'"]%string.
Proof.
  apply (latest_reports_failure Cases.str (fun _ _ => Raise KeyError)
           {| year := 2024; month := 11; day := 15 |}
           {| hour := 10; minute := 30 |}
           (fun _ => None) (fun _ => Raise ValueError) KeyError).
  - left. reflexivity.
  - reflexivity.
Defined.

Lemma latest_retry_is_unguarded_witness :
  finished (latest Cases.str (fun _ _ => Raise KeyError)
              {| year := 2024; month := 11; day := 15 |}
              {| hour := 10; minute := 30 |}
              (fun _ => Some "2024-11-10 10:00"%string)
              (fun _ => Ok ({| year := 2024; month := 11; day := 10 |},
                            {| hour := 10; minute := 0 |})))
  = Raise KeyError.
Proof.
  apply (latest_retry_is_unguarded Cases.str (fun _ _ => Raise KeyError)
           {| year := 2024; month := 11; day := 15 |}
           {| hour := 10; minute := 30 |}
           (fun _ => Some "2024-11-10 10:00"%string)
           (fun _ => Ok ({| year := 2024; month := 11; day := 10 |},
                         {| hour := 10; minute := 0 |}))
           KeyError KeyError "2024-11-10 10:00").
  - left. reflexivity.
  - reflexivity.
  - right. eexists. eexists. split; [reflexivity|]. left. reflexivity.
Defined.

End HandlerExamples.
